(** * BeatBattle: the session synchronisation core

    A shallow embedding of the parts of the listening-party application
    that keep every client's view of the session consistent:

    - the playback clock of the YouTube player component
      ([components/session/youtube-player.tsx] and the older variant of the
      same component),
    - the progress bar ([components/session/song-progress-bar.tsx]),
    - the skip-vote quorum check ([hooks/use-skip-voting.ts]),
    - the session store (the zustand store with [nextSong], [addScore],
      [addSkipVote], [shuffleQueue], [updateSession], ...),
    - the session page and the add-song dialog ([handleStartSession],
      [handleAddSong]).

    Conventions.  Timestamps are integers: milliseconds since the epoch, the
    value of [Date.now()] and of [new Date(iso).getTime()].  JavaScript
    numbers that hold counts, indices and durations are [Z].  Arithmetic
    that the source performs on doubles ([x / 1000], [n * 0.5]) is done over
    the rationals [Q]; on the integers involved the two agree.  Console
    output is not part of the model. *)

From Stdlib Require Import ZArith QArith Qround Qabs Lia.
From stdpp Require Import base option list strings pretty sorting.

Local Open Scope Z_scope.

(** ** Rows of the record store

    The [Row] types of [Database['public']['Tables']], restricted to the
    columns the session core reads or writes. *)

Inductive Status := waiting | playing | finished.

#[global] Instance Status_eq_dec : EqDecision Status.
Proof. solve_decision. Defined.

Module Session.
Record t := mk {
  id : string;
  host_id : string;
  status : Status;
  current_song_index : option Z;
  current_song_started_at : option Z;
  last_activity_at : option Z;
  infinite_mode : option bool;
  min_queue_size : option Z
}.
End Session.

Module Participant.
Record t := mk {
  id : string;
  session_id : string;
  user_name : string;
  is_host : bool;
  joined_at : Z;
  karma : option Z
}.
End Participant.

Module Song.
Record t := mk {
  id : string;
  session_id : string;
  title : string;
  artist : string;
  album_art : string;
  duration : Z;
  source_id : string;
  added_by : string;
  position : Z
}.
End Song.

Module Score.
Record t := mk {
  id : string;
  session_id : string;
  song_id : string;
  participant_id : string;
  rating : Z
}.
End Score.

Module SkipVote.
Record t := mk {
  id : string;
  session_id : string;
  song_id : string;
  participant_id : string
}.
End SkipVote.

(** ** Playback clock *)

(** [Math.floor((now - startTime_ms) / 1000)]. *)
Definition elapsedSeconds (now startTime_ms : Z) : Z :=
  Qfloor (inject_Z (now - startTime_ms) / 1000).

(** [components/session/youtube-player.tsx]. *)
Module YouTubePlayer.

(** [getExpectedPlaybackTime]: [sessionStartedAt] is the prop of the
    component ([None] when it is missing), [startTime] the fallback prop. *)
Definition getExpectedPlaybackTime
    (sessionStartedAt : option Z) (startTime now : Z) : Z :=
  match sessionStartedAt with
  | None => startTime
  | Some startTime_ms =>
      let elapsed := elapsedSeconds now startTime_ms in
      Z.max 0 elapsed
  end.

(** What one tick of the five-second sync interval asks of the player. *)
Inductive Command :=
| PlayVideo
| ShowPlayButton (shown : bool)
| SetIsPlaying (b : bool)
| SeekTo (seconds : Z).

(** The body of the [setInterval] callback.  [state] is the code returned
    by [getPlayerState()] (1 playing, 2 paused, 3 buffering),
    [currentTime] the position reported by [getCurrentTime()] in seconds,
    [interacted] the value of [hasUserInteracted()]. *)
Definition syncTick (sessionStartedAt : option Z) (startTime now : Z)
    (autoplay interacted : bool) (state : Z) (currentTime : Q)
    : list Command :=
  if bool_decide (state = 2) && autoplay then
    if interacted then [PlayVideo] else [ShowPlayButton true]
  else if bool_decide (state = 1) then
    let expectedTime := getExpectedPlaybackTime sessionStartedAt startTime now in
    let drift := Qabs (currentTime - inject_Z expectedTime) in
    [SetIsPlaying true; ShowPlayButton false] ++
    (if Qlt_le_dec 3 drift then [SeekTo expectedTime] else [])
  else [].

End YouTubePlayer.

(** The older variant of the player component (the source file whose
    [getExpectedPlaybackTime] returns [elapsed] as it is). *)
Module YouTubePlayerBasic.

Definition getExpectedPlaybackTime
    (sessionStartedAt : option Z) (startTime now : Z) : Z :=
  match sessionStartedAt with
  | None => startTime
  | Some startTime_ms =>
      let elapsed := elapsedSeconds now startTime_ms in
      elapsed
  end.

End YouTubePlayerBasic.

(** [components/session/song-progress-bar.tsx]. *)
Module SongProgressBar.

(** [clampedElapsed] of [calculateProgress]:
    [Math.max(0, Math.min(elapsedSeconds, duration))]. *)
Definition clampedElapsed (duration startedAt now : Z) : Z :=
  let elapsedSeconds := elapsedSeconds now startedAt in
  Z.max 0 (Z.min elapsedSeconds duration).

End SongProgressBar.

(** ** Skip-vote quorum ([hooks/use-skip-voting.ts]) *)

Module SkipVoting.

(** [skipVotes.filter((v) => v.song_id === currentSong.id)]. *)
Definition songSkipVotes (skipVotes : list SkipVote.t) (currentSong : Song.t)
    : list SkipVote.t :=
  filter (fun v => SkipVote.song_id v = Song.id currentSong) skipVotes.

(** [Math.ceil(participants.length * 0.5)]. *)
Definition skipThreshold (participants : list Participant.t) : Z :=
  Qceiling (inject_Z (Z.of_nat (length participants)) * 0.5).

(** The test of the inner [if]:
    [songSkipVotes.length >= skipThreshold && songSkipVotes.length > 0]. *)
Definition quorumReached (skipVotes : list SkipVote.t) (currentSong : Song.t)
    (participants : list Participant.t) : bool :=
  let n := Z.of_nat (length (songSkipVotes skipVotes currentSong)) in
  bool_decide (skipThreshold participants <= n) && bool_decide (0 < n).

(** The auto-skip effect: [true] when the effect calls [nextSong()]. *)
Definition autoSkip (isHost : bool) (currentSong : option Song.t)
    (session : option Session.t) (isCheckingThreshold : bool)
    (skipVotes : list SkipVote.t) (participants : list Participant.t) : bool :=
  match currentSong, session with
  | Some song, Some s =>
      if negb isHost || negb (bool_decide (Session.status s = playing))
         || isCheckingThreshold
      then false
      else quorumReached skipVotes song participants
  | _, _ => false
  end.

End SkipVoting.

(** ** The record store

    The tables of the Supabase schema as lists of rows, in insertion order,
    and the requests the session core sends.  A request answers with data or
    with an error code, as the [{ data, error }] responses of the client
    library do.  Of the constraints of the schema the two UNIQUE constraints
    on votes are kept ([scores] and [skip_votes]); of the foreign keys only
    the ON DELETE CASCADE of a deleted song is kept; CHECK constraints are
    not modelled, and neither are the columns that only the store fills in
    ([created_at], [updated_at]). *)

Inductive Resp (A : Type) :=
| RespError (code : string)
| RespData (data : A).
Arguments RespError {A} code.
Arguments RespData {A} data.

(** SQLSTATE of a violated UNIQUE constraint. *)
Definition unique_violation : string := "23505".
(** A [.single()] request that does not find exactly one row. *)
Definition not_single_row : string := "PGRST116".
(** A request that never reached the store carries no SQLSTATE. *)
Definition transport_failure : string := EmptyString.

Module KarmaHistory.
Record t := mk {
  participant_id : string;
  session_id : string;
  amount : Z;
  reason : string
}.
End KarmaHistory.

(** [Partial<Session>]: a column is absent ([None]) or given, possibly as
    [null]. *)
Module SessionPatch.
Record t := mk {
  status : option Status;
  current_song_index : option (option Z);
  current_song_started_at : option (option Z);
  last_activity_at : option (option Z);
  infinite_mode : option (option bool)
}.

(** [{ ...updates, last_activity_at: t }]. *)
Definition with_last_activity (stamp : Z) (p : t) : t :=
  mk (status p) (current_song_index p) (current_song_started_at p) (Some (Some stamp))
     (infinite_mode p).

Definition apply (p : t) (s : Session.t) : Session.t :=
  Session.mk (Session.id s) (Session.host_id s)
    (default (Session.status s) (status p))
    (default (Session.current_song_index s) (current_song_index p))
    (default (Session.current_song_started_at s) (current_song_started_at p))
    (default (Session.last_activity_at s) (last_activity_at p))
    (default (Session.infinite_mode s) (infinite_mode p))
    (Session.min_queue_size s).
End SessionPatch.

(** [Omit<Song, 'id' | 'created_at'>] and [Omit<Score, 'id' | 'created_at'>]. *)
Module SongInsert.
Record t := mk {
  session_id : string;
  title : string;
  artist : string;
  album_art : string;
  duration : Z;
  source_id : string;
  added_by : string;
  position : Z
}.

Definition row (id : string) (s : t) : Song.t :=
  Song.mk id (session_id s) (title s) (artist s) (album_art s) (duration s)
    (source_id s) (added_by s) (position s).
End SongInsert.

Module ScoreInsert.
Record t := mk {
  session_id : string;
  song_id : string;
  participant_id : string;
  rating : Z
}.

Definition row (id : string) (s : t) : Score.t :=
  Score.mk id (session_id s) (song_id s) (participant_id s) (rating s).
End ScoreInsert.

Module Db.

Record t := mk {
  sessions : list Session.t;
  participants : list Participant.t;
  songs : list Song.t;
  scores : list Score.t;
  skip_votes : list SkipVote.t;
  karma_history : list KarmaHistory.t;
  next_uuid : nat
}.

(** [gen_random_uuid()]: the store hands out identifiers it has not used. *)
Definition uuid (n : nat) : string := pretty n.

Definition with_sessions (v : list Session.t) (d : t) : t :=
  mk v (participants d) (songs d) (scores d) (skip_votes d) (karma_history d) (next_uuid d).
Definition with_participants (v : list Participant.t) (d : t) : t :=
  mk (sessions d) v (songs d) (scores d) (skip_votes d) (karma_history d) (next_uuid d).
Definition with_songs (v : list Song.t) (d : t) : t :=
  mk (sessions d) (participants d) v (scores d) (skip_votes d) (karma_history d) (next_uuid d).
Definition with_scores (v : list Score.t) (d : t) : t :=
  mk (sessions d) (participants d) (songs d) v (skip_votes d) (karma_history d) (next_uuid d).
Definition with_skip_votes (v : list SkipVote.t) (d : t) : t :=
  mk (sessions d) (participants d) (songs d) (scores d) v (karma_history d) (next_uuid d).
Definition with_karma_history (v : list KarmaHistory.t) (d : t) : t :=
  mk (sessions d) (participants d) (songs d) (scores d) (skip_votes d) v (next_uuid d).
Definition bump_uuid (d : t) : t :=
  mk (sessions d) (participants d) (songs d) (scores d) (skip_votes d) (karma_history d)
     (S (next_uuid d)).

(** A request: what it answers and what it leaves in the store. *)
Definition op (A : Type) : Type := t -> Resp A * t.

(** [from('sessions').select('*').eq('id', id).single()]. *)
Definition select_session (id : string) : op Session.t := fun d =>
  match filter (fun s => Session.id s = id) (sessions d) with
  | [s] => (RespData s, d)
  | _ => (RespError not_single_row, d)
  end.

(** [from('sessions').update(patch).eq('id', id).select().single()]. *)
Definition update_session (id : string) (patch : SessionPatch.t) : op Session.t := fun d =>
  match filter (fun s => Session.id s = id) (sessions d) with
  | [s] =>
      let s' := SessionPatch.apply patch s in
      (RespData s',
       with_sessions
         (map (fun r => if decide (Session.id r = id) then SessionPatch.apply patch r else r)
              (sessions d)) d)
  | _ => (RespError not_single_row, d)
  end.

Definition joined_before (a b : Participant.t) : Prop :=
  Participant.joined_at a <= Participant.joined_at b.
Definition positioned_before (a b : Song.t) : Prop :=
  Song.position a <= Song.position b.

#[global] Instance joined_before_dec : RelDecision joined_before.
Proof. intros a b; unfold joined_before; apply _. Defined.
#[global] Instance positioned_before_dec : RelDecision positioned_before.
Proof. intros a b; unfold positioned_before; apply _. Defined.

(** [from('participants').select('*').eq('session_id', id)
      .order('joined_at', { ascending: true })]. *)
Definition select_participants (session_id : string) : op (list Participant.t) := fun d =>
  (RespData
     (merge_sort joined_before
        (filter (fun p => Participant.session_id p = session_id) (participants d))), d).

(** [from('songs').select('*').eq('session_id', id)
      .order('position', { ascending: true })]. *)
Definition select_songs (session_id : string) : op (list Song.t) := fun d =>
  (RespData
     (merge_sort positioned_before
        (filter (fun s => Song.session_id s = session_id) (songs d))), d).

(** [from('scores').select('*').eq('session_id', id)]. *)
Definition select_scores (session_id : string) : op (list Score.t) := fun d =>
  (RespData (filter (fun s => Score.session_id s = session_id) (scores d)), d).

(** [from('skip_votes').select('*').eq('session_id', id)]. *)
Definition select_skip_votes (session_id : string) : op (list SkipVote.t) := fun d =>
  (RespData (filter (fun v => SkipVote.session_id v = session_id) (skip_votes d)), d).

(** The key of the constraint [UNIQUE(session_id, song_id, participant_id)]
    of [skip_votes]. *)
Definition skip_vote_key (session_id song_id participant_id : string)
    (v : SkipVote.t) : Prop :=
  SkipVote.session_id v = session_id /\ SkipVote.song_id v = song_id
  /\ SkipVote.participant_id v = participant_id.

#[global] Instance skip_vote_key_dec a b c v : Decision (skip_vote_key a b c v).
Proof. unfold skip_vote_key; apply _. Defined.

(** [from('skip_votes').select('id').eq('session_id', ..).eq('song_id', ..)
      .eq('participant_id', ..)]. *)
Definition select_skip_vote_ids (session_id song_id participant_id : string)
    : op (list string) := fun d =>
  (RespData
     (map SkipVote.id
        (filter (skip_vote_key session_id song_id participant_id) (skip_votes d))), d).

(** [from('skip_votes').insert([row]).select().single()]; the insert is
    refused when the key is taken. *)
Definition insert_skip_vote (session_id song_id participant_id : string)
    : op SkipVote.t := fun d =>
  match filter (skip_vote_key session_id song_id participant_id) (skip_votes d) with
  | [] =>
      let row := SkipVote.mk (uuid (next_uuid d)) session_id song_id participant_id in
      (RespData row, bump_uuid (with_skip_votes (skip_votes d ++ [row]) d))
  | _ => (RespError unique_violation, d)
  end.

(** The key of the constraint [UNIQUE(song_id, participant_id)] of
    [scores]. *)
Definition score_key (song_id participant_id : string) (s : Score.t) : Prop :=
  Score.song_id s = song_id /\ Score.participant_id s = participant_id.

#[global] Instance score_key_dec a b s : Decision (score_key a b s).
Proof. unfold score_key; apply _. Defined.

(** [from('scores').insert([score]).select().single()]. *)
Definition insert_score (score : ScoreInsert.t) : op Score.t := fun d =>
  match filter (score_key (ScoreInsert.song_id score) (ScoreInsert.participant_id score))
               (scores d) with
  | [] =>
      let row := ScoreInsert.row (uuid (next_uuid d)) score in
      (RespData row, bump_uuid (with_scores (scores d ++ [row]) d))
  | _ => (RespError unique_violation, d)
  end.

(** [from('songs').insert([song]).select().single()]. *)
Definition insert_song (song : SongInsert.t) : op Song.t := fun d =>
  let row := SongInsert.row (uuid (next_uuid d)) song in
  (RespData row, bump_uuid (with_songs (songs d ++ [row]) d)).

(** [from('songs').update({ position }).eq('id', id)]. *)
Definition update_song_position (id : string) (position : Z) : op unit := fun d =>
  (RespData tt,
   with_songs
     (map (fun s =>
             if decide (Song.id s = id)
             then Song.mk (Song.id s) (Song.session_id s) (Song.title s) (Song.artist s)
                    (Song.album_art s) (Song.duration s) (Song.source_id s)
                    (Song.added_by s) position
             else s)
          (songs d)) d).

(** [from('karma_history').insert(entry)]. *)
Definition insert_karma_history (entry : KarmaHistory.t) : op unit := fun d =>
  (RespData tt, with_karma_history (karma_history d ++ [entry]) d).

Definition set_karma (karma : Z) (p : Participant.t) : Participant.t :=
  Participant.mk (Participant.id p) (Participant.session_id p) (Participant.user_name p)
    (Participant.is_host p) (Participant.joined_at p) (Some karma).

(** [from('participants').update({ karma }).eq('id', id)]. *)
Definition update_participant_karma (id : string) (karma : Z) : op unit := fun d =>
  (RespData tt,
   with_participants
     (map (fun p => if decide (Participant.id p = id) then set_karma karma p else p)
          (participants d)) d).

(** [from('skip_votes').delete().eq('session_id', ..).eq('song_id', ..)
      .eq('participant_id', ..)]: deleting no row is no error. *)
Definition delete_skip_vote (session_id song_id participant_id : string) : op unit := fun d =>
  (RespData tt,
   with_skip_votes
     (filter (fun v => ~ skip_vote_key session_id song_id participant_id v) (skip_votes d)) d).

(** [from('songs').delete().eq('id', id)]; the scores and skip votes of the
    song go with it ([REFERENCES songs(id) ON DELETE CASCADE]). *)
Definition delete_song (id : string) : op unit := fun d =>
  (RespData tt,
   with_skip_votes (filter (fun v => SkipVote.song_id v <> id) (skip_votes d))
     (with_scores (filter (fun s => Score.song_id s <> id) (scores d))
        (with_songs (filter (fun s => Song.id s <> id) (songs d)) d))).

(** [from('force_plays').insert([...])]: the table is written and never
    read by the session core; it has no place in the model. *)
Definition insert_force_play (session_id participant_id song_id : string) : op unit :=
  fun d => (RespData tt, d).

(** [from('reactions').select('*').eq('session_id', id)]: reactions are not
    part of the model; the request is. *)
Definition select_reactions (session_id : string) : op unit :=
  fun d => (RespData tt, d).

End Db.

(** ** One client and its surroundings *)

(** What a rejected promise carries: the error object of a store response,
    or [new Error(message)]. *)
Inductive Error :=
| StoreError (code : string)
| JsError (message : string).

Inductive Result (A : Type) :=
| Ok (value : A)
| Throw (e : Error).
Arguments Ok {A} value.
Arguments Throw {A} e.

(** Payload of the [song_changed] event. *)
Module SongChanged.
Record t := mk {
  session_id : string;
  song_id : string;
  song_index : Z;
  started_at : Z;
  host_id : string;
  timestamp : Z
}.
End SongChanged.

(** The events of [BroadcastEvents] the session core publishes. *)
Inductive Broadcast :=
| session_started (session_id host_id first_song_id : string) (timestamp : Z)
| session_ended (session_id host_id : string) (timestamp : Z)
| song_changed (data : SongChanged.t)
| song_added (song_id title artist added_by : string) (timestamp : Z)
| score_added (score_id song_id participant_id participant_name : string)
    (rating timestamp : Z)
| skip_vote_added (skip_vote_id song_id participant_id participant_name : string)
    (timestamp : Z)
| skip_vote_removed (skip_vote_id song_id participant_id : string) (timestamp : Z).

(** What [alert(...)] shows to the user. *)
Inductive Alert :=
| TooLong (duration : Z)
| FailedToAdd (e : Error).

(** The zustand store ([SessionState] without its actions); [realtime] tells
    whether the [SessionRealtime] object is there. *)
Module State.
Record t := mk {
  session : option Session.t;
  participants : list Participant.t;
  songs : list Song.t;
  scores : list Score.t;
  skipVotes : list SkipVote.t;
  currentParticipant : option Participant.t;
  realtime : bool
}.

Definition initial : t := mk None [] [] [] [] None false.

Definition with_session (v : option Session.t) (s : t) : t :=
  mk v (participants s) (songs s) (scores s) (skipVotes s) (currentParticipant s) (realtime s).
Definition with_participants (v : list Participant.t) (s : t) : t :=
  mk (session s) v (songs s) (scores s) (skipVotes s) (currentParticipant s) (realtime s).
Definition with_songs (v : list Song.t) (s : t) : t :=
  mk (session s) (participants s) v (scores s) (skipVotes s) (currentParticipant s) (realtime s).
Definition with_scores (v : list Score.t) (s : t) : t :=
  mk (session s) (participants s) (songs s) v (skipVotes s) (currentParticipant s) (realtime s).
Definition with_skipVotes (v : list SkipVote.t) (s : t) : t :=
  mk (session s) (participants s) (songs s) (scores s) v (currentParticipant s) (realtime s).
End State.

(** The client together with everything it talks to.  Other clients work
    on the same record store: [others k] is what they have written by the
    time this client's [k]-th request is executed.  [faults k] tells whether
    that request is lost on the way.  [randoms] are the draws of
    [Math.random]; [clock] is [Date.now()], which one action reads as one
    instant.  [sent] and [alerts] record what the client has published and
    shown, oldest first. *)
Record World := mkWorld {
  store : State.t;
  db : Db.t;
  sent : list Broadcast;
  alerts : list Alert;
  clock : Z;
  calls : nat;
  faults : nat -> bool;
  others : nat -> Db.t -> Db.t;
  randoms : nat -> nat;
  draws : nat
}.

(** An asynchronous action: it runs on the world and resolves or rejects. *)
Definition M (A : Type) : Type := World -> Result A * World.

#[global] Instance M_ret : MRet M := fun A a w => (Ok a, w).
#[global] Instance M_bind : MBind M := fun A B k m w =>
  match m w with
  | (Ok a, w') => k a w'
  | (Throw e, w') => (Throw e, w')
  end.

Definition throw {A} (e : Error) : M A := fun w => (Throw e, w).

(** [try { m } catch (e) { h e }]: what [m] did before it threw stays done. *)
Definition try_catch {A} (m : M A) (h : Error -> M A) : M A := fun w =>
  match m w with
  | (Ok a, w') => (Ok a, w')
  | (Throw e, w') => h e w'
  end.

(** [get()]. *)
Definition get : M State.t := fun w => (Ok (store w), w).

(** [set({ ... })]. *)
Definition set (f : State.t -> State.t) : M unit := fun w =>
  (Ok tt,
   mkWorld (f (store w)) (db w) (sent w) (alerts w) (clock w) (calls w)
     (faults w) (others w) (randoms w) (draws w)).

(** [Date.now()], and the instant [new Date().toISOString()] denotes. *)
Definition now : M Z := fun w => (Ok (clock w), w).

(** [await supabase.from(...)...]: the other clients' writes land, then the
    request is executed, unless it is lost. *)
Definition request {A} (op : Db.op A) : M (Resp A) := fun w =>
  let k := calls w in
  let d := others w k (db w) in
  let '(r, d') := if faults w k then (RespError transport_failure, d) else op d in
  (Ok r,
   mkWorld (store w) d' (sent w) (alerts w) (clock w) (S k)
     (faults w) (others w) (randoms w) (draws w)).

(** [await realtime.broadcast.send(event, payload)]; the delivery status it
    resolves to is not looked at by any caller. *)
Definition broadcast_send (ev : Broadcast) : M unit := fun w =>
  (Ok tt,
   mkWorld (store w) (db w) (sent w ++ [ev]) (alerts w) (clock w) (calls w)
     (faults w) (others w) (randoms w) (draws w)).

Definition alert (a : Alert) : M unit := fun w =>
  (Ok tt,
   mkWorld (store w) (db w) (sent w) (alerts w ++ [a]) (clock w) (calls w)
     (faults w) (others w) (randoms w) (draws w)).

(** [Math.floor(Math.random() * n)] for [n >= 1]: an integer below [n]. *)
Definition random_below (n : nat) : M nat := fun w =>
  (Ok (randoms w (draws w) `mod` n)%nat,
   mkWorld (store w) (db w) (sent w) (alerts w) (clock w) (calls w)
     (faults w) (others w) (randoms w) (S (draws w))).

(** [xs[i]] for a JavaScript number [i]. *)
Definition js_index {A} (xs : list A) (i : Z) : option A :=
  if decide (0 <= i) then xs !! Z.to_nat i else None.

(** [name || fallback] on strings. *)
Definition or_string (name fallback : string) : string :=
  if decide (name = EmptyString) then fallback else name.

Definition dquote : string := String (Ascii.ascii_of_nat 34) EmptyString.

(** [await Promise.all(promises)] for requests issued one after the other. *)
Fixpoint Promise_all {A} (ops : list (Db.op A)) : M (list (Resp A)) :=
  match ops with
  | [] => mret []
  | op :: rest =>
      r ← request op;
      rs ← Promise_all rest;
      mret (r :: rs)
  end.

Definition is_error {A} (r : Resp A) : bool :=
  match r with RespError _ => true | RespData _ => false end.

(** Payload of the [score_added] event. *)
Module ScoreAdded.
Record t := mk {
  score_id : string;
  song_id : string;
  participant_id : string;
  participant_name : string;
  rating : Z;
  timestamp : Z
}.
End ScoreAdded.

(** A notification of the change feed: [{ eventType, new }]. *)
Inductive ChangeType := INSERT | UPDATE | DELETE.

Module Change.
Record t (Row : Type) := mk {
  eventType : ChangeType;
  new : option Row
}.
Arguments mk {Row} eventType new.
Arguments eventType {Row} _.
Arguments new {Row} _.
End Change.

(** ** The session store *)

Module SessionStore.

(** [awardKarma]: the ledger entry, then the participant's total, then the
    local copy; every failure is swallowed. *)
Definition awardKarma (participantId : string) (amount : Z) (reason : string) : M unit :=
  st ← get;
  match State.session st with
  | None => mret tt
  | Some session =>
      try_catch
        (r ← request (Db.insert_karma_history
               (KarmaHistory.mk participantId (Session.id session) amount reason));
         match r with
         | RespError _ => mret tt
         | RespData _ =>
             match list_find (fun p => Participant.id p = participantId)
                             (State.participants st) with
             | None => mret tt
             | Some (_, participant) =>
                 let newKarma := default 0 (Participant.karma participant) + amount in
                 r' ← request (Db.update_participant_karma participantId newKarma);
                 match r' with
                 | RespError _ => mret tt
                 | RespData _ =>
                     set (State.with_participants
                            (map (fun p =>
                                    if decide (Participant.id p = participantId)
                                    then Db.set_karma newKarma p else p)
                                 (State.participants st)))
                 end
             end
         end)
        (fun _ => mret tt)
  end.

(** [updateSession]. *)
Definition updateSession (updates : SessionPatch.t) : M unit :=
  st ← get;
  match State.session st with
  | None => mret tt
  | Some session =>
      let realtime := State.realtime st in
      t ← now;
      let updatesWithActivity := SessionPatch.with_last_activity t updates in
      r ← request (Db.update_session (Session.id session) updatesWithActivity);
      match r with
      | RespError code => throw (StoreError code)
      | RespData data =>
          set (State.with_session (Some data));;
          if realtime then
            (* session started *)
            (if bool_decide (SessionPatch.status updates = Some playing)
                && bool_decide (Session.status session = waiting)
             then
               st1 ← get;
               match State.songs st1 !! 0%nat with
               | Some firstSong =>
                   ts ← now;
                   broadcast_send
                     (session_started (Session.id session) (Session.host_id session)
                        (Song.id firstSong) ts)
               | None => mret tt
               end
             else mret tt);;
            (* session ended *)
            (if bool_decide (SessionPatch.status updates = Some finished)
             then
               participants ← request (Db.select_participants (Session.id session));
               songs ← request (Db.select_songs (Session.id session));
               scores ← request (Db.select_scores (Session.id session));
               set (fun s =>
                      State.with_scores
                        (match scores with RespData v => v | RespError _ => [] end)
                        (State.with_songs
                           (match songs with RespData v => v | RespError _ => [] end)
                           (State.with_participants
                              (match participants with RespData v => v | RespError _ => [] end)
                              s)));;
               ts ← now;
               broadcast_send
                 (session_ended (Session.id session) (Session.host_id session) ts)
             else mret tt);;
            (* song changed *)
            match SessionPatch.current_song_index updates with
            | Some (Some index) =>
                st2 ← get;
                match js_index (State.songs st2) index with
                | Some currentSong =>
                    ts ← now;
                    broadcast_send
                      (song_changed
                         (SongChanged.mk (Session.id session) (Song.id currentSong) index
                            (match SessionPatch.current_song_started_at updates with
                             | Some (Some started) => started
                             | _ => ts
                             end)
                            (Session.host_id session) ts))
                | None => mret tt
                end
            | _ => mret tt
            end
          else mret tt
      end
  end.

(** [addSong]. *)
Definition addSong (song : SongInsert.t) : M unit :=
  st ← get;
  let realtime := State.realtime st in
  let currentParticipant := State.currentParticipant st in
  r ← request (Db.insert_song song);
  match r with
  | RespError code => throw (StoreError code)
  | RespData data =>
      (if decide (SongInsert.added_by song = EmptyString) then mret tt
       else awardKarma (SongInsert.added_by song) 2
              ("Added song " +:+ dquote +:+ SongInsert.title song +:+ dquote));;
      st1 ← get;
      match State.session st1 with
      | None => mret tt
      | Some session =>
          allSongs ← request (Db.select_songs (Session.id session));
          match allSongs with
          | RespError _ => mret tt
          | RespData allSongs =>
              set (State.with_songs allSongs);;
              match realtime, currentParticipant with
              | true, Some p =>
                  ts ← now;
                  broadcast_send
                    (song_added (Song.id data) (Song.title data) (Song.artist data)
                       (or_string (Participant.user_name p) "Unknown") ts)
              | _, _ => mret tt
              end
          end
      end
  end.

(** [reorderSongs]: one position update per song, then the local list. *)
Definition reorderSongs (songs : list Song.t) : M unit :=
  let updates := imap (fun index song => (Song.id song, Z.of_nat index)) songs in
  results ← Promise_all
              (map (fun update => Db.update_song_position (fst update) (snd update)) updates);
  let errors := filter (fun r => is_error r = true) results in
  if decide (0 < length errors)%nat
  then throw (JsError "Failed to reorder songs")
  else set (State.with_songs songs).

(** [[shuffled[i], shuffled[j]] = [shuffled[j], shuffled[i]]]; the loop
    below only calls it with [j <= i < shuffled.length]. *)
Definition swap {A} (shuffled : list A) (i j : nat) : list A :=
  match shuffled !! i, shuffled !! j with
  | Some a, Some b => <[j := a]> (<[i := b]> shuffled)
  | _, _ => shuffled
  end.

(** [for (let i = ...; i > 0; i--) { j = Math.floor(Math.random() * (i + 1)); swap }]. *)
Fixpoint shuffle_loop {A} (i : nat) (shuffled : list A) : M (list A) :=
  match i with
  | O => mret shuffled
  | S i' =>
      j ← random_below (i + 1);
      shuffle_loop i' (swap shuffled i j)
  end.

(** [shuffleQueue]. *)
Definition shuffleQueue : M unit :=
  st ← get;
  match State.session st with
  | None => mret tt
  | Some session =>
      if decide (Session.status session = playing) then mret tt
      else
        shuffled ← shuffle_loop (length (State.songs st) - 1)%nat (State.songs st);
        reorderSongs shuffled
  end.

(** [addScore]. *)
Definition addScore (score : ScoreInsert.t) : M unit :=
  st ← get;
  let realtime := State.realtime st in
  let currentParticipant := State.currentParticipant st in
  let scores := State.scores st in
  let songs := State.songs st in
  r ← request (Db.insert_score score);
  match r with
  | RespError code => throw (StoreError code)
  | RespData scoreData =>
      set (State.with_scores (scores ++ [scoreData]));;
      awardKarma (Score.participant_id scoreData) 1 "Voted on a song";;
      (if decide (4 <= Score.rating scoreData) then
         match list_find (fun s => Song.id s = Score.song_id scoreData) songs with
         | Some (_, song) =>
             if decide (Song.added_by song = Score.participant_id scoreData) then mret tt
             else
               let karmaBonus := if decide (Score.rating scoreData = 5) then 3 else 2 in
               awardKarma (Song.added_by song) karmaBonus
                 ("Song " +:+ dquote +:+ Song.title song +:+ dquote +:+ " received "
                  +:+ pretty (Score.rating scoreData) +:+ " stars")
         | None => mret tt
         end
       else mret tt);;
      match realtime, currentParticipant with
      | true, Some p =>
          ts ← now;
          broadcast_send
            (score_added (Score.id scoreData) (Score.song_id scoreData)
               (Score.participant_id scoreData)
               (or_string (Participant.user_name p) "Unknown")
               (Score.rating scoreData) ts)
      | _, _ => mret tt
      end
  end.

(** [addSkipVote]. *)
Definition addSkipVote (songId : string) : M unit :=
  st ← get;
  match State.session st, State.currentParticipant st with
  | Some session, Some currentParticipant =>
      let realtime := State.realtime st in
      existingVotes ← request (Db.select_skip_vote_ids (Session.id session) songId
                                 (Participant.id currentParticipant));
      match existingVotes with
      | RespData (_ :: _) => mret tt
      | _ =>
          r ← request (Db.insert_skip_vote (Session.id session) songId
                         (Participant.id currentParticipant));
          match r with
          | RespError code =>
              if decide (code = unique_violation) then mret tt
              else throw (StoreError code)
          | RespData voteData =>
              data ← request (Db.select_skip_votes (Session.id session));
              match data with
              | RespData data => set (State.with_skipVotes data)
              | RespError _ => mret tt
              end;;
              if realtime then
                ts ← now;
                broadcast_send
                  (skip_vote_added (SkipVote.id voteData) songId
                     (Participant.id currentParticipant)
                     (or_string (Participant.user_name currentParticipant) "Anonymous") ts)
              else mret tt
          end
      end
  | _, _ => mret tt
  end.

(** [nextSong]. *)
Definition nextSong : M unit :=
  st ← get;
  match State.session st with
  | None => mret tt
  | Some session =>
      match Session.current_song_index session with
      | None => mret tt
      | Some current_song_index =>
          let nextIndex := current_song_index + 1 in
          if decide (Z.of_nat (length (State.songs st)) <= nextIndex) then
            updateSession
              (SessionPatch.mk (Some finished) None None None None)
          else
            t ← now;
            updateSession
              (SessionPatch.mk None (Some (Some nextIndex)) (Some (Some t)) None None)
      end
  end.

(** The listener that [subscribeToSession] registers for [song_changed]. *)
Definition onSongChanged (sessionId : string) (data : SongChanged.t) : M unit :=
  st ← get;
  if decide (State.session st ≫= Session.current_song_index
             = Some (SongChanged.song_index data))
  then mret tt
  else
    r ← request (Db.select_session sessionId);
    match r with
    | RespData sessionData =>
        set (State.with_session (Some sessionData));;
        set (State.with_skipVotes []);;
        newSkipVotes ← request (Db.select_skip_votes sessionId);
        match newSkipVotes with
        | RespData newSkipVotes => set (State.with_skipVotes newSkipVotes)
        | RespError _ => mret tt
        end
    | RespError _ => mret tt
    end.

(** [setCurrentParticipant]. *)
Definition setCurrentParticipant (participant : Participant.t) : M unit :=
  set (fun s =>
         State.mk (State.session s) (State.participants s) (State.songs s)
           (State.scores s) (State.skipVotes s) (Some participant) (State.realtime s)).

(** [loadSession]: six reads, the first error is thrown (and rethrown by the
    surrounding [catch]); the store is set once, at the end. *)
Definition loadSession (sessionId : string) : M unit :=
  try_catch
    (session ← request (Db.select_session sessionId);
     match session with
     | RespError code => throw (StoreError code)
     | RespData session =>
         participants ← request (Db.select_participants sessionId);
         match participants with
         | RespError code => throw (StoreError code)
         | RespData participants =>
             songs ← request (Db.select_songs sessionId);
             match songs with
             | RespError code => throw (StoreError code)
             | RespData songs =>
                 scores ← request (Db.select_scores sessionId);
                 match scores with
                 | RespError code => throw (StoreError code)
                 | RespData scores =>
                     skipVotes ← request (Db.select_skip_votes sessionId);
                     match skipVotes with
                     | RespError code => throw (StoreError code)
                     | RespData skipVotes =>
                         reactions ← request (Db.select_reactions sessionId);
                         match reactions with
                         | RespError code => throw (StoreError code)
                         | RespData _ =>
                             set (fun s =>
                                    State.mk (Some session) participants songs scores
                                      skipVotes (State.currentParticipant s)
                                      (State.realtime s))
                         end
                     end
                 end
             end
         end
     end)
    (fun error => throw error).

(** [toggleInfiniteMode]. *)
Definition toggleInfiniteMode : M unit :=
  st ← get;
  match State.session st with
  | None => mret tt
  | Some session =>
      let newInfiniteMode := negb (default false (Session.infinite_mode session)) in
      r ← request (Db.update_session (Session.id session)
                     (SessionPatch.mk None None None None (Some (Some newInfiniteMode))));
      match r with
      | RespError code => throw (StoreError code)
      | RespData data => set (State.with_session (Some data))
      end
  end.

(** [removeSong]. *)
Definition removeSong (songId : string) : M unit :=
  r ← request (Db.delete_song songId);
  match r with
  | RespError code => throw (StoreError code)
  | RespData _ =>
      st ← get;
      match State.session st with
      | None => mret tt
      | Some session =>
          data ← request (Db.select_songs (Session.id session));
          match data with
          | RespData data => set (State.with_songs data)
          | RespError _ => mret tt
          end
      end
  end.

(** [removeSkipVote]. *)
Definition removeSkipVote (songId : string) : M unit :=
  st ← get;
  match State.session st, State.currentParticipant st with
  | Some session, Some currentParticipant =>
      let realtime := State.realtime st in
      r ← request (Db.delete_skip_vote (Session.id session) songId
                     (Participant.id currentParticipant));
      match r with
      | RespError code => throw (StoreError code)
      | RespData _ =>
          data ← request (Db.select_skip_votes (Session.id session));
          match data with
          | RespData data => set (State.with_skipVotes data)
          | RespError _ => mret tt
          end;;
          if realtime then
            ts ← now;
            broadcast_send
              (skip_vote_removed
                 (Session.id session +:+ "-" +:+ songId +:+ "-"
                  +:+ Participant.id currentParticipant)
                 songId (Participant.id currentParticipant) ts)
          else mret tt
      end
  | _, _ => mret tt
  end.

(** [forcePlaySong]. *)
Definition forcePlaySong (songId participantId : string) : M unit :=
  st ← get;
  match State.session st with
  | None => mret tt
  | Some session =>
      match list_find (fun s => Song.id s = songId) (State.songs st) with
      | None => mret tt
      | Some (_, song) =>
          _ ← request (Db.insert_force_play (Session.id session) participantId songId);
          t ← now;
          updateSession
            (SessionPatch.mk None (Some (Some (Song.position song))) (Some (Some t)) None None)
      end
  end.

(** The listener for [score_added].  The temporary score it builds takes its
    [created_at] from the event's timestamp; [Score.t] has no such column,
    so the model keeps the other five fields only. *)
Definition onScoreAdded (sessionId : string) (data : ScoreAdded.t) : M unit :=
  st ← get;
  let scores := State.scores st in
  match list_find (fun s => Score.song_id s = ScoreAdded.song_id data
                            /\ Score.participant_id s = ScoreAdded.participant_id data)
                  scores with
  | Some _ => mret tt
  | None =>
      let newScore :=
        Score.mk (ScoreAdded.score_id data) sessionId (ScoreAdded.song_id data)
          (ScoreAdded.participant_id data) (ScoreAdded.rating data) in
      set (State.with_scores (scores ++ [newScore]))
  end.

(** The listener for [song_added]. *)
Definition onSongAdded (sessionId : string) (song_id : string) : M unit :=
  st ← get;
  let songExists := existsb (fun s => bool_decide (Song.id s = song_id)) (State.songs st) in
  if songExists then mret tt
  else
    allSongs ← request (Db.select_songs sessionId);
    match allSongs with
    | RespData allSongs => set (State.with_songs allSongs)
    | RespError _ => mret tt
    end.

(** The listeners for [session_started] ([target = playing]) and
    [session_ended] ([target = finished]): the same code but for the status
    they compare with. *)
Definition onSessionStatus (target : Status) (sessionId : string) : M unit :=
  st ← get;
  if decide (Session.status <$> State.session st = Some target) then mret tt
  else
    r ← request (Db.select_session sessionId);
    match r with
    | RespData sessionData => set (State.with_session (Some sessionData))
    | RespError _ => mret tt
    end.

Definition onSessionStarted : string -> M unit := onSessionStatus playing.
Definition onSessionEnded : string -> M unit := onSessionStatus finished.

(** The listeners for [skip_vote_added] and [skip_vote_removed], and the
    change-feed listener of [skip_votes]: all three reload. *)
Definition reloadSkipVotes (sessionId : string) : M unit :=
  allSkipVotes ← request (Db.select_skip_votes sessionId);
  match allSkipVotes with
  | RespData allSkipVotes => set (State.with_skipVotes allSkipVotes)
  | RespError _ => mret tt
  end.

(** [realtime.postgres.onSession]. *)
Definition onSessionChange (change : Change.t Session.t) : M unit :=
  match Change.eventType change, Change.new change with
  | UPDATE, Some new => set (State.with_session (Some new))
  | _, _ => mret tt
  end.

(** [realtime.postgres.onSongs]. *)
Definition onSongsChange (sessionId : string) : M unit :=
  data ← request (Db.select_songs sessionId);
  match data with
  | RespData data => set (State.with_songs data)
  | RespError _ => mret tt
  end.

(** [realtime.postgres.onParticipants]. *)
Definition onParticipantsChange (sessionId : string) : M unit :=
  data ← request (Db.select_participants sessionId);
  match data with
  | RespData data => set (State.with_participants data)
  | RespError _ => mret tt
  end.

(** [realtime.postgres.onScores]. *)
Definition onScoresChange (change : Change.t Score.t) : M unit :=
  st ← get;
  let scores := State.scores st in
  match Change.eventType change, Change.new change with
  | INSERT, Some new =>
      match list_find (fun s => Score.id s = Score.id new) scores with
      | Some _ => mret tt
      | None => set (State.with_scores (scores ++ [new]))
      end
  | _, _ => mret tt
  end.

End SessionStore.

(** ** The session page and the add-song dialog *)

(** A candidate returned by the song search. *)
Module SearchResult.
Record t := mk {
  id : string;
  title : string;
  artist : string;
  thumbnail : string;
  duration : Z
}.
End SearchResult.

(** The handlers of the page read [session], [songs] and
    [currentParticipant] as the last render took them from the store; the
    model reads the store when the handler runs. *)
Module SessionPage.

(** [isHost = currentParticipant?.is_host || false]. *)
Definition isHost (st : State.t) : bool :=
  match State.currentParticipant st with
  | Some p => Participant.is_host p
  | None => false
  end.

(** [handleStartSession]. *)
Definition handleStartSession : M unit :=
  st ← get;
  match State.session st with
  | None => mret tt
  | Some _ =>
      if negb (isHost st) || bool_decide (length (State.songs st) = 0%nat)
      then mret tt
      else
        try_catch
          (SessionStore.shuffleQueue;;
           t ← now;
           SessionStore.updateSession
             (SessionPatch.mk (Some playing) (Some (Some 0)) (Some (Some t)) None None))
          (fun _ => mret tt)
  end.

(** [handleAddSong] of the page, the [onAddSong] prop of the dialog. *)
Definition handleAddSong (song : SearchResult.t) : M unit :=
  st ← get;
  match State.session st with
  | None => throw (JsError "No session found")
  | Some session =>
      match State.currentParticipant st with
      | None => throw (JsError "No current participant found")
      | Some currentParticipant =>
          let songs := State.songs st in
          let isDuplicate :=
            existsb (fun s => bool_decide (Song.source_id s = SearchResult.id song)) songs in
          if isDuplicate then throw (JsError "This song is already in the queue")
          else
            try_catch
              (SessionStore.addSong
                 (SongInsert.mk (Session.id session) (SearchResult.title song)
                    (SearchResult.artist song) (SearchResult.thumbnail song)
                    (SearchResult.duration song) (SearchResult.id song)
                    (Participant.id currentParticipant)
                    (Z.of_nat (length songs))))
              (fun error => throw error)
      end
  end.

(** [currentSong]: the song at the session's index, if any. *)
Definition currentSong (st : State.t) : option Song.t :=
  match State.session st with
  | Some session =>
      match Session.current_song_index session with
      | Some index => js_index (State.songs st) index
      | None => None
      end
  | None => None
  end.

(** The two pieces of component state the voting stars show. *)
Record Voting := mkVoting {
  currentRating : Z;
  hasVoted : bool
}.

(** The effect that looks for the participant's score for the current song.
    It leaves the component state alone when there is no current song or
    no participant. *)
Definition votedEffect (st : State.t) (v : Voting) : Voting :=
  match State.session st, State.currentParticipant st with
  | Some session, Some currentParticipant =>
      match Session.current_song_index session with
      | Some index =>
          if decide (0 < length (State.songs st))%nat then
            match js_index (State.songs st) index with
            | Some currentSong =>
                match list_find
                        (fun s => Score.song_id s = Song.id currentSong
                                  /\ Score.participant_id s = Participant.id currentParticipant)
                        (State.scores st) with
                | Some (_, existingScore) => mkVoting (Score.rating existingScore) true
                | None => mkVoting 0 false
                end
            | None => v
            end
          else v
      | None => v
      end
  | _, _ => v
  end.

(** [handleVote]; it answers with the component state it leaves. *)
Definition handleVote (v : Voting) (rating : Z) : M Voting :=
  st ← get;
  match State.session st, State.currentParticipant st with
  | Some session, Some currentParticipant =>
      match Session.current_song_index session with
      | Some index =>
          if hasVoted v then mret v
          else
            match js_index (State.songs st) index with
            | None => mret v
            | Some currentSong =>
                SessionStore.addScore
                  (ScoreInsert.mk (Session.id session) (Song.id currentSong)
                     (Participant.id currentParticipant) rating);;
                mret (mkVoting rating true)
            end
      | None => mret v
      end
  | _, _ => mret v
  end.

(** [handleSongEnd]. *)
Definition handleSongEnd : M unit :=
  st ← get;
  if isHost st then try_catch SessionStore.nextSong (fun _ => mret tt)
  else mret tt.

(** [handleFinishSession]; [confirmed] is the answer to [window.confirm]. *)
Definition handleFinishSession (confirmed : bool) : M unit :=
  st ← get;
  match State.session st with
  | None => mret tt
  | Some _ =>
      if negb (isHost st) then mret tt
      else if negb confirmed then mret tt
      else
        try_catch
          (SessionStore.updateSession (SessionPatch.mk (Some finished) None None None None))
          (fun _ => mret tt)
  end.

End SessionPage.

Module AddSongDialog.

Definition MAX_DURATION : Z := 360.

(** [handleAddSong] of the dialog. *)
Definition handleAddSong (onAddSong : SearchResult.t -> M unit)
    (song : SearchResult.t) : M unit :=
  if decide (MAX_DURATION < SearchResult.duration song) then
    alert (TooLong (SearchResult.duration song))
  else
    try_catch (onAddSong song) (fun error => alert (FailedToAdd error)).

End AddSongDialog.


(** The rest of [hooks/use-skip-voting.ts]. *)
Module UseSkipVoting.

(** [elapsedTime] is component state, [useState(0)]; it is written by the
    effect below and by the one-second interval the effect installs.
    [interval] is the start timestamp the running interval has closed over,
    if one is running. *)
Record Elapsed := mkElapsed {
  elapsedTime : Z;
  interval : option Z
}.

Definition initialElapsed : Elapsed := mkElapsed 0 None.

(** The effect, which runs when [current_song_started_at] or [status]
    change.  The interval of the previous run is cleared.  Without a start
    timestamp or outside [playing], [elapsedTime] is set to 0; otherwise a
    new interval is installed and [elapsedTime] is left as it is. *)
Definition elapsedEffect (session : option Session.t) (h : Elapsed) : Elapsed :=
  match session with
  | Some s =>
      match Session.current_song_started_at s with
      | Some startTime =>
          if decide (Session.status s = playing)
          then mkElapsed (elapsedTime h) (Some startTime)
          else mkElapsed 0 None
      | None => mkElapsed 0 None
      end
  | None => mkElapsed 0 None
  end.

(** One tick of the interval, when the local clock shows [now]. *)
Definition elapsedTick (now : Z) (h : Elapsed) : Elapsed :=
  match interval h with
  | Some startTime => mkElapsed (elapsedSeconds now startTime) (interval h)
  | None => h
  end.

(** [handleSkipVote]: the toggle behind the skip button. *)
Definition handleSkipVote (currentSong : option Song.t) : M unit :=
  st ← get;
  match State.session st, State.currentParticipant st, currentSong with
  | Some session, Some currentParticipant, Some currentSong =>
      let hasSkipVoted :=
        existsb (fun v => bool_decide (SkipVote.song_id v = Song.id currentSong
                                       /\ SkipVote.participant_id v
                                          = Participant.id currentParticipant))
                (State.skipVotes st) in
      if hasSkipVoted then SessionStore.removeSkipVote (Song.id currentSong)
      else SessionStore.addSkipVote (Song.id currentSong)
  | _, _, _ => mret tt
  end.

End UseSkipVoting.

(** [components/session/playing-view.tsx]: what decides the skip button. *)
Module PlayingView.

(** [canSkip = elapsedTime >= skipAvailableAfterSeconds]. *)
Definition canSkip (elapsedTime skipAvailableAfterSeconds : Z) : bool :=
  bool_decide (skipAvailableAfterSeconds <= elapsedTime).

(** [hasSkipVoted]. *)
Definition hasSkipVoted (skipVotes : list SkipVote.t) (currentSong : Song.t)
    (currentParticipant : option Participant.t) : bool :=
  match currentParticipant with
  | Some p =>
      existsb (fun v => bool_decide (SkipVote.participant_id v = Participant.id p))
        (SkipVoting.songSkipVotes skipVotes currentSong)
  | None => false
  end.

End PlayingView.

(** [SKIP_AVAILABLE_AFTER_SECONDS] of the session page. *)
Definition SKIP_AVAILABLE_AFTER_SECONDS : Z := 30.

(** ** Properties of worlds *)

(** No request of this client is lost. *)
Definition reliable (w : World) : Prop := forall k, faults w k = false.

(** No other client writes while this one acts. *)
Definition undisturbed (w : World) : Prop := forall k d, others w k d = d.

(** The store holds exactly one session with the id of [row], and it is
    [row]. *)
Definition session_stored (d : Db.t) (row : Session.t) : Prop :=
  filter (fun r => Session.id r = Session.id row) (Db.sessions d) = [row].

(** What an action may change when it only writes songs to the store. *)
Definition only_songs_written (w w' : World) : Prop :=
  store w' = store w /\ sent w' = sent w /\ alerts w' = alerts w
  /\ clock w' = clock w /\ faults w' = faults w /\ others w' = others w
  /\ Db.sessions (db w') = Db.sessions (db w).

(** The constraint [UNIQUE(session_id, song_id, participant_id)] of
    [skip_votes]. *)
Definition skip_votes_unique (d : Db.t) : Prop :=
  forall a b c, (length (filter (Db.skip_vote_key a b c) (Db.skip_votes d)) <= 1)%nat.

(** The constraint [UNIQUE(song_id, participant_id)] of [scores]. *)
Definition scores_unique (d : Db.t) : Prop :=
  forall a b, (length (filter (Db.score_key a b) (Db.scores d)) <= 1)%nat.

(** ** Rows the store takes *)

(** The store refuses a row that refers to a missing session, song or
    participant ([REFERENCES sessions(id)], [songs(id)], [participants(id)])
    and a score whose rating is not between 1 and 5
    ([CHECK (rating >= 1 AND rating <= 5)]).  The requests of [Db] leave
    these tests out; the properties of first inserts below are stated for
    rows that pass them. *)
Definition stored_session (d : Db.t) (id : string) : Prop :=
  id ∈ map Session.id (Db.sessions d).

Definition stored_song (d : Db.t) (id : string) : Prop :=
  id ∈ map Song.id (Db.songs d).

Definition stored_participant (d : Db.t) (id : string) : Prop :=
  id ∈ map Participant.id (Db.participants d).

Definition skip_vote_row_ok (d : Db.t) (session_id song_id participant_id : string) : Prop :=
  stored_session d session_id /\ stored_song d song_id
  /\ stored_participant d participant_id.

Definition score_row_ok (d : Db.t) (score : ScoreInsert.t) : Prop :=
  stored_session d (ScoreInsert.session_id score)
  /\ stored_song d (ScoreInsert.song_id score)
  /\ stored_participant d (ScoreInsert.participant_id score)
  /\ 1 <= ScoreInsert.rating score <= 5.

Definition karma_row_ok (d : Db.t) (participant_id session_id : string) : Prop :=
  stored_participant d participant_id /\ stored_session d session_id.

(** The ledger entries [addScore] writes for the adder of the song: none
    below four stars, for a song the client does not hold or for a vote on
    one's own song; otherwise one entry of 3 for five stars and of 2 for any
    other rating. *)
Definition bonus_entries (sessionId : string) (songs : list Song.t) (score : ScoreInsert.t)
  : list KarmaHistory.t :=
  if decide (4 <= ScoreInsert.rating score) then
    match list_find (fun x => Song.id x = ScoreInsert.song_id score) songs with
    | Some (_, song) =>
        if decide (Song.added_by song = ScoreInsert.participant_id score) then []
        else
          [KarmaHistory.mk (Song.added_by song) sessionId
             (if decide (ScoreInsert.rating score = 5) then 3 else 2)
             ("Song " +:+ dquote +:+ Song.title song +:+ dquote +:+ " received "
              +:+ pretty (ScoreInsert.rating score) +:+ " stars")]
    | None => []
    end
  else [].

(** What [Db.update_song_position id position] makes of one row. *)
Definition repositioned (id : string) (position : Z) (s : Song.t) : Song.t :=
  if decide (Song.id s = id)
  then Song.mk (Song.id s) (Song.session_id s) (Song.title s) (Song.artist s)
         (Song.album_art s) (Song.duration s) (Song.source_id s) (Song.added_by s) position
  else s.

(** ** A small session to run the model on *)

Module Example.

Definition alice : Participant.t := Participant.mk "alice" "party" "Alice" true 1 None.
Definition bob : Participant.t := Participant.mk "bob" "party" "Bob" false 2 None.
Definition carol : Participant.t := Participant.mk "carol" "party" "Carol" false 3 None.

Definition song1 : Song.t :=
  Song.mk "song-1" "party" "One" "A" "a.png" 200 "yt-1" "alice" 0.
Definition song2 : Song.t :=
  Song.mk "song-2" "party" "Two" "B" "b.png" 180 "yt-2" "bob" 1.
Definition song3 : Song.t :=
  Song.mk "song-3" "party" "Three" "C" "c.png" 240 "yt-3" "bob" 2.

Definition session (status : Status) (index : option Z) (infinite : bool) : Session.t :=
  Session.mk "party" "alice" status index (Some 1000) (Some 1000) (Some infinite) (Some 3).

Definition vote (p : Participant.t) (s : Song.t) : SkipVote.t :=
  SkipVote.mk ("vote-" +:+ Participant.id p) "party" (Song.id s) (Participant.id p).

(** A world in which store and client agree, seen by participant [me]. *)
Definition world (s : Session.t) (songs : list Song.t) (scores : list Score.t)
    (votes : list SkipVote.t) (me : option Participant.t) : World :=
  mkWorld
    (State.mk (Some s) [alice; bob] songs scores votes me true)
    (Db.mk [s] [alice; bob] songs scores votes [] 0)
    [] [] 5000 0 (fun _ => false) (fun _ d => d) (fun k => k) 0.

End Example.

(** * Theorems *)

(** ** The playback clock and the quorum threshold *)

Section Clock.

Variables (startedAt startTime : Z).

(** Dividing the millisecond difference by 1000 over the rationals and
    rounding down is integer division. *)
Lemma elapsedSeconds_div now :
  elapsedSeconds now startedAt = (now - startedAt) / 1000.
Proof.
  unfold elapsedSeconds, Qdiv, Qmult, Qinv, Qfloor; simpl.
  f_equal; lia.
Qed.

Lemma elapsedSeconds_mono now1 now2 :
  now1 <= now2 -> elapsedSeconds now1 startedAt <= elapsedSeconds now2 startedAt.
Proof.
  intros H. rewrite !elapsedSeconds_div.
  apply Z.div_le_mono; lia.
Qed.

(** The player component's clock follows the formula of the playback clock
    and is never negative. *)
Lemma getExpectedPlaybackTime_clamped now :
  YouTubePlayer.getExpectedPlaybackTime (Some startedAt) startTime now
  = Z.max 0 ((now - startedAt) / 1000)
  /\ 0 <= YouTubePlayer.getExpectedPlaybackTime (Some startedAt) startTime now.
Proof.
  unfold YouTubePlayer.getExpectedPlaybackTime; cbv zeta.
  rewrite elapsedSeconds_div. split; [reflexivity | lia].
Qed.

(** The older variant agrees with it exactly when the start is not ahead of
    the local clock. *)
Lemma getExpectedPlaybackTime_variants now :
  YouTubePlayerBasic.getExpectedPlaybackTime (Some startedAt) startTime now
  = YouTubePlayer.getExpectedPlaybackTime (Some startedAt) startTime now
  <-> startedAt <= now.
Proof.
  unfold YouTubePlayerBasic.getExpectedPlaybackTime,
    YouTubePlayer.getExpectedPlaybackTime; cbv zeta.
  rewrite elapsedSeconds_div.
  assert (Hq := Z.div_mod (now - startedAt) 1000 ltac:(lia)).
  assert (Hr := Z.mod_pos_bound (now - startedAt) 1000 ltac:(lia)).
  lia.
Qed.

End Clock.

(** Every seek that a sync tick issues goes to the expected offset. *)
Lemma syncTick_seek startedAt startTime now autoplay interacted state currentTime t :
  YouTubePlayer.SeekTo t
    ∈ YouTubePlayer.syncTick startedAt startTime now autoplay interacted state currentTime ->
  t = YouTubePlayer.getExpectedPlaybackTime startedAt startTime now.
Proof.
  unfold YouTubePlayer.syncTick.
  repeat case_match; cbn; intros Hin;
    repeat (apply elem_of_cons in Hin as [Hin | Hin]; [congruence |]);
    apply elem_of_nil in Hin; contradiction.
Qed.

(** C5: the older variant of the player component returns the elapsed
    seconds unclamped.  With a start timestamp five seconds ahead of the
    local clock it yields -5, where the formula
    max(0, floor((now - startedAt) / 1000)) and the current component
    yield 0. *)
Theorem getExpectedPlaybackTime_basic_negative :
  let startedAt := 10000 in
  let now := 5000 in
  YouTubePlayerBasic.getExpectedPlaybackTime (Some startedAt) 0 now = -5
  /\ Z.max 0 ((now - startedAt) / 1000) = 0
  /\ YouTubePlayer.getExpectedPlaybackTime (Some startedAt) 0 now = 0.
Proof. repeat split. Qed.

(** C6, as stated, fails: the expected offset is not clamped by the song's
    duration.  400 seconds after the start of a 200 second song the clock
    yields 400. *)
Lemma getExpectedPlaybackTime_exceeds_duration :
  let startedAt := 0 in
  let now := 400000 in
  let offset := YouTubePlayer.getExpectedPlaybackTime (Some startedAt) 0 now in
  offset = 400 /\ Song.duration Example.song1 = 200
  /\ ~ (0 <= offset <= Song.duration Example.song1).
Proof.
  cbv zeta. split; [reflexivity |]. split; [reflexivity |].
  intros [_ H]. vm_compute in H. apply H. reflexivity.
Qed.

(** C6, amended: the expected offset of the playback clock never decreases
    as wall-clock time advances and is never negative; it has no upper
    clamp.  The clamp to [0, duration] is the progress bar's: its elapsed
    value lies in that interval and never decreases either. *)
Theorem playback_offset_monotone startedAt startTime duration now1 now2 :
  now1 <= now2 ->
  0 <= duration ->
  let clock := YouTubePlayer.getExpectedPlaybackTime (Some startedAt) startTime in
  let bar := SongProgressBar.clampedElapsed duration startedAt in
  clock now1 <= clock now2 /\ 0 <= clock now1
  /\ bar now1 <= bar now2 /\ 0 <= bar now1 <= duration.
Proof.
  intros Hnow Hdur clock bar. subst clock bar.
  unfold YouTubePlayer.getExpectedPlaybackTime, SongProgressBar.clampedElapsed; cbv zeta.
  pose proof (elapsedSeconds_mono startedAt now1 now2 Hnow). lia.
Qed.

Lemma playback_offset_monotone_witness :
  YouTubePlayer.getExpectedPlaybackTime (Some 1000) 0 4000
  <= YouTubePlayer.getExpectedPlaybackTime (Some 1000) 0 9500
  /\ 0 <= SongProgressBar.clampedElapsed 200 1000 4000 <= 200.
Proof.
  destruct (playback_offset_monotone 1000 0 200 4000 9500) as (H1 & _ & _ & H2);
    [lia | lia | ].
  split; [exact H1 | exact H2].
Defined.

(** The threshold is half the participant count, rounded up. *)
Lemma skipThreshold_half participants :
  SkipVoting.skipThreshold participants
  = (Z.of_nat (length participants) + 1) / 2.
Proof.
  unfold SkipVoting.skipThreshold, Qceiling, Qfloor, Qopp, Qmult; simpl.
  set (n := Z.of_nat (length participants)).
  assert (H : - (- (n * 5) / 10) = (n + 1) / 2).
  { assert (Hq := Z.div_mod (- (n * 5)) 10 ltac:(lia)).
    assert (Hr := Z.mod_pos_bound (- (n * 5)) 10 ltac:(lia)).
    assert (Hq' := Z.div_mod (n + 1) 2 ltac:(lia)).
    assert (Hr' := Z.mod_pos_bound (n + 1) 2 ltac:(lia)).
    lia. }
  exact H.
Qed.

(** C1, as stated, fails: with two participants the threshold is 1, so a
    single skip vote reaches quorum and the host's effect advances. *)
Lemma single_vote_reaches_quorum_of_two :
  let participants := [Example.alice; Example.bob] in
  let skipVotes := [Example.vote Example.bob Example.song1] in
  (1 <= length participants)%nat
  /\ length (SkipVoting.songSkipVotes skipVotes Example.song1) = 1%nat
  /\ SkipVoting.skipThreshold participants = 1
  /\ SkipVoting.quorumReached skipVotes Example.song1 participants = true
  /\ SkipVoting.autoSkip true (Some Example.song1)
       (Some (Example.session playing (Some 0) false)) false skipVotes participants = true.
Proof. cbv zeta. split; [cbn; lia |]. repeat split. Qed.

(** C1, amended: the threshold of the skip-vote check is ceil(N * 0.5), the
    least integer whose double is at least N; quorum is reached when the
    votes for the current song are at least the threshold and at least one;
    with N = 4 and with N = 3 two votes reach quorum; a single vote does not
    reach quorum when N >= 3. *)
Theorem skip_quorum_threshold participants skipVotes currentSong :
  let N := Z.of_nat (length participants) in
  let votes := Z.of_nat (length (SkipVoting.songSkipVotes skipVotes currentSong)) in
  let threshold := SkipVoting.skipThreshold participants in
  let reached := SkipVoting.quorumReached skipVotes currentSong participants in
  (N <= 2 * threshold /\ 2 * (threshold - 1) < N)
  /\ (reached = true <-> threshold <= votes /\ 0 < votes)
  /\ (N = 4 -> votes = 2 -> reached = true)
  /\ (N = 3 -> votes = 2 -> reached = true)
  /\ (3 <= N -> votes = 1 -> reached = false).
Proof.
  intros N votes threshold reached.
  assert (Ht : threshold = (N + 1) / 2) by apply skipThreshold_half.
  assert (Hq := Z.div_mod (N + 1) 2 ltac:(lia)).
  assert (Hr := Z.mod_pos_bound (N + 1) 2 ltac:(lia)).
  assert (Hreached : reached = true <-> threshold <= votes /\ 0 < votes).
  { subst reached. unfold SkipVoting.quorumReached; cbv zeta.
    rewrite andb_true_iff, !bool_decide_eq_true. reflexivity. }
  split; [lia |]. split; [exact Hreached |].
  repeat split; intros HN Hv.
  - apply Hreached; lia.
  - apply Hreached; lia.
  - apply not_true_is_false. rewrite Hreached. lia.
Qed.

Lemma skip_quorum_threshold_witness :
  SkipVoting.quorumReached [Example.vote Example.bob Example.song1] Example.song1
    [Example.alice; Example.bob; Example.carol] = false.
Proof.
  destruct (skip_quorum_threshold [Example.alice; Example.bob; Example.carol]
              [Example.vote Example.bob Example.song1] Example.song1)
    as (_ & _ & _ & _ & H).
  apply H; [cbn; lia | reflexivity].
Defined.

(** ** Guards that return at once *)

(** Checks on a concrete store that the rows referred to are there. *)
Ltac rows_stored :=
  unfold skip_vote_row_ok, score_row_ok, karma_row_ok,
    stored_session, stored_song, stored_participant;
  repeat split; try (apply list_elem_of_In; cbn; tauto); try (cbn; lia).

(** Unfolds the plumbing of [M] and leaves requests in place. *)
Ltac unfold_M :=
  unfold mbind, M_bind, mret, M_ret, get, set, now, throw, try_catch,
    broadcast_send, alert in *;
  cbn beta iota.

(** C10: when the store holds no session, or a session whose
    [current_song_index] is null, [nextSong] resolves and leaves the whole
    world as it was: no request is sent, no local state is set, no event is
    published. *)
Theorem nextSong_noop w :
  State.session (store w) = None
  \/ (exists s, State.session (store w) = Some s /\ Session.current_song_index s = None) ->
  SessionStore.nextSong w = (Ok tt, w).
Proof.
  intros [Hnone | (s & Hs & Hidx)]; unfold SessionStore.nextSong; unfold_M.
  - rewrite Hnone. reflexivity.
  - rewrite Hs, Hidx. reflexivity.
Qed.

Lemma nextSong_noop_witness :
  let w := Example.world (Example.session waiting None false) [Example.song1] [] []
             (Some Example.alice) in
  SessionStore.nextSong w = (Ok tt, w).
Proof.
  cbv zeta. apply nextSong_noop. right.
  exists (Example.session waiting None false). split; reflexivity.
Defined.

(** C4: a [song_changed] event whose [song_index] is the index the store
    already holds leaves the whole world as it was: the session is not
    reloaded, the skip votes are neither cleared nor reloaded, nothing is
    set. *)
Theorem onSongChanged_same_index sessionId data w s :
  State.session (store w) = Some s ->
  Session.current_song_index s = Some (SongChanged.song_index data) ->
  SessionStore.onSongChanged sessionId data w = (Ok tt, w).
Proof.
  intros Hs Hidx. unfold SessionStore.onSongChanged; unfold_M.
  rewrite Hs; cbn. rewrite Hidx.
  rewrite decide_True by reflexivity. reflexivity.
Qed.

Lemma onSongChanged_same_index_witness :
  let w := Example.world (Example.session playing (Some 1) false)
             [Example.song1; Example.song2] [] [Example.vote Example.bob Example.song2]
             (Some Example.bob) in
  SessionStore.onSongChanged "party" (SongChanged.mk "party" "song-2" 1 4000 "alice" 4001) w
  = (Ok tt, w).
Proof.
  cbv zeta.
  apply (onSongChanged_same_index "party" _ _ (Example.session playing (Some 1) false));
    reflexivity.
Defined.

(** A [song_changed] event with another index does reload the session. *)
Example onSongChanged_other_index :
  let stale := Example.session playing (Some 0) false in
  let fresh := Example.session playing (Some 1) false in
  let w := mkWorld
             (State.mk (Some stale) [] [Example.song1; Example.song2] []
                [Example.vote Example.bob Example.song1] (Some Example.bob) true)
             (Db.mk [fresh] [] [Example.song1; Example.song2] [] [] [] 0)
             [] [] 5000 0 (fun _ => false) (fun _ d => d) (fun k => k) 0 in
  let w' := (SessionStore.onSongChanged "party"
               (SongChanged.mk "party" "song-2" 1 4000 "alice" 4001) w).2 in
  State.session (store w') = Some fresh /\ State.skipVotes (store w') = [] /\ calls w' = 2%nat.
Proof. repeat split. Qed.

(** ** Running the store on the example session *)

(** C2: with infinite mode enabled, a minimum queue size of 3 and the last
    (and only) song playing, [nextSong] does not ask for songs and does not
    go on playing: it resolves with the session finished, in the stored row
    and in the client, and with the stored and the local queue still holding
    the one song.  The flag and the minimum queue size are never read. *)
Theorem nextSong_infinite_mode_finishes :
  let s := Example.session playing (Some 0) true in
  let w := Example.world s [Example.song1] [] [] (Some Example.alice) in
  let '(r, w') := SessionStore.nextSong w in
  let s' := Session.mk "party" "alice" finished (Some 0) (Some 1000) (Some (clock w))
              (Some true) (Some 3) in
  Session.status s = playing
  /\ Session.infinite_mode s = Some true
  /\ Session.min_queue_size s = Some 3
  /\ Z.of_nat (length (State.songs (store w))) <= 0 + 1
  /\ r = Ok tt
  /\ Db.sessions (db w') = [s']
  /\ State.session (store w') = Some s'
  /\ Session.status s' <> playing
  /\ Db.songs (db w') = [Example.song1]
  /\ State.songs (store w') = [Example.song1].
Proof.
  vm_compute. repeat split; discriminate.
Qed.

(** C3: a second score by the same participant for the same song is refused
    by the store, one row remains, and [addScore] rejects with the store's
    error: the rejection reaches the caller. *)
Theorem addScore_duplicate_throws :
  let first := Score.mk "score-1" "party" "song-1" "bob" 4 in
  let w := Example.world (Example.session playing (Some 0) false) [Example.song1]
             [first] [] (Some Example.bob) in
  let second := ScoreInsert.mk "party" "song-1" "bob" 5 in
  let '(r, w') := SessionStore.addScore second w in
  r = Throw (StoreError unique_violation)
  /\ Db.scores (db w') = [first]
  /\ State.scores (store w') = [first].
Proof. repeat split. Qed.

(** ** Requests in a quiet world *)

Lemma request_quiet {A} (op : Db.op A) w :
  (forall k, faults w k = false) ->
  (forall k d, others w k d = d) ->
  request op w =
  (Ok (op (db w)).1,
   mkWorld (store w) (op (db w)).2 (sent w) (alerts w) (clock w) (S (calls w))
     (faults w) (others w) (randoms w) (draws w)).
Proof.
  intros Hr Hu. unfold request. rewrite Hr, Hu.
  destruct (op (db w)); reflexivity.
Qed.

(** Case analysis on the tests an action performs. *)
Ltac split_tests :=
  match goal with
  | |- context [if ?b then _ else _] => destruct b eqn:?
  | |- context [match ?x !! ?i with _ => _ end] => destruct (x !! i) eqn:?
  | |- context [match js_index ?x ?i with _ => _ end] => destruct (js_index x i) eqn:?
  | |- context [match list_find ?P ?x with _ => _ end] => destruct (list_find P x) as [[? ?]|] eqn:?
  | |- context [match ?x with Some _ => _ | None => _ end] => destruct x eqn:?
  end.

(** Runs an action symbolically in a world whose requests all arrive and
    which nobody else writes to. *)
Ltac run_quiet Hr Hu :=
  repeat first
    [ rewrite request_quiet by (first [exact Hr | exact Hu])
    | progress cbn
    | split_tests ].

Lemma update_session_rest patch id (l : list Session.t) :
  filter (fun r => Session.id r = id) l = [] ->
  filter (fun r => Session.id r = id)
    (map (fun r => if decide (Session.id r = id) then SessionPatch.apply patch r else r) l)
  = [].
Proof.
  induction l as [| y l IH]; intros Hnone; [reflexivity |].
  cbn [map]. destruct (decide (Session.id y = id)) as [Hy | Hy].
  - rewrite filter_cons_True in Hnone by exact Hy. discriminate.
  - rewrite filter_cons_False in Hnone by exact Hy.
    rewrite filter_cons_False by exact Hy. apply IH, Hnone.
Qed.

(** Patching the row with a given id keeps it the only row with that id. *)
Lemma update_session_stored patch row d :
  session_stored d row ->
  session_stored
    (Db.with_sessions
       (map (fun r => if decide (Session.id r = Session.id row)
                      then SessionPatch.apply patch r else r)
            (Db.sessions d)) d)
    (SessionPatch.apply patch row).
Proof.
  unfold session_stored. cbn. intros Hrow.
  revert Hrow. generalize (Db.sessions d) as l.
  induction l as [| x l IH]; intros Hrow; [discriminate |].
  cbn [map]. destruct (decide (Session.id x = Session.id row)) as [Hx | Hx].
  - rewrite filter_cons_True in Hrow by exact Hx.
    rewrite filter_cons_True by exact Hx.
    inversion Hrow as [[Hxrow Hrest]]. rewrite Hrest.
    f_equal. apply update_session_rest, Hrest.
  - rewrite filter_cons_False in Hrow by exact Hx.
    rewrite filter_cons_False by exact Hx. apply IH, Hrow.
Qed.

(** [updateSession] in a quiet world: the stored row is patched and becomes
    the local session; the songs of the store are not touched; the local
    queue changes only when the session is finished. *)
Lemma updateSession_ok updates w s row :
  State.session (store w) = Some s ->
  reliable w -> undisturbed w ->
  Session.id row = Session.id s ->
  session_stored (db w) row ->
  exists w',
    SessionStore.updateSession updates w = (Ok tt, w')
    /\ State.session (store w')
       = Some (SessionPatch.apply (SessionPatch.with_last_activity (clock w) updates) row)
    /\ Db.songs (db w') = Db.songs (db w)
    /\ (SessionPatch.status updates <> Some finished ->
        State.songs (store w') = State.songs (store w))
    /\ alerts w' = alerts w
    /\ session_stored (db w')
         (SessionPatch.apply (SessionPatch.with_last_activity (clock w) updates) row).
Proof.
  intros Hs Hr Hu Hid Hrow.
  pose proof (update_session_stored
                (SessionPatch.with_last_activity (clock w) updates) row (db w) Hrow)
    as Hstored.
  destruct w as [st d sn al ck c fl ot rn dr].
  unfold reliable, undisturbed in *. unfold session_stored in Hrow. cbn in *.
  unfold SessionStore.updateSession; unfold_M; cbn.
  rewrite Hs.
  rewrite request_quiet by assumption. cbn.
  unfold Db.update_session. rewrite <- Hid, Hrow. cbn.
  run_quiet Hr Hu;
    (eexists; split; [reflexivity |]; cbn; repeat split; try reflexivity;
     try exact Hstored;
     try (intros Hne; exfalso; apply Hne;
          match goal with
          | H : bool_decide (_ = Some finished) = true |- _ =>
              apply bool_decide_eq_true in H; exact H
          end)).
Qed.

(** ** Starting the session *)

Lemma swap_Permutation {A} (xs : list A) i j : SessionStore.swap xs i j ≡ₚ xs.
Proof.
  unfold SessionStore.swap.
  destruct (xs !! i) as [a|] eqn:Hi; [| reflexivity].
  destruct (xs !! j) as [b|] eqn:Hj; [| reflexivity].
  eapply Permutation_insert_swap; eassumption.
Qed.

(** The loop of the shuffle terminates, permutes its list and consumes one
    draw per round. *)
Lemma shuffle_loop_ok {A} i : forall (xs : list A) w,
  exists ys,
    SessionStore.shuffle_loop i xs w
    = (Ok ys,
       mkWorld (store w) (db w) (sent w) (alerts w) (clock w) (calls w)
         (faults w) (others w) (randoms w) (draws w + i)%nat)
    /\ ys ≡ₚ xs.
Proof.
  induction i as [| i IH]; intros xs w.
  - exists xs. cbn. unfold mret, M_ret. rewrite Nat.add_0_r.
    destruct w; split; reflexivity.
  - cbn [SessionStore.shuffle_loop]. unfold mbind, M_bind, random_below.
    match goal with
    | |- context [SessionStore.shuffle_loop i ?l ?w1] =>
        destruct (IH l w1) as (ys & Hrun & Hperm)
    end.
    exists ys. rewrite Hrun. cbn. split.
    + do 2 f_equal. lia.
    + rewrite Hperm. apply swap_Permutation.
Qed.

Lemma position_updates_ok (updates : list (string * Z)) : forall w,
  reliable w -> undisturbed w ->
  exists rs w',
    Promise_all
      (map (fun update => Db.update_song_position update.1 update.2) updates) w
    = (Ok rs, w')
    /\ Forall (fun r => is_error r = false) rs
    /\ only_songs_written w w'.
Proof.
  induction updates as [| u us IH]; intros w Hr Hu.
  - exists [], w. cbn. repeat split. constructor.
  - cbn [map Promise_all]. unfold mbind, M_bind.
    rewrite request_quiet by assumption.
    match goal with
    | |- context [Promise_all _ ?w1] =>
        destruct (IH w1) as (rs & w' & Hrun & Hrs & Hframe); [exact Hr | exact Hu |]
    end.
    rewrite Hrun. cbn.
    eexists _, w'. split; [reflexivity |]. split.
    + constructor; [reflexivity | exact Hrs].
    + unfold only_songs_written in *; cbn in *. intuition congruence.
Qed.

Lemma reorderSongs_ok songs w :
  reliable w -> undisturbed w ->
  exists w',
    SessionStore.reorderSongs songs w = (Ok tt, w')
    /\ store w' = State.with_songs songs (store w)
    /\ sent w' = sent w /\ alerts w' = alerts w /\ clock w' = clock w
    /\ faults w' = faults w /\ others w' = others w
    /\ Db.sessions (db w') = Db.sessions (db w).
Proof.
  intros Hr Hu. unfold SessionStore.reorderSongs. cbv zeta. unfold mbind, M_bind.
  destruct (position_updates_ok
              (imap (fun index song => (Song.id song, Z.of_nat index)) songs) w Hr Hu)
    as (rs & w1 & Hrun & Hrs & Hframe).
  rewrite Hrun.
  assert (Hnone : filter (fun r : Resp unit => is_error r = true) rs = []).
  { clear Hrun. induction Hrs as [| r rs Hr0 _ IH]; [reflexivity |].
    rewrite filter_cons_False by congruence. exact IH. }
  rewrite Hnone. cbn.
  destruct Hframe as (H1 & H2 & H3 & H4 & H5 & H6 & H7).
  eexists. split; [reflexivity |]. cbn. rewrite H1. repeat split; assumption.
Qed.

(** [shuffleQueue] on a session that is not playing: the local queue becomes
    a permutation of itself. *)
Lemma shuffleQueue_ok w s :
  State.session (store w) = Some s ->
  Session.status s <> playing ->
  reliable w -> undisturbed w ->
  exists w',
    SessionStore.shuffleQueue w = (Ok tt, w')
    /\ State.songs (store w') ≡ₚ State.songs (store w)
    /\ State.session (store w') = State.session (store w)
    /\ State.realtime (store w') = State.realtime (store w)
    /\ sent w' = sent w /\ alerts w' = alerts w /\ clock w' = clock w
    /\ faults w' = faults w /\ others w' = others w
    /\ Db.sessions (db w') = Db.sessions (db w).
Proof.
  intros Hs Hstatus Hr Hu.
  unfold SessionStore.shuffleQueue. unfold mbind at 1, M_bind at 1, get.
  rewrite Hs. rewrite decide_False by exact Hstatus.
  unfold mbind, M_bind.
  destruct (shuffle_loop_ok (length (State.songs (store w)) - 1) (State.songs (store w)) w)
    as (ys & Hrun & Hperm).
  rewrite Hrun.
  match goal with
  | |- context [SessionStore.reorderSongs ys ?w1] =>
      destruct (reorderSongs_ok ys w1) as (w' & Hre & Hst & H2 & H3 & H4 & H5 & H6 & H7);
        [exact Hr | exact Hu |]
  end.
  exists w'. rewrite Hre. split; [reflexivity |].
  rewrite Hst. cbn in *. repeat split; try assumption.
Qed.

(** All position updates applied to one row. *)
Lemma repositioned_id id position q :
  Song.id (repositioned id position q) = Song.id q
  /\ Song.session_id (repositioned id position q) = Song.session_id q.
Proof. unfold repositioned. destruct (decide _); split; reflexivity. Qed.

Lemma repositioned_all_id (us : list (string * Z)) : forall q,
  Song.id (foldl (fun q u => repositioned u.1 u.2 q) q us) = Song.id q
  /\ Song.session_id (foldl (fun q u => repositioned u.1 u.2 q) q us) = Song.session_id q.
Proof.
  induction us as [| u us IH]; intros q; [split; reflexivity |].
  cbn [foldl]. destruct (IH (repositioned u.1 u.2 q)) as [H1 H2].
  destruct (repositioned_id u.1 u.2 q) as [H3 H4]. split; congruence.
Qed.

Lemma repositioned_all_miss (us : list (string * Z)) : forall q,
  Song.id q ∉ us.*1 ->
  foldl (fun q u => repositioned u.1 u.2 q) q us = q.
Proof.
  induction us as [| u us IH]; intros q Hmiss; [reflexivity |].
  cbn [foldl]. rewrite fmap_cons, not_elem_of_cons in Hmiss. destruct Hmiss as [Hu Hus].
  unfold repositioned at 2. rewrite decide_False by exact Hu. apply IH, Hus.
Qed.

Lemma repositioned_all_hit (us : list (string * Z)) : forall q position,
  NoDup us.*1 ->
  (Song.id q, position) ∈ us ->
  foldl (fun q u => repositioned u.1 u.2 q) q us = repositioned (Song.id q) position q.
Proof.
  induction us as [| u us IH]; intros q position Hnodup Hin.
  { apply elem_of_nil in Hin. destruct Hin. }
  rewrite fmap_cons in Hnodup. apply NoDup_cons in Hnodup as [Hfresh Hnodup].
  cbn [foldl]. apply elem_of_cons in Hin as [<- | Hin].
  - cbn [fst snd]. apply repositioned_all_miss.
    rewrite (proj1 (repositioned_id _ _ _)). exact Hfresh.
  - assert (Hu : Song.id q <> u.1).
    { intros Heq. apply Hfresh. rewrite <- Heq.
      apply (list_elem_of_fmap_2 fst) in Hin. exact Hin. }
    unfold repositioned at 2. rewrite decide_False by exact Hu.
    apply IH; assumption.
Qed.

Lemma repositioned_all_map (us : list (string * Z)) : forall l : list Song.t,
  foldl (fun l u => map (repositioned u.1 u.2) l) l us
  = map (fun q => foldl (fun q u => repositioned u.1 u.2 q) q us) l.
Proof.
  induction us as [| u us IH]; intros l; cbn [foldl].
  - symmetry. apply map_id.
  - rewrite IH, map_map. reflexivity.
Qed.

(** The position updates of [reorderSongs], seen from the store. *)
Lemma position_updates_songs (updates : list (string * Z)) : forall w,
  reliable w -> undisturbed w ->
  exists rs w',
    Promise_all
      (map (fun update => Db.update_song_position update.1 update.2) updates) w
    = (Ok rs, w')
    /\ Forall (fun r => is_error r = false) rs
    /\ Db.songs (db w')
       = foldl (fun l u => map (repositioned u.1 u.2) l) (Db.songs (db w)) updates
    /\ store w' = store w /\ faults w' = faults w /\ others w' = others w
    /\ only_songs_written w w'.
Proof.
  induction updates as [| u us IH]; intros w Hr Hu.
  - exists [], w. cbn. repeat split. constructor.
  - cbn [map Promise_all]. unfold mbind, M_bind.
    rewrite request_quiet by assumption.
    match goal with
    | |- context [Promise_all _ ?w1] =>
        destruct (IH w1) as (rs & w' & Hrun & Hrs & Hsongs & Hst & Hf & Ho & Hframe);
          [exact Hr | exact Hu |]
    end.
    rewrite Hrun. unfold mret, M_ret.
    exists (RespData tt :: rs), w'. split; [reflexivity |].
    split; [constructor; [reflexivity | exact Hrs] |].
    split; [rewrite Hsongs; reflexivity |].
    split; [assumption |]. split; [assumption |]. split; [assumption |].
    unfold only_songs_written in *; cbn in *. intuition congruence.
Qed.

(** The ids of the position updates are the ids of the list, in order. *)
Lemma position_updates_ids (songs : list Song.t) :
  (imap (fun index song => (Song.id song, Z.of_nat index)) songs).*1 = map Song.id songs.
Proof.
  apply list_eq. intros i.
  change (map Song.id songs) with (Song.id <$> songs).
  rewrite !list_lookup_fmap, list_lookup_imap.
  destruct (songs !! i); reflexivity.
Qed.

(** After the position updates of a list without a repeated id, a stored
    row with the id of the [i]-th song of the list has position [i]. *)
Lemma position_updates_index (songs stored : list Song.t) i song q :
  NoDup (map Song.id songs) ->
  songs !! i = Some song ->
  q ∈ foldl (fun l u => map (repositioned u.1 u.2) l) stored
        (imap (fun index song => (Song.id song, Z.of_nat index)) songs) ->
  Song.id q = Song.id song ->
  Song.position q = Z.of_nat i.
Proof.
  intros Hnodup Hi Hq Hid.
  rewrite repositioned_all_map in Hq.
  apply list_elem_of_In, in_map_iff in Hq as (q0 & <- & _).
  rewrite (proj1 (repositioned_all_id _ q0)) in Hid.
  rewrite (repositioned_all_hit _ q0 (Z.of_nat i)).
  - unfold repositioned. rewrite decide_True by reflexivity. reflexivity.
  - rewrite position_updates_ids. exact Hnodup.
  - rewrite Hid. apply list_elem_of_lookup. exists i.
    rewrite list_lookup_imap, Hi. reflexivity.
Qed.

(** [reorderSongs] in a quiet world: every position update is applied to
    the stored songs, then the local queue becomes the given list. *)
Lemma reorderSongs_run songs w :
  reliable w -> undisturbed w ->
  exists w',
    SessionStore.reorderSongs songs w = (Ok tt, w')
    /\ store w' = State.with_songs songs (store w)
    /\ Db.songs (db w')
       = foldl (fun l u => map (repositioned u.1 u.2) l) (Db.songs (db w))
           (imap (fun index song => (Song.id song, Z.of_nat index)) songs)
    /\ sent w' = sent w /\ alerts w' = alerts w /\ clock w' = clock w
    /\ faults w' = faults w /\ others w' = others w
    /\ Db.sessions (db w') = Db.sessions (db w).
Proof.
  intros Hr Hu. unfold SessionStore.reorderSongs. cbv zeta. unfold mbind, M_bind.
  destruct (position_updates_songs
              (imap (fun index song => (Song.id song, Z.of_nat index)) songs) w Hr Hu)
    as (rs & w1 & Hrun & Hrs & Hsongs & _ & _ & _ & Hframe).
  rewrite Hrun.
  assert (Hnone : filter (fun r : Resp unit => is_error r = true) rs = []).
  { clear Hrun. induction Hrs as [| r rs Hr0 _ IH]; [reflexivity |].
    rewrite filter_cons_False by congruence. exact IH. }
  rewrite Hnone. cbn.
  destruct Hframe as (H1 & H2 & H3 & H4 & H5 & H6 & H7).
  eexists. split; [reflexivity |]. cbn. rewrite H1. repeat split; assumption.
Qed.

(** [shuffleQueue] on a session that is not playing: the loop of the shuffle
    runs on the local queue with the draws of [Math.random], and its result
    is written to the store, position by position, and becomes the local
    queue. *)
Lemma shuffleQueue_run w s :
  State.session (store w) = Some s ->
  Session.status s <> playing ->
  reliable w -> undisturbed w ->
  exists ys w',
    SessionStore.shuffleQueue w = (Ok tt, w')
    /\ (SessionStore.shuffle_loop (length (State.songs (store w)) - 1)
          (State.songs (store w)) w).1 = Ok ys
    /\ ys ≡ₚ State.songs (store w)
    /\ store w' = State.with_songs ys (store w)
    /\ Db.songs (db w')
       = foldl (fun l u => map (repositioned u.1 u.2) l) (Db.songs (db w))
           (imap (fun index song => (Song.id song, Z.of_nat index)) ys)
    /\ sent w' = sent w /\ alerts w' = alerts w /\ clock w' = clock w
    /\ faults w' = faults w /\ others w' = others w
    /\ Db.sessions (db w') = Db.sessions (db w).
Proof.
  intros Hs Hstatus Hr Hu.
  unfold SessionStore.shuffleQueue. unfold mbind at 1, M_bind at 1, get.
  rewrite Hs. rewrite decide_False by exact Hstatus.
  unfold mbind, M_bind.
  destruct (shuffle_loop_ok (length (State.songs (store w)) - 1) (State.songs (store w)) w)
    as (ys & Hrun & Hperm).
  rewrite Hrun.
  match goal with
  | |- context [SessionStore.reorderSongs ys ?w1] =>
      destruct (reorderSongs_run ys w1)
        as (w' & Hre & Hst & Hsongs & H2 & H3 & H4 & H5 & H6 & H7);
        [exact Hr | exact Hu |]
  end.
  exists ys, w'. rewrite Hre. split; [reflexivity |]. split; [reflexivity |].
  split; [exact Hperm |]. cbn in *. repeat split; assumption.
Qed.


(** C8: the start action of the page does nothing at all without a session,
    for a participant who is not the host, or with an empty queue.
    Otherwise, on a waiting session, when its requests reach the store, it
    first shuffles the queue: the Fisher-Yates loop runs on the local queue
    with the draws of [Math.random] and leaves a permutation [ys] of the
    songs that were queued; [ys] becomes the local queue and is written to
    the store by one position update per song, so that (ids being unique)
    the stored row of the [i]-th song of [ys] has position [i].  Then the
    session is made playing with [current_song_index = 0] and
    [current_song_started_at] the current time, in the stored row and in
    the client. *)
Theorem handleStartSession_transition w :
  (State.session (store w) = None \/ SessionPage.isHost (store w) = false
   \/ State.songs (store w) = [] ->
   SessionPage.handleStartSession w = (Ok tt, w))
  /\ (forall s row,
        State.session (store w) = Some s ->
        SessionPage.isHost (store w) = true ->
        State.songs (store w) <> [] ->
        Session.status s = waiting ->
        reliable w -> undisturbed w ->
        Session.id row = Session.id s ->
        session_stored (db w) row ->
        let '(r, w') := SessionPage.handleStartSession w in
        r = Ok tt
        /\ State.songs (store w') ≡ₚ State.songs (store w)
        /\ (exists ys,
              (SessionStore.shuffle_loop (length (State.songs (store w)) - 1)
                 (State.songs (store w)) w).1 = Ok ys
              /\ State.songs (store w') = ys
              /\ Db.songs (db w')
                 = foldl (fun l u => map (repositioned u.1 u.2) l) (Db.songs (db w))
                     (imap (fun index song => (Song.id song, Z.of_nat index)) ys)
              /\ (NoDup (map Song.id ys) ->
                  forall i song q,
                    ys !! i = Some song -> q ∈ Db.songs (db w') ->
                    Song.id q = Song.id song -> Song.position q = Z.of_nat i))
        /\ exists s',
             State.session (store w') = Some s'
             /\ session_stored (db w') s'
             /\ Session.status s' = playing
             /\ Session.current_song_index s' = Some 0
             /\ Session.current_song_started_at s' = Some (clock w)).
Proof.
  split.
  - intros Hguard. unfold SessionPage.handleStartSession.
    unfold mbind, M_bind, get, mret, M_ret.
    destruct (State.session (store w)) as [s |]; [| reflexivity].
    destruct Hguard as [Hn | [Hh | Hq]]; [discriminate | |].
    + rewrite Hh. reflexivity.
    + rewrite Hq. cbn. rewrite orb_true_r. reflexivity.
  - intros s row Hs Hhost Hsongs Hwaiting Hr Hu Hid Hrow.
    unfold SessionPage.handleStartSession.
    unfold mbind at 1, M_bind at 1, get. rewrite Hs, Hhost.
    rewrite bool_decide_eq_false_2
      by (intros Hlen; apply Hsongs, nil_length_inv, Hlen).
    cbn [negb orb]. unfold try_catch, mbind, M_bind.
    destruct (shuffleQueue_run w s Hs)
      as (ys & w1 & Hrun & Hloop & Hperm & Hst1 & Hdb1 & _ & _ & Hck & Hf & Ho & Hsess1);
      [rewrite Hwaiting; discriminate | exact Hr | exact Hu |].
    rewrite Hrun. cbn [now].
    unfold now.
    destruct (updateSession_ok
                (SessionPatch.mk (Some playing) (Some (Some 0)) (Some (Some (clock w1))) None None)
                w1 s row) as (w' & Hup & Hsess & Hsongs' & Hq & _ & Hstored).
    { rewrite Hst1. exact Hs. }
    { intros k. rewrite Hf. apply Hr. }
    { intros k d. rewrite Ho. apply Hu. }
    { exact Hid. }
    { unfold session_stored. rewrite Hsess1. exact Hrow. }
    rewrite Hup. split; [reflexivity |].
    assert (Hlocal : State.songs (store w') = ys).
    { rewrite Hq by discriminate. rewrite Hst1. reflexivity. }
    split; [rewrite Hlocal; exact Hperm |]. split.
    + exists ys. split; [exact Hloop |]. split; [exact Hlocal |].
      rewrite Hsongs', Hdb1. split; [reflexivity |].
      intros Hnodup i song q Hi Hin Hsame.
      exact (position_updates_index ys (Db.songs (db w)) i song q Hnodup Hi Hin Hsame).
    + eexists. split; [exact Hsess |]. split; [exact Hstored |].
      cbn. rewrite Hck. repeat split.
Qed.

Lemma handleStartSession_transition_witness :
  let w := Example.world (Example.session waiting None false)
             [Example.song1; Example.song2; Example.song3] [] [] (Some Example.alice) in
  let '(r, w') := SessionPage.handleStartSession w in
  r = Ok tt
  /\ State.songs (store w') ≡ₚ State.songs (store w)
  /\ (exists ys,
        (SessionStore.shuffle_loop (length (State.songs (store w)) - 1)
           (State.songs (store w)) w).1 = Ok ys
        /\ State.songs (store w') = ys
        /\ Db.songs (db w')
           = foldl (fun l u => map (repositioned u.1 u.2) l) (Db.songs (db w))
               (imap (fun index song => (Song.id song, Z.of_nat index)) ys)
        /\ (NoDup (map Song.id ys) ->
            forall i song q,
              ys !! i = Some song -> q ∈ Db.songs (db w') ->
              Song.id q = Song.id song -> Song.position q = Z.of_nat i))
  /\ exists s',
       State.session (store w') = Some s'
       /\ session_stored (db w') s'
       /\ Session.status s' = playing
       /\ Session.current_song_index s' = Some 0
       /\ Session.current_song_started_at s' = Some (clock w).
Proof.
  cbv zeta.
  refine (proj2 (handleStartSession_transition
                   (Example.world (Example.session waiting None false)
                      [Example.song1; Example.song2; Example.song3] [] []
                      (Some Example.alice)))
            (Example.session waiting None false) (Example.session waiting None false)
            _ _ _ _ _ _ _ _).
  - reflexivity.
  - reflexivity.
  - discriminate.
  - reflexivity.
  - intros k; reflexivity.
  - intros k d; reflexivity.
  - reflexivity.
  - reflexivity.
Defined.

(** The start action on the example session: the draws 0 and 1 turn the
    queue One, Two, Three into Three, Two, One; the store gives the three
    rows the positions 2, 1, 0 and holds the session playing the song at
    index 0. *)
Example handleStartSession_example :
  let w := Example.world (Example.session waiting None false)
             [Example.song1; Example.song2; Example.song3] [] [] (Some Example.alice) in
  let w' := (SessionPage.handleStartSession w).2 in
  map Song.id (State.songs (store w')) = ["song-3"; "song-2"; "song-1"]
  /\ map (fun q => (Song.id q, Song.position q)) (Db.songs (db w'))
     = [("song-1", 2); ("song-2", 1); ("song-3", 0)]
  /\ map (fun r => (Session.status r, Session.current_song_index r,
                    Session.current_song_started_at r)) (Db.sessions (db w'))
     = [(playing, Some 0, Some 5000)].
Proof. vm_compute. repeat split. Qed.

(** ** Advancing past the end of the queue *)

(** In general: when the incremented index is at least the number of queued
    songs, [nextSong] finishes the session, in the stored row and in the
    client, whether infinite mode is enabled or not; the stored queue is
    left as it is (no song source is asked for songs). *)
Theorem nextSong_end_of_queue w s row index :
  State.session (store w) = Some s ->
  Session.current_song_index s = Some index ->
  Z.of_nat (length (State.songs (store w))) <= index + 1 ->
  reliable w -> undisturbed w ->
  Session.id row = Session.id s ->
  session_stored (db w) row ->
  let '(r, w') := SessionStore.nextSong w in
  r = Ok tt
  /\ Db.songs (db w') = Db.songs (db w)
  /\ exists s',
       State.session (store w') = Some s'
       /\ session_stored (db w') s'
       /\ Session.status s' = finished
       /\ Session.infinite_mode s' = Session.infinite_mode row.
Proof.
  intros Hs Hidx Hlen Hr Hu Hid Hrow.
  unfold SessionStore.nextSong. unfold mbind, M_bind, get.
  rewrite Hs, Hidx. rewrite decide_True by exact Hlen.
  destruct (updateSession_ok (SessionPatch.mk (Some finished) None None None None) w s row)
    as (w' & Hup & Hsess & Hsongs & _ & _ & Hstored); try assumption.
  rewrite Hup. split; [reflexivity |]. split; [exact Hsongs |].
  eexists. split; [exact Hsess |]. split; [exact Hstored |]. split; reflexivity.
Qed.

Lemma nextSong_end_of_queue_witness :
  let s := Example.session playing (Some 1) true in
  let w := Example.world s [Example.song1; Example.song2] [] [] (Some Example.alice) in
  let '(r, w') := SessionStore.nextSong w in
  r = Ok tt
  /\ Db.songs (db w') = Db.songs (db w)
  /\ exists s',
       State.session (store w') = Some s'
       /\ session_stored (db w') s'
       /\ Session.status s' = finished
       /\ Session.infinite_mode s' = Session.infinite_mode s.
Proof.
  cbv zeta.
  apply (nextSong_end_of_queue _ (Example.session playing (Some 1) true)
           (Example.session playing (Some 1) true) 1); try reflexivity.
  - intros k; reflexivity.
  - intros k d; reflexivity.
Defined.

(** ** Duplicate votes *)

(** The store refuses a second score for the same song by the same
    participant, and [addScore] rejects with that error. *)
Lemma addScore_duplicate_rejects score w :
  reliable w -> undisturbed w ->
  filter (Db.score_key (ScoreInsert.song_id score) (ScoreInsert.participant_id score))
    (Db.scores (db w)) <> [] ->
  SessionStore.addScore score w
  = (Throw (StoreError unique_violation),
     mkWorld (store w) (db w) (sent w) (alerts w) (clock w) (S (calls w))
       (faults w) (others w) (randoms w) (draws w)).
Proof.
  intros Hr Hu Hdup. unfold SessionStore.addScore; unfold_M.
  rewrite request_quiet by assumption.
  unfold Db.insert_score.
  destruct (filter _ (Db.scores (db w))) as [| x xs]; [contradiction |].
  reflexivity.
Qed.

(** An insert keeps the key of [scores] unique. *)
Lemma insert_score_unique score d :
  scores_unique d -> scores_unique (Db.insert_score score d).2.
Proof.
  intros Huniq. unfold Db.insert_score.
  destruct (filter _ (Db.scores d)) eqn:Hnone; [| exact Huniq].
  intros a b. cbn. rewrite filter_app, length_app.
  destruct (decide (Db.score_key a b (ScoreInsert.row (Db.uuid (Db.next_uuid d)) score)))
    as [Hk | Hk].
  - rewrite filter_cons_True by exact Hk.
    destruct Hk as (<- & <-). cbn in Hnone |- *. rewrite Hnone. cbn. lia.
  - rewrite filter_cons_False by exact Hk. cbn. specialize (Huniq a b). lia.
Qed.

(** An insert keeps the key of [skip_votes] unique. *)
Lemma insert_skip_vote_unique a b c d :
  skip_votes_unique d -> skip_votes_unique (Db.insert_skip_vote a b c d).2.
Proof.
  intros Huniq. unfold Db.insert_skip_vote.
  destruct (filter (Db.skip_vote_key a b c) (Db.skip_votes d)) eqn:Hnone; [| exact Huniq].
  intros a' b' c'. cbn. rewrite filter_app, length_app.
  destruct (decide (Db.skip_vote_key a' b' c' (SkipVote.mk (Db.uuid (Db.next_uuid d)) a b c)))
    as [Hk | Hk].
  - rewrite filter_cons_True by exact Hk.
    destruct Hk as (<- & <- & <-). cbn in Hnone |- *. rewrite Hnone. cbn. lia.
  - rewrite filter_cons_False by exact Hk. cbn. specialize (Huniq a' b' c'). lia.
Qed.

(** C7: when the skip vote of the participant for the song is already in
    the store, either when [addSkipVote] looks for it or, put there by
    another tab in the meantime, when the insert arrives, [addSkipVote]
    resolves without an error, changes nothing locally, publishes nothing,
    and the store holds exactly one row with that key. *)
Theorem addSkipVote_duplicate_noop w songId s p :
  State.session (store w) = Some s ->
  State.currentParticipant (store w) = Some p ->
  reliable w ->
  skip_votes_unique (db w) ->
  (forall k d, skip_votes_unique d -> skip_votes_unique (others w k d)) ->
  let at_check := others w (calls w) (db w) in
  let at_insert := others w (S (calls w)) at_check in
  (exists v, v ∈ Db.skip_votes at_check
             /\ Db.skip_vote_key (Session.id s) songId (Participant.id p) v)
  \/ (exists v, v ∈ Db.skip_votes at_insert
                /\ Db.skip_vote_key (Session.id s) songId (Participant.id p) v) ->
  let '(r, w') := SessionStore.addSkipVote songId w in
  r = Ok tt
  /\ store w' = store w
  /\ sent w' = sent w
  /\ length (filter (Db.skip_vote_key (Session.id s) songId (Participant.id p))
               (Db.skip_votes (db w'))) = 1%nat.
Proof.
  intros Hs Hp Hr Huniq Hpres at_check at_insert Hdup.
  assert (Hone : forall d, skip_votes_unique d ->
                   (exists v, v ∈ Db.skip_votes d
                      /\ Db.skip_vote_key (Session.id s) songId (Participant.id p) v) ->
                   exists v, filter (Db.skip_vote_key (Session.id s) songId (Participant.id p))
                               (Db.skip_votes d) = [v]).
  { intros d Hd (v & Hin & Hk).
    specialize (Hd (Session.id s) songId (Participant.id p)).
    assert (Hv : v ∈ filter (Db.skip_vote_key (Session.id s) songId (Participant.id p))
                       (Db.skip_votes d)) by (apply list_elem_of_filter; auto).
    destruct (filter _ (Db.skip_votes d)) as [| x [| y l]]; cbn in Hd.
    - apply elem_of_nil in Hv; contradiction.
    - exists x; reflexivity.
    - lia. }
  assert (Hu0 : skip_votes_unique at_check) by (apply Hpres, Huniq).
  assert (Hu1 : skip_votes_unique at_insert) by (apply Hpres, Hu0).
  unfold SessionStore.addSkipVote; unfold_M. rewrite Hs, Hp.
  unfold request at 1. rewrite Hr. fold at_check. cbn.
  destruct (filter (Db.skip_vote_key (Session.id s) songId (Participant.id p))
              (Db.skip_votes at_check)) as [| x xs] eqn:Hcheck; cbn.
  - (* the row arrives between the check and the insert *)
    destruct Hdup as [(v & Hin & Hk) | Hrace].
    { assert (Hv : v ∈ filter (Db.skip_vote_key (Session.id s) songId (Participant.id p))
                         (Db.skip_votes at_check)) by (apply list_elem_of_filter; auto).
      rewrite Hcheck in Hv. apply elem_of_nil in Hv; contradiction. }
    destruct (Hone at_insert Hu1 Hrace) as (v & Hv).
    unfold request. cbn. rewrite Hr. fold at_insert.
    unfold Db.insert_skip_vote. cbn beta. rewrite Hv. cbn.
    rewrite decide_True by reflexivity.
    repeat split. cbn. rewrite Hv. reflexivity.
  - (* the row is found by the check *)
    destruct (Hone at_check Hu0) as (v & Hv).
    { exists x.
      assert (Hx : x ∈ filter (Db.skip_vote_key (Session.id s) songId (Participant.id p))
                         (Db.skip_votes at_check)) by (rewrite Hcheck; left).
      apply list_elem_of_filter in Hx. tauto. }
    repeat split. rewrite Hcheck in Hv. rewrite Hcheck. inversion Hv; reflexivity.
Qed.

Lemma addSkipVote_duplicate_noop_witness :
  let s := Example.session playing (Some 0) false in
  let other_tab (k : nat) (d : Db.t) :=
    if decide (k = 1%nat) then (Db.insert_skip_vote "party" "song-1" "bob" d).2 else d in
  let w := mkWorld
             (State.mk (Some s) [Example.alice; Example.bob] [Example.song1] [] []
                (Some Example.bob) true)
             (Db.mk [s] [Example.alice; Example.bob] [Example.song1] [] [] [] 0)
             [] [] 5000 0 (fun _ => false) other_tab (fun k => k) 0 in
  let '(r, w') := SessionStore.addSkipVote "song-1" w in
  r = Ok tt
  /\ store w' = store w
  /\ sent w' = sent w
  /\ length (filter (Db.skip_vote_key "party" "song-1" "bob") (Db.skip_votes (db w'))) = 1%nat.
Proof.
  cbv zeta.
  apply (addSkipVote_duplicate_noop _ "song-1" (Example.session playing (Some 0) false)
           Example.bob).
  - reflexivity.
  - reflexivity.
  - intros k; reflexivity.
  - intros a b c; cbn; lia.
  - intros k d Hd. cbn.
    destruct (decide (k = 1%nat)); [apply insert_skip_vote_unique |]; exact Hd.
  - right. exists (SkipVote.mk "0" "party" "song-1" "bob").
    split; [left | repeat split].
Defined.

(** ** Adding a song *)






(** ** The life of a session *)

(** Three participants, two queued songs: the host starts the session, the
    first song ends, the second song ends. *)
Example lifecycle :
  let w0 := mkWorld
              (State.mk (Some (Example.session waiting None false))
                 [Example.alice; Example.bob; Example.carol]
                 [Example.song1; Example.song2] [] [] (Some Example.alice) true)
              (Db.mk [Example.session waiting None false]
                 [Example.alice; Example.bob; Example.carol]
                 [Example.song1; Example.song2] [] [] [] 0)
              [] [] 5000 0 (fun _ => false) (fun _ d => d) (fun k => k) 0 in
  let w1 := (SessionPage.handleStartSession w0).2 in
  let w2 := (SessionStore.nextSong w1).2 in
  let w3 := (SessionStore.nextSong w2).2 in
  let view w := (fun s => (Session.status s, Session.current_song_index s))
                  <$> State.session (store w) in
  view w1 = Some (playing, Some 0)
  /\ view w2 = Some (playing, Some 1)
  /\ view w3 = Some (finished, Some 1).
Proof. vm_compute. repeat split. Qed.

(** Without a session the store's actions do nothing. *)
Example nextSong_initial :
  let w := mkWorld State.initial (Db.mk [] [] [] [] [] [] 0)
             [] [] 0 0 (fun _ => false) (fun _ d => d) (fun k => k) 0 in
  SessionStore.nextSong w = (Ok tt, w) /\ SessionStore.addSkipVote "song" w = (Ok tt, w).
Proof. split; reflexivity. Qed.

(** ** Skip votes: casting, retracting, toggling *)

(** A filter that every element passes changes nothing. *)
Lemma filter_all {A} (P : A -> Prop) `{forall x, Decision (P x)} (l : list A) :
  (forall x, x ∈ l -> P x) -> filter P l = l.
Proof.
  induction l as [| x l IH]; intros Hall; [reflexivity |].
  rewrite filter_cons_True by (apply Hall; left).
  f_equal. apply IH. intros y Hy. apply Hall. right. exact Hy.
Qed.

(** A filter that no element passes leaves nothing. *)
Lemma filter_none {A} (P : A -> Prop) `{forall x, Decision (P x)} (l : list A) :
  (forall x, x ∈ l -> ~ P x) -> filter P l = [].
Proof.
  induction l as [| x l IH]; intros Hnone; [reflexivity |].
  rewrite filter_cons_False by (apply Hnone; left).
  apply IH. intros y Hy. apply Hnone. right. exact Hy.
Qed.

(** A quiet world stays quiet for whatever leaves the surroundings alone. *)
Lemma quiet_after w w' :
  faults w' = faults w -> others w' = others w ->
  reliable w -> undisturbed w -> reliable w' /\ undisturbed w'.
Proof.
  intros Hf Ho Hr Hu. split.
  - intros k. rewrite Hf. apply Hr.
  - intros k d. rewrite Ho. apply Hu.
Qed.

Lemma removeSkipVote_ok w songId s p :
  State.session (store w) = Some s ->
  State.currentParticipant (store w) = Some p ->
  reliable w -> undisturbed w ->
  exists w',
    SessionStore.removeSkipVote songId w = (Ok tt, w')
    /\ Db.skip_votes (db w')
       = filter (fun v => ~ Db.skip_vote_key (Session.id s) songId (Participant.id p) v)
           (Db.skip_votes (db w))
    /\ State.skipVotes (store w')
       = filter (fun v => SkipVote.session_id v = Session.id s) (Db.skip_votes (db w'))
    /\ sent w'
       = sent w ++
         (if State.realtime (store w)
          then [skip_vote_removed
                  (Session.id s +:+ "-" +:+ songId +:+ "-" +:+ Participant.id p)
                  songId (Participant.id p) (clock w)]
          else [])
    /\ faults w' = faults w /\ others w' = others w.
Proof.
  intros Hs Hp Hr Hu.
  destruct w as [st d sn al ck c fl ot rn dr].
  unfold reliable, undisturbed in *. cbn in *.
  unfold SessionStore.removeSkipVote; unfold_M; cbn. rewrite Hs, Hp.
  rewrite request_quiet by assumption. cbn.
  rewrite request_quiet by assumption. cbn.
  destruct (State.realtime st); cbn;
    (eexists; split; [reflexivity |]; cbn; rewrite ?app_nil_r; repeat split).
Qed.

(** X2: Retracting a skip vote deletes the participant's vote for that song and
    no other row; the local list is reloaded from the store. *)
Theorem removeSkipVote_retracts w songId s p :
  State.session (store w) = Some s ->
  State.currentParticipant (store w) = Some p ->
  reliable w -> undisturbed w ->
  let '(r, w') := SessionStore.removeSkipVote songId w in
  r = Ok tt
  /\ (forall v, v ∈ Db.skip_votes (db w') <->
        v ∈ Db.skip_votes (db w)
        /\ ~ Db.skip_vote_key (Session.id s) songId (Participant.id p) v)
  /\ (forall v, v ∈ State.skipVotes (store w') <->
        v ∈ Db.skip_votes (db w') /\ SkipVote.session_id v = Session.id s).
Proof.
  intros Hs Hp Hr Hu.
  destruct (removeSkipVote_ok w songId s p Hs Hp Hr Hu) as (w' & Hrun & Hdb & Hlocal & _).
  rewrite Hrun. split; [reflexivity |]. split; intros v.
  - rewrite Hdb, list_elem_of_filter. tauto.
  - rewrite Hlocal, list_elem_of_filter. tauto.
Qed.

Lemma removeSkipVote_retracts_witness :
  let s := Example.session playing (Some 0) false in
  let w := Example.world s [Example.song1] [] [Example.vote Example.bob Example.song1]
             (Some Example.bob) in
  let '(r, w') := SessionStore.removeSkipVote "song-1" w in
  r = Ok tt
  /\ (forall v, v ∈ Db.skip_votes (db w') <->
        v ∈ Db.skip_votes (db w)
        /\ ~ Db.skip_vote_key (Session.id s) "song-1" (Participant.id Example.bob) v)
  /\ (forall v, v ∈ State.skipVotes (store w') <->
        v ∈ Db.skip_votes (db w') /\ SkipVote.session_id v = Session.id s).
Proof.
  cbv zeta.
  refine (removeSkipVote_retracts
            (Example.world (Example.session playing (Some 0) false) [Example.song1] []
               [Example.vote Example.bob Example.song1] (Some Example.bob))
            "song-1" (Example.session playing (Some 0) false) Example.bob _ _ _ _).
  - reflexivity.
  - reflexivity.
  - intros k; reflexivity.
  - intros k d; reflexivity.
Defined.

(** X3: Retracting a skip vote that is not in the store is no error and leaves
    the stored votes as they are; a connected client publishes the
    [skip_vote_removed] event all the same, with the placeholder id made of
    session, song and participant, and nothing else. *)
Theorem removeSkipVote_missing w songId s p :
  State.session (store w) = Some s ->
  State.currentParticipant (store w) = Some p ->
  reliable w -> undisturbed w ->
  (forall v, v ∈ Db.skip_votes (db w) ->
     ~ Db.skip_vote_key (Session.id s) songId (Participant.id p) v) ->
  let '(r, w') := SessionStore.removeSkipVote songId w in
  r = Ok tt
  /\ Db.skip_votes (db w') = Db.skip_votes (db w)
  /\ sent w'
     = sent w ++
       (if State.realtime (store w)
        then [skip_vote_removed
                (Session.id s +:+ "-" +:+ songId +:+ "-" +:+ Participant.id p)
                songId (Participant.id p) (clock w)]
        else []).
Proof.
  intros Hs Hp Hr Hu Hnone.
  destruct (removeSkipVote_ok w songId s p Hs Hp Hr Hu)
    as (w' & Hrun & Hdb & _ & Hsent & _).
  rewrite Hrun. split; [reflexivity |]. split.
  - rewrite Hdb. apply filter_all. exact Hnone.
  - exact Hsent.
Qed.

Lemma removeSkipVote_missing_witness :
  let s := Example.session playing (Some 0) false in
  let w := Example.world s [Example.song1] [] [Example.vote Example.alice Example.song1]
             (Some Example.bob) in
  let '(r, w') := SessionStore.removeSkipVote "song-1" w in
  r = Ok tt
  /\ Db.skip_votes (db w') = Db.skip_votes (db w)
  /\ sent w'
     = sent w ++
       (if State.realtime (store w)
        then [skip_vote_removed
                (Session.id s +:+ "-" +:+ "song-1" +:+ "-" +:+ Participant.id Example.bob)
                "song-1" (Participant.id Example.bob) (clock w)]
        else []).
Proof.
  cbv zeta.
  refine (removeSkipVote_missing
            (Example.world (Example.session playing (Some 0) false) [Example.song1] []
               [Example.vote Example.alice Example.song1] (Some Example.bob))
            "song-1" (Example.session playing (Some 0) false) Example.bob _ _ _ _ _).
  - reflexivity.
  - reflexivity.
  - intros k; reflexivity.
  - intros k d; reflexivity.
  - intros v Hv (_ & _ & Hpid). apply list_elem_of_singleton in Hv. subst v. discriminate.
Defined.

Lemma addSkipVote_fresh_ok w songId s p :
  State.session (store w) = Some s ->
  State.currentParticipant (store w) = Some p ->
  reliable w -> undisturbed w ->
  (forall v, v ∈ Db.skip_votes (db w) ->
     ~ Db.skip_vote_key (Session.id s) songId (Participant.id p) v) ->
  exists w',
    SessionStore.addSkipVote songId w = (Ok tt, w')
    /\ Db.skip_votes (db w')
       = Db.skip_votes (db w)
         ++ [SkipVote.mk (Db.uuid (Db.next_uuid (db w))) (Session.id s) songId
               (Participant.id p)]
    /\ State.skipVotes (store w')
       = filter (fun v => SkipVote.session_id v = Session.id s) (Db.skip_votes (db w'))
    /\ State.session (store w') = State.session (store w)
    /\ State.currentParticipant (store w') = State.currentParticipant (store w)
    /\ sent w'
       = sent w ++
         (if State.realtime (store w)
          then [skip_vote_added (Db.uuid (Db.next_uuid (db w))) songId (Participant.id p)
                  (or_string (Participant.user_name p) "Anonymous") (clock w)]
          else [])
    /\ faults w' = faults w /\ others w' = others w.
Proof.
  intros Hs Hp Hr Hu Hnone.
  destruct w as [st d sn al ck c fl ot rn dr].
  unfold reliable, undisturbed in *. cbn in *.
  unfold SessionStore.addSkipVote; unfold_M; cbn. rewrite Hs, Hp.
  rewrite request_quiet by assumption. cbn.
  rewrite (filter_none _ _ Hnone). cbn.
  rewrite request_quiet by assumption. cbn.
  unfold Db.insert_skip_vote. rewrite (filter_none _ _ Hnone). cbn.
  rewrite request_quiet by assumption. cbn.
  destruct (State.realtime st); cbn;
    (eexists; split; [reflexivity |]; cbn; rewrite ?app_nil_r; repeat split; assumption).
Qed.

(** X1: A first skip vote for a stored song by a stored participant adds one row
    with the key of session, song and participant at the end of the stored
    votes, and the local list is reloaded and shows it. *)
Theorem addSkipVote_fresh w songId s p :
  State.session (store w) = Some s ->
  State.currentParticipant (store w) = Some p ->
  reliable w -> undisturbed w ->
  skip_vote_row_ok (db w) (Session.id s) songId (Participant.id p) ->
  (forall v, v ∈ Db.skip_votes (db w) ->
     ~ Db.skip_vote_key (Session.id s) songId (Participant.id p) v) ->
  let '(r, w') := SessionStore.addSkipVote songId w in
  r = Ok tt
  /\ exists row,
       Db.skip_votes (db w') = Db.skip_votes (db w) ++ [row]
       /\ Db.skip_vote_key (Session.id s) songId (Participant.id p) row
       /\ row ∈ State.skipVotes (store w').
Proof.
  intros Hs Hp Hr Hu _ Hnone.
  destruct (addSkipVote_fresh_ok w songId s p Hs Hp Hr Hu Hnone)
    as (w' & Hrun & Hdb & Hlocal & _).
  rewrite Hrun. split; [reflexivity |].
  eexists. split; [exact Hdb |]. split; [repeat split |].
  rewrite Hlocal, Hdb. apply list_elem_of_filter. split; [reflexivity |].
  apply elem_of_app. right. left.
Qed.

Lemma addSkipVote_fresh_witness :
  let s := Example.session playing (Some 0) false in
  let w := Example.world s [Example.song1] [] [Example.vote Example.alice Example.song1]
             (Some Example.bob) in
  let '(r, w') := SessionStore.addSkipVote "song-1" w in
  r = Ok tt
  /\ exists row,
       Db.skip_votes (db w') = Db.skip_votes (db w) ++ [row]
       /\ Db.skip_vote_key (Session.id s) "song-1" (Participant.id Example.bob) row
       /\ row ∈ State.skipVotes (store w').
Proof.
  cbv zeta.
  refine (addSkipVote_fresh
            (Example.world (Example.session playing (Some 0) false) [Example.song1] []
               [Example.vote Example.alice Example.song1] (Some Example.bob))
            "song-1" (Example.session playing (Some 0) false) Example.bob _ _ _ _ _ _).
  - reflexivity.
  - reflexivity.
  - intros k; reflexivity.
  - intros k d; reflexivity.
  - rows_stored.
  - intros v Hv (_ & _ & Hpid). apply list_elem_of_singleton in Hv. subst v. discriminate.
Defined.

(** X4: Pressing the skip button twice casts the vote and takes it back: the
    stored skip votes end as they began. *)
Theorem handleSkipVote_twice w song s p :
  State.session (store w) = Some s ->
  State.currentParticipant (store w) = Some p ->
  reliable w -> undisturbed w ->
  skip_vote_row_ok (db w) (Session.id s) (Song.id song) (Participant.id p) ->
  (forall v, v ∈ Db.skip_votes (db w) ->
     ~ Db.skip_vote_key (Session.id s) (Song.id song) (Participant.id p) v) ->
  (forall v, v ∈ State.skipVotes (store w) ->
     ~ (SkipVote.song_id v = Song.id song /\ SkipVote.participant_id v = Participant.id p)) ->
  let '(r1, w1) := UseSkipVoting.handleSkipVote (Some song) w in
  let '(r2, w2) := UseSkipVoting.handleSkipVote (Some song) w1 in
  r1 = Ok tt /\ r2 = Ok tt
  /\ length (Db.skip_votes (db w1)) = S (length (Db.skip_votes (db w)))
  /\ Db.skip_votes (db w2) = Db.skip_votes (db w).
Proof.
  intros Hs Hp Hr Hu _ Hnone Hlocal.
  assert (Hex : forall l,
            existsb (fun v => bool_decide (SkipVote.song_id v = Song.id song
                                           /\ SkipVote.participant_id v = Participant.id p)) l
            = true <->
            exists v, v ∈ l /\ SkipVote.song_id v = Song.id song
                      /\ SkipVote.participant_id v = Participant.id p).
  { intros l. rewrite existsb_exists. split; intros (v & Hv & Hk); exists v.
    - apply list_elem_of_In in Hv. apply bool_decide_eq_true in Hk. tauto.
    - split; [apply list_elem_of_In; tauto | apply bool_decide_eq_true; tauto]. }
  unfold UseSkipVoting.handleSkipVote at 1. unfold mbind, M_bind, get.
  rewrite Hs, Hp.
  destruct (existsb _ (State.skipVotes (store w))) eqn:Hfirst.
  { apply Hex in Hfirst as (v & Hv & Hk). destruct (Hlocal v Hv Hk). }
  destruct (addSkipVote_fresh_ok w (Song.id song) s p Hs Hp Hr Hu Hnone)
    as (w1 & Hrun1 & Hdb1 & Hloc1 & Hs1 & Hp1 & _ & Hf1 & Ho1).
  rewrite Hrun1.
  unfold UseSkipVoting.handleSkipVote. unfold mbind, M_bind, get.
  rewrite Hs1, Hp1, Hs, Hp.
  destruct (existsb _ (State.skipVotes (store w1))) eqn:Hsecond.
  2:{ exfalso. apply not_true_iff_false in Hsecond. apply Hsecond, Hex.
      exists (SkipVote.mk (Db.uuid (Db.next_uuid (db w))) (Session.id s) (Song.id song)
                (Participant.id p)).
      split; [| split; reflexivity].
      rewrite Hloc1, Hdb1. apply list_elem_of_filter. split; [reflexivity |].
      apply elem_of_app. right. left. }
  destruct (quiet_after w w1 Hf1 Ho1 Hr Hu) as (Hr1 & Hu1).
  destruct (removeSkipVote_ok w1 (Song.id song) s p) as (w2 & Hrun2 & Hdb2 & _);
    [congruence | congruence | exact Hr1 | exact Hu1 |].
  rewrite Hrun2. split; [reflexivity |]. split; [reflexivity |]. split.
  - rewrite Hdb1, length_app. cbn. lia.
  - rewrite Hdb2, Hdb1, filter_app, (filter_all _ _ Hnone).
    rewrite filter_cons_False by (intros Hn; apply Hn; repeat split).
    rewrite filter_nil. apply app_nil_r.
Qed.

Lemma handleSkipVote_twice_witness :
  let s := Example.session playing (Some 0) false in
  let w := Example.world s [Example.song1] [] [Example.vote Example.alice Example.song1]
             (Some Example.bob) in
  let '(r1, w1) := UseSkipVoting.handleSkipVote (Some Example.song1) w in
  let '(r2, w2) := UseSkipVoting.handleSkipVote (Some Example.song1) w1 in
  r1 = Ok tt /\ r2 = Ok tt
  /\ length (Db.skip_votes (db w1)) = S (length (Db.skip_votes (db w)))
  /\ Db.skip_votes (db w2) = Db.skip_votes (db w).
Proof.
  cbv zeta.
  refine (handleSkipVote_twice
            (Example.world (Example.session playing (Some 0) false) [Example.song1] []
               [Example.vote Example.alice Example.song1] (Some Example.bob))
            Example.song1 (Example.session playing (Some 0) false) Example.bob
            _ _ _ _ _ _ _).
  - reflexivity.
  - reflexivity.
  - intros k; reflexivity.
  - intros k d; reflexivity.
  - rows_stored.
  - intros v Hv (_ & _ & Hpid). apply list_elem_of_singleton in Hv. subst v. discriminate.
  - intros v Hv (_ & Hpid). apply list_elem_of_singleton in Hv. subst v. discriminate.
Defined.

(** ** Writing the session row *)

(** [updateSession] with a patch of the song index only. *)
Lemma updateSession_index_ok index t w s row :
  State.session (store w) = Some s ->
  reliable w -> undisturbed w ->
  Session.id row = Session.id s ->
  session_stored (db w) row ->
  let patch := SessionPatch.mk None (Some (Some index)) (Some (Some t)) None None in
  exists w',
    SessionStore.updateSession patch w = (Ok tt, w')
    /\ State.session (store w')
       = Some (SessionPatch.apply (SessionPatch.with_last_activity (clock w) patch) row)
    /\ session_stored (db w')
         (SessionPatch.apply (SessionPatch.with_last_activity (clock w) patch) row)
    /\ State.songs (store w') = State.songs (store w)
    /\ Db.songs (db w') = Db.songs (db w)
    /\ sent w'
       = sent w ++
         (if State.realtime (store w) then
            match js_index (State.songs (store w)) index with
            | Some song =>
                [song_changed
                   (SongChanged.mk (Session.id s) (Song.id song) index t
                      (Session.host_id s) (clock w))]
            | None => []
            end
          else []).
Proof.
  intros Hs Hr Hu Hid Hrow patch. subst patch.
  pose proof (update_session_stored
                (SessionPatch.with_last_activity (clock w)
                   (SessionPatch.mk None (Some (Some index)) (Some (Some t)) None None))
                row (db w) Hrow) as Hstored.
  destruct w as [st d sn al ck c fl ot rn dr].
  unfold reliable, undisturbed in *. cbn in Hs, Hr, Hu, Hstored, Hrow.
  unfold SessionStore.updateSession; unfold_M; cbn.
  rewrite Hs.
  rewrite request_quiet by assumption. cbn.
  rewrite <- Hid.
  unfold Db.update_session. unfold session_stored in Hrow. rewrite Hrow. cbn.
  rewrite (bool_decide_eq_false_2 (None = Some playing)) by discriminate.
  rewrite (bool_decide_eq_false_2 (None = Some finished)) by discriminate.
  destruct (State.realtime st); cbn.
  - destruct (js_index (State.songs st) index); cbn;
      (eexists; split; [reflexivity |]; cbn; rewrite ?app_nil_r;
       split; [reflexivity |]; split; [exact Hstored |]; repeat split).
  - eexists; split; [reflexivity |]; cbn; rewrite ?app_nil_r;
      split; [reflexivity |]; split; [exact Hstored |]; repeat split.
Qed.

(** X8: In the middle of the queue [nextSong] moves the session to the next
    index and restarts the clock of the song; the status and the queue stay,
    the store holds the same row as the client, and a connected client
    publishes [song_changed] for the song at the new index. *)
Theorem nextSong_advances w s row index :
  State.session (store w) = Some s ->
  Session.current_song_index s = Some index ->
  0 <= index ->
  index + 1 < Z.of_nat (length (State.songs (store w))) ->
  reliable w -> undisturbed w ->
  Session.id row = Session.id s ->
  session_stored (db w) row ->
  let '(r, w') := SessionStore.nextSong w in
  r = Ok tt
  /\ State.songs (store w') = State.songs (store w)
  /\ exists s' song,
       State.session (store w') = Some s'
       /\ session_stored (db w') s'
       /\ Session.current_song_index s' = Some (index + 1)
       /\ Session.current_song_started_at s' = Some (clock w)
       /\ Session.status s' = Session.status row
       /\ State.songs (store w) !! Z.to_nat (index + 1) = Some song
       /\ (State.realtime (store w) = true ->
           sent w'
           = sent w ++ [song_changed
                          (SongChanged.mk (Session.id s) (Song.id song) (index + 1)
                             (clock w) (Session.host_id s) (clock w))]).
Proof.
  intros Hs Hidx Hpos Hlen Hr Hu Hid Hrow.
  unfold SessionStore.nextSong. unfold mbind, M_bind, get, now.
  rewrite Hs, Hidx. rewrite decide_False by lia.
  destruct (updateSession_index_ok (index + 1) (clock w) w s row Hs Hr Hu Hid Hrow)
    as (w' & Hrun & Hsess & Hstored & Hsongs & _ & Hsent).
  rewrite Hrun. split; [reflexivity |]. split; [exact Hsongs |].
  destruct (lookup_lt_is_Some_2 (State.songs (store w)) (Z.to_nat (index + 1)))
    as (song & Hsong); [lia |].
  eexists _, song. split; [exact Hsess |]. split; [exact Hstored |].
  repeat split; [exact Hsong |].
  intros Hrt. rewrite Hsent, Hrt. unfold js_index.
  rewrite decide_True by lia. rewrite Hsong. reflexivity.
Qed.

Lemma nextSong_advances_witness :
  let s := Example.session playing (Some 0) false in
  let w := Example.world s [Example.song1; Example.song2] [] [] (Some Example.alice) in
  let '(r, w') := SessionStore.nextSong w in
  r = Ok tt
  /\ State.songs (store w') = State.songs (store w)
  /\ exists s' song,
       State.session (store w') = Some s'
       /\ session_stored (db w') s'
       /\ Session.current_song_index s' = Some (0 + 1)
       /\ Session.current_song_started_at s' = Some (clock w)
       /\ Session.status s' = Session.status s
       /\ State.songs (store w) !! Z.to_nat (0 + 1) = Some song
       /\ (State.realtime (store w) = true ->
           sent w'
           = sent w ++ [song_changed
                          (SongChanged.mk (Session.id s) (Song.id song) (0 + 1)
                             (clock w) (Session.host_id s) (clock w))]).
Proof.
  cbv zeta.
  refine (nextSong_advances
            (Example.world (Example.session playing (Some 0) false)
               [Example.song1; Example.song2] [] [] (Some Example.alice))
            (Example.session playing (Some 0) false)
            (Example.session playing (Some 0) false) 0 _ _ _ _ _ _ _ _).
  - reflexivity.
  - reflexivity.
  - lia.
  - cbn. lia.
  - intros k; reflexivity.
  - intros k d; reflexivity.
  - reflexivity.
  - reflexivity.
Defined.

(** X10: [toggleInfiniteMode] writes the negation of the flag the client holds
    and nothing else: the other columns of the stored row, the activity
    stamp included, are kept, and no event is published. *)
Theorem toggleInfiniteMode_flips w s row :
  State.session (store w) = Some s ->
  reliable w -> undisturbed w ->
  Session.id row = Session.id s ->
  session_stored (db w) row ->
  let '(r, w') := SessionStore.toggleInfiniteMode w in
  r = Ok tt
  /\ sent w' = sent w
  /\ exists s',
       State.session (store w') = Some s'
       /\ session_stored (db w') s'
       /\ Session.infinite_mode s' = Some (negb (default false (Session.infinite_mode s)))
       /\ Session.status s' = Session.status row
       /\ Session.current_song_index s' = Session.current_song_index row
       /\ Session.current_song_started_at s' = Session.current_song_started_at row
       /\ Session.last_activity_at s' = Session.last_activity_at row.
Proof.
  intros Hs Hr Hu Hid Hrow.
  pose proof (update_session_stored
                (SessionPatch.mk None None None None
                   (Some (Some (negb (default false (Session.infinite_mode s))))))
                row (db w) Hrow) as Hstored.
  destruct w as [st d sn al ck c fl ot rn dr].
  unfold reliable, undisturbed in *. cbn in Hs, Hr, Hu, Hstored, Hrow.
  unfold SessionStore.toggleInfiniteMode; unfold_M; cbn.
  rewrite Hs.
  rewrite request_quiet by assumption. cbn.
  rewrite <- Hid.
  unfold Db.update_session. unfold session_stored in Hrow. rewrite Hrow. cbn.
  split; [reflexivity |]. split; [reflexivity |].
  eexists. split; [reflexivity |]. split; [exact Hstored |]. repeat split.
Qed.

Lemma toggleInfiniteMode_flips_witness :
  let s := Example.session waiting None false in
  let w := Example.world s [Example.song1] [] [] (Some Example.alice) in
  let '(r, w') := SessionStore.toggleInfiniteMode w in
  r = Ok tt
  /\ sent w' = sent w
  /\ exists s',
       State.session (store w') = Some s'
       /\ session_stored (db w') s'
       /\ Session.infinite_mode s' = Some (negb (default false (Session.infinite_mode s)))
       /\ Session.status s' = Session.status s
       /\ Session.current_song_index s' = Session.current_song_index s
       /\ Session.current_song_started_at s' = Session.current_song_started_at s
       /\ Session.last_activity_at s' = Session.last_activity_at s.
Proof.
  cbv zeta.
  refine (toggleInfiniteMode_flips
            (Example.world (Example.session waiting None false) [Example.song1] [] []
               (Some Example.alice))
            (Example.session waiting None false) (Example.session waiting None false)
            _ _ _ _ _).
  - reflexivity.
  - intros k; reflexivity.
  - intros k d; reflexivity.
  - reflexivity.
  - reflexivity.
Defined.

(** X11: When the store does not answer the update of the session row with the
    row (the request is lost, or no row has the session's id),
    [updateSession] rejects with the store's error, and the local state and
    the published events are as before. *)
Theorem updateSession_rejected updates w s :
  State.session (store w) = Some s ->
  faults w (calls w) = true
  \/ filter (fun r => Session.id r = Session.id s)
       (Db.sessions (others w (calls w) (db w))) = [] ->
  let '(r, w') := SessionStore.updateSession updates w in
  (exists code, r = Throw (StoreError code))
  /\ store w' = store w
  /\ sent w' = sent w
  /\ Db.sessions (db w') = Db.sessions (others w (calls w) (db w)).
Proof.
  intros Hs Hfail.
  unfold SessionStore.updateSession; unfold_M. rewrite Hs.
  unfold request. cbn.
  destruct (faults w (calls w)) eqn:Hf.
  - cbn. split; [eexists; reflexivity |]. repeat split.
  - destruct Hfail as [Hlost | Hmissing]; [discriminate |].
    unfold Db.update_session. rewrite Hmissing. cbn.
    split; [eexists; reflexivity |]. repeat split.
Qed.

Lemma updateSession_rejected_witness :
  let s := Example.session playing (Some 0) false in
  let w := mkWorld
             (State.mk (Some s) [] [Example.song1] [] [] (Some Example.alice) true)
             (Db.mk [] [] [Example.song1] [] [] [] 0)
             [] [] 5000 0 (fun _ => false) (fun _ d => d) (fun k => k) 0 in
  let '(r, w') := SessionStore.updateSession
                    (SessionPatch.mk (Some finished) None None None None) w in
  (exists code, r = Throw (StoreError code))
  /\ store w' = store w
  /\ sent w' = sent w
  /\ Db.sessions (db w') = Db.sessions (others w (calls w) (db w)).
Proof.
  cbv zeta.
  refine (updateSession_rejected
            (SessionPatch.mk (Some finished) None None None None)
            (mkWorld
               (State.mk (Some (Example.session playing (Some 0) false)) []
                  [Example.song1] [] [] (Some Example.alice) true)
               (Db.mk [] [] [Example.song1] [] [] [] 0)
               [] [] 5000 0 (fun _ => false) (fun _ d => d) (fun k => k) 0)
            (Example.session playing (Some 0) false) _ _).
  - reflexivity.
  - right. reflexivity.
Defined.

(** X9: [forcePlaySong] does nothing for a song that is not in the local queue;
    for a queued song it makes the song's [position] column the current
    index and restarts the clock. *)
Theorem forcePlaySong_position w songId participantId :
  ((forall q, q ∈ State.songs (store w) -> Song.id q <> songId) ->
   SessionStore.forcePlaySong songId participantId w = (Ok tt, w))
  /\ (forall s row k song,
        State.session (store w) = Some s ->
        list_find (fun q => Song.id q = songId) (State.songs (store w)) = Some (k, song) ->
        reliable w -> undisturbed w ->
        Session.id row = Session.id s ->
        session_stored (db w) row ->
        let '(r, w') := SessionStore.forcePlaySong songId participantId w in
        r = Ok tt
        /\ exists s',
             State.session (store w') = Some s'
             /\ session_stored (db w') s'
             /\ Session.current_song_index s' = Some (Song.position song)
             /\ Session.current_song_started_at s' = Some (clock w)
             /\ Session.status s' = Session.status row).
Proof.
  split.
  - intros Hnone. unfold SessionStore.forcePlaySong; unfold_M.
    destruct (State.session (store w)); [| reflexivity].
    destruct (list_find _ (State.songs (store w))) as [[k song] |] eqn:Hfind; [| reflexivity].
    apply list_find_Some in Hfind as (Hk & Hid & _).
    destruct (Hnone song); [apply list_elem_of_lookup; eauto | exact Hid].
  - intros s row k song Hs Hfind Hr Hu Hid Hrow.
    unfold SessionStore.forcePlaySong. unfold mbind, M_bind, get, now.
    rewrite Hs, Hfind.
    rewrite request_quiet by assumption. cbn [Db.insert_force_play fst snd clock].
    match goal with
    | |- context [SessionStore.updateSession ?patch ?w1] =>
        destruct (updateSession_index_ok (Song.position song) (clock w) w1 s row)
          as (w' & Hrun & Hsess & Hstored & _); try assumption
    end.
    cbn [clock] in Hrun, Hsess, Hstored. rewrite Hrun.
    split; [reflexivity |].
    eexists. split; [exact Hsess |]. split; [exact Hstored |]. repeat split.
Qed.

Lemma forcePlaySong_position_witness :
  let s := Example.session playing (Some 0) false in
  let w := Example.world s [Example.song1; Example.song2] [] [] (Some Example.alice) in
  let '(r, w') := SessionStore.forcePlaySong "song-2" "bob" w in
  r = Ok tt
  /\ exists s',
       State.session (store w') = Some s'
       /\ session_stored (db w') s'
       /\ Session.current_song_index s' = Some (Song.position Example.song2)
       /\ Session.current_song_started_at s' = Some (clock w)
       /\ Session.status s' = Session.status s.
Proof.
  cbv zeta.
  refine (proj2 (forcePlaySong_position
                   (Example.world (Example.session playing (Some 0) false)
                      [Example.song1; Example.song2] [] [] (Some Example.alice))
                   "song-2" "bob")
            (Example.session playing (Some 0) false)
            (Example.session playing (Some 0) false) 1%nat Example.song2 _ _ _ _ _ _).
  - reflexivity.
  - reflexivity.
  - intros k; reflexivity.
  - intros k d; reflexivity.
  - reflexivity.
  - reflexivity.
Defined.

(** X12: The end of a song advances the session only on the host's client: for
    everybody else [handleSongEnd] leaves the world as it is; on the host's
    client it never rejects, whatever [nextSong] does. *)
Theorem handleSongEnd_host_only w :
  (SessionPage.isHost (store w) = false -> SessionPage.handleSongEnd w = (Ok tt, w))
  /\ (SessionPage.handleSongEnd w).1 = Ok tt.
Proof.
  unfold SessionPage.handleSongEnd; unfold_M. split.
  - intros Hhost. rewrite Hhost. reflexivity.
  - destruct (SessionPage.isHost (store w)); [| reflexivity].
    destruct (SessionStore.nextSong w) as [[[] | e] w']; reflexivity.
Qed.

Lemma handleSongEnd_host_only_witness :
  let w := Example.world (Example.session playing (Some 0) false)
             [Example.song1; Example.song2] [] [] (Some Example.bob) in
  SessionPage.handleSongEnd w = (Ok tt, w).
Proof.
  cbv zeta.
  refine (proj1 (handleSongEnd_host_only
                   (Example.world (Example.session playing (Some 0) false)
                      [Example.song1; Example.song2] [] [] (Some Example.bob))) _).
  reflexivity.
Defined.

(** ** Reloading from the store *)

#[local] Instance positioned_before_total : Total Db.positioned_before.
Proof. intros a b. unfold Db.positioned_before. lia. Qed.

#[local] Instance joined_before_total : Total Db.joined_before.
Proof. intros a b. unfold Db.joined_before. lia. Qed.

(** What a reload of the queue yields: the stored songs of the session, each
    once, in the order of their positions. *)
Lemma select_songs_sorted sessionId d songs d' :
  Db.select_songs sessionId d = (RespData songs, d') ->
  d' = d
  /\ Sorted Db.positioned_before songs
  /\ songs ≡ₚ filter (fun q => Song.session_id q = sessionId) (Db.songs d).
Proof.
  unfold Db.select_songs. intros H. inversion H. subst. split; [reflexivity |]. split.
  - apply Sorted_merge_sort. apply _.
  - apply merge_sort_Permutation.
Qed.

(** [updateSession] with the patch that finishes the session. *)
Lemma updateSession_finished_ok w s row :
  State.session (store w) = Some s ->
  reliable w -> undisturbed w ->
  Session.id row = Session.id s ->
  session_stored (db w) row ->
  let patch := SessionPatch.mk (Some finished) None None None None in
  exists w',
    SessionStore.updateSession patch w = (Ok tt, w')
    /\ State.session (store w')
       = Some (SessionPatch.apply (SessionPatch.with_last_activity (clock w) patch) row)
    /\ Db.songs (db w') = Db.songs (db w)
    /\ Db.scores (db w') = Db.scores (db w)
    /\ Db.participants (db w') = Db.participants (db w)
    /\ (if State.realtime (store w) then
          State.songs (store w')
          = merge_sort Db.positioned_before
              (filter (fun q => Song.session_id q = Session.id s) (Db.songs (db w)))
          /\ State.scores (store w')
             = filter (fun q => Score.session_id q = Session.id s) (Db.scores (db w))
          /\ State.participants (store w')
             = merge_sort Db.joined_before
                 (filter (fun q => Participant.session_id q = Session.id s)
                    (Db.participants (db w)))
          /\ sent w' = sent w ++ [session_ended (Session.id s) (Session.host_id s) (clock w)]
        else
          State.songs (store w') = State.songs (store w)
          /\ State.scores (store w') = State.scores (store w)
          /\ State.participants (store w') = State.participants (store w)
          /\ sent w' = sent w)
    /\ session_stored (db w')
         (SessionPatch.apply (SessionPatch.with_last_activity (clock w) patch) row).
Proof.
  intros Hs Hr Hu Hid Hrow patch. subst patch.
  pose proof (update_session_stored
                (SessionPatch.with_last_activity (clock w)
                   (SessionPatch.mk (Some finished) None None None None))
                row (db w) Hrow) as Hstored.
  destruct w as [st d sn al ck c fl ot rn dr].
  unfold reliable, undisturbed in *. cbn in Hs, Hr, Hu, Hrow, Hstored.
  unfold SessionStore.updateSession; unfold_M; cbn.
  rewrite Hs.
  rewrite request_quiet by assumption. cbn.
  rewrite <- Hid.
  unfold Db.update_session. unfold session_stored in Hrow. rewrite Hrow. cbn.
  rewrite (bool_decide_eq_false_2 (Some finished = Some playing)) by discriminate.
  rewrite (bool_decide_eq_true_2 (Some finished = Some finished)) by reflexivity.
  destruct (State.realtime st); cbn.
  - do 3 (rewrite request_quiet by assumption; cbn).
    eexists. split; [reflexivity |]. cbn. repeat split. exact Hstored.
  - eexists. split; [reflexivity |]. cbn. repeat split. exact Hstored.
Qed.

(** X13: [handleFinishSession] does nothing for a participant who is not the host
    and nothing when the host declines the confirmation.  When the host
    confirms, the session is finished, in the stored row and in the client;
    a connected client then holds the stored songs of the session in the
    order of their positions and the stored scores, and has published
    [session_ended]. *)
Theorem handleFinishSession_finishes w confirmed :
  (SessionPage.isHost (store w) = false \/ confirmed = false ->
   SessionPage.handleFinishSession confirmed w = (Ok tt, w))
  /\ (forall s row,
        State.session (store w) = Some s ->
        SessionPage.isHost (store w) = true ->
        confirmed = true ->
        State.realtime (store w) = true ->
        reliable w -> undisturbed w ->
        Session.id row = Session.id s ->
        session_stored (db w) row ->
        let '(r, w') := SessionPage.handleFinishSession confirmed w in
        r = Ok tt
        /\ (exists s',
              State.session (store w') = Some s'
              /\ session_stored (db w') s'
              /\ Session.status s' = finished
              /\ Session.current_song_index s' = Session.current_song_index row)
        /\ Sorted Db.positioned_before (State.songs (store w'))
        /\ State.songs (store w')
           ≡ₚ filter (fun q => Song.session_id q = Session.id s) (Db.songs (db w'))
        /\ State.scores (store w')
           = filter (fun q => Score.session_id q = Session.id s) (Db.scores (db w'))
        /\ sent w' = sent w ++ [session_ended (Session.id s) (Session.host_id s) (clock w)]).
Proof.
  split.
  - intros Hguard. unfold SessionPage.handleFinishSession; unfold_M.
    destruct (State.session (store w)); [| reflexivity].
    destruct Hguard as [Hh | Hc].
    + rewrite Hh. reflexivity.
    + rewrite Hc. destruct (SessionPage.isHost (store w)); reflexivity.
  - intros s row Hs Hhost Hc Hrt Hr Hu Hid Hrow. subst confirmed.
    unfold SessionPage.handleFinishSession. unfold mbind, M_bind, get, try_catch.
    rewrite Hs, Hhost. cbn [negb].
    destruct (updateSession_finished_ok w s row Hs Hr Hu Hid Hrow)
      as (w' & Hrun & Hsess & Hsongs & Hscores & _ & Hlocal & Hstored).
    rewrite Hrun. rewrite Hrt in Hlocal. destruct Hlocal as (Hq & Hsc & _ & Hsent).
    split; [reflexivity |].
    split; [eexists; split; [exact Hsess |]; split; [exact Hstored |]; split; reflexivity |].
    rewrite Hq, Hsc, Hsongs, Hscores. split; [apply Sorted_merge_sort; apply _ |].
    split; [apply merge_sort_Permutation |]. split; [reflexivity | exact Hsent].
Qed.

Lemma handleFinishSession_finishes_witness :
  let s := Example.session playing (Some 0) false in
  let w := Example.world s [Example.song2; Example.song1] [] [] (Some Example.alice) in
  let '(r, w') := SessionPage.handleFinishSession true w in
  r = Ok tt
  /\ (exists s',
        State.session (store w') = Some s'
        /\ session_stored (db w') s'
        /\ Session.status s' = finished
        /\ Session.current_song_index s' = Session.current_song_index s)
  /\ Sorted Db.positioned_before (State.songs (store w'))
  /\ State.songs (store w')
     ≡ₚ filter (fun q => Song.session_id q = Session.id s) (Db.songs (db w'))
  /\ State.scores (store w')
     = filter (fun q => Score.session_id q = Session.id s) (Db.scores (db w'))
  /\ sent w' = sent w ++ [session_ended (Session.id s) (Session.host_id s) (clock w)].
Proof.
  cbv zeta.
  refine (proj2 (handleFinishSession_finishes
                   (Example.world (Example.session playing (Some 0) false)
                      [Example.song2; Example.song1] [] [] (Some Example.alice)) true)
            (Example.session playing (Some 0) false)
            (Example.session playing (Some 0) false) _ _ _ _ _ _ _ _).
  - reflexivity.
  - reflexivity.
  - reflexivity.
  - reflexivity.
  - intros k; reflexivity.
  - intros k d; reflexivity.
  - reflexivity.
  - reflexivity.
Defined.

(** A request resolves, counts as one call and leaves the client alone; a
    lost request resolves with the transport error. *)
Lemma request_outcome {A} (op : Db.op A) w :
  exists r w1,
    request op w = (Ok r, w1)
    /\ store w1 = store w /\ calls w1 = S (calls w) /\ faults w1 = faults w
    /\ (faults w (calls w) = true -> r = RespError transport_failure).
Proof.
  unfold request. destruct (faults w (calls w)) eqn:Hlost.
  - eexists _, _. split; [reflexivity |]. repeat split.
  - destruct (op (others w (calls w) (db w))) as [r d'].
    eexists _, _. split; [reflexivity |]. repeat split. discriminate.
Qed.

(** X14: [loadSession] takes everything of the session from a store that
    answers: the row, the participants in the order of joining, the queue
    in the order of the positions, the scores and the skip votes.  When any
    one of its six requests is lost, or no row has the session's id, it
    rejects with the store's error; and whenever it rejects, the local state
    is as it was. *)
Theorem loadSession_mirrors w sessionId :
  (forall row,
     reliable w -> undisturbed w ->
     Session.id row = sessionId ->
     session_stored (db w) row ->
     let '(r, w') := SessionStore.loadSession sessionId w in
     r = Ok tt
     /\ db w' = db w
     /\ State.session (store w') = Some row
     /\ Sorted Db.joined_before (State.participants (store w'))
     /\ State.participants (store w')
        ≡ₚ filter (fun q => Participant.session_id q = sessionId) (Db.participants (db w))
     /\ Sorted Db.positioned_before (State.songs (store w'))
     /\ State.songs (store w')
        ≡ₚ filter (fun q => Song.session_id q = sessionId) (Db.songs (db w))
     /\ State.scores (store w')
        = filter (fun q => Score.session_id q = sessionId) (Db.scores (db w))
     /\ State.skipVotes (store w')
        = filter (fun q => SkipVote.session_id q = sessionId) (Db.skip_votes (db w))
     /\ State.currentParticipant (store w') = State.currentParticipant (store w))
  /\ (forall k,
        (k < 6)%nat -> faults w (calls w + k)%nat = true ->
        exists code w',
          SessionStore.loadSession sessionId w = (Throw (StoreError code), w')
          /\ store w' = store w)
  /\ (faults w (calls w) = false ->
      filter (fun r => Session.id r = sessionId)
        (Db.sessions (others w (calls w) (db w))) = [] ->
      exists w',
        SessionStore.loadSession sessionId w = (Throw (StoreError not_single_row), w')
        /\ store w' = store w)
  /\ (forall e w',
        SessionStore.loadSession sessionId w = (Throw e, w') -> store w' = store w).
Proof.
  split; [| split; [| split]].
  - intros row Hr Hu Hid Hrow.
    destruct w as [st d sn al ck c fl ot rn dr].
    unfold reliable, undisturbed in *. cbn in Hr, Hu, Hrow.
    unfold SessionStore.loadSession; unfold_M; cbn.
    rewrite request_quiet by assumption. cbn.
    unfold Db.select_session. rewrite <- Hid.
    unfold session_stored in Hrow. rewrite Hrow. cbn.
    do 5 (rewrite request_quiet by assumption; cbn).
    repeat split.
    + apply Sorted_merge_sort. apply _.
    + apply merge_sort_Permutation.
    + apply Sorted_merge_sort. apply _.
    + apply merge_sort_Permutation.
  - intros k Hk Hlost.
    unfold SessionStore.loadSession, try_catch, throw, mbind, M_bind.
    destruct (request_outcome (Db.select_session sessionId) w)
      as (r1 & w1 & -> & Hs1 & Hc1 & Hf1 & Hl1).
    destruct r1 as [code | session]; [eauto |].
    destruct (request_outcome (Db.select_participants sessionId) w1)
      as (r2 & w2 & -> & Hs2 & Hc2 & Hf2 & Hl2).
    destruct r2 as [code | participants]; [exists code, w2; split; [reflexivity | congruence] |].
    destruct (request_outcome (Db.select_songs sessionId) w2)
      as (r3 & w3 & -> & Hs3 & Hc3 & Hf3 & Hl3).
    destruct r3 as [code | songs]; [exists code, w3; split; [reflexivity | congruence] |].
    destruct (request_outcome (Db.select_scores sessionId) w3)
      as (r4 & w4 & -> & Hs4 & Hc4 & Hf4 & Hl4).
    destruct r4 as [code | scores]; [exists code, w4; split; [reflexivity | congruence] |].
    destruct (request_outcome (Db.select_skip_votes sessionId) w4)
      as (r5 & w5 & -> & Hs5 & Hc5 & Hf5 & Hl5).
    destruct r5 as [code | skipVotes]; [exists code, w5; split; [reflexivity | congruence] |].
    destruct (request_outcome (Db.select_reactions sessionId) w5)
      as (r6 & w6 & -> & Hs6 & Hc6 & Hf6 & Hl6).
    destruct r6 as [code | reactions]; [exists code, w6; split; [reflexivity | congruence] |].
    exfalso.
    rewrite Hf5, Hf4, Hf3, Hf2, Hf1, Hc5, Hc4, Hc3, Hc2, Hc1 in Hl6.
    rewrite Hf4, Hf3, Hf2, Hf1, Hc4, Hc3, Hc2, Hc1 in Hl5.
    rewrite Hf3, Hf2, Hf1, Hc3, Hc2, Hc1 in Hl4.
    rewrite Hf2, Hf1, Hc2, Hc1 in Hl3.
    rewrite Hf1, Hc1 in Hl2.
    assert (Hcases : (k = 0 \/ k = 1 \/ k = 2 \/ k = 3 \/ k = 4 \/ k = 5)%nat) by lia.
    destruct Hcases as [-> | [-> | [-> | [-> | [-> | ->]]]]].
    + rewrite Nat.add_0_r in Hlost. specialize (Hl1 Hlost). discriminate.
    + replace (calls w + 1)%nat with (S (calls w)) in Hlost by lia.
      specialize (Hl2 Hlost). discriminate.
    + replace (calls w + 2)%nat with (S (S (calls w))) in Hlost by lia.
      specialize (Hl3 Hlost). discriminate.
    + replace (calls w + 3)%nat with (S (S (S (calls w)))) in Hlost by lia.
      specialize (Hl4 Hlost). discriminate.
    + replace (calls w + 4)%nat with (S (S (S (S (calls w))))) in Hlost by lia.
      specialize (Hl5 Hlost). discriminate.
    + replace (calls w + 5)%nat with (S (S (S (S (S (calls w)))))) in Hlost by lia.
      specialize (Hl6 Hlost). discriminate.
  - intros Hanswered Hmissing.
    unfold SessionStore.loadSession, try_catch, throw, mbind, M_bind, request.
    rewrite Hanswered. unfold Db.select_session. rewrite Hmissing.
    eexists. split; reflexivity.
  - intros e w'. unfold SessionStore.loadSession; unfold_M. unfold request.
    repeat (match goal with
            | |- context [if ?b then _ else _] => destruct b
            | |- context [match Db.select_session ?a ?d with _ => _ end] =>
                destruct (Db.select_session a d) as [[?|?] ?]
            end; cbn);
      intros H; inversion H; reflexivity.
Qed.

Lemma loadSession_mirrors_witness :
  let row := Example.session waiting None false in
  let w := mkWorld State.initial
             (Db.mk [row] [Example.bob; Example.alice] [Example.song2; Example.song1] [] [] [] 0)
             [] [] 5000 0 (fun _ => false) (fun _ d => d) (fun k => k) 0 in
  let '(r, w') := SessionStore.loadSession "party" w in
  r = Ok tt
  /\ db w' = db w
  /\ State.session (store w') = Some row
  /\ Sorted Db.joined_before (State.participants (store w'))
  /\ State.participants (store w')
     ≡ₚ filter (fun q => Participant.session_id q = "party") (Db.participants (db w))
  /\ Sorted Db.positioned_before (State.songs (store w'))
  /\ State.songs (store w')
     ≡ₚ filter (fun q => Song.session_id q = "party") (Db.songs (db w))
  /\ State.scores (store w')
     = filter (fun q => Score.session_id q = "party") (Db.scores (db w))
  /\ State.skipVotes (store w')
     = filter (fun q => SkipVote.session_id q = "party") (Db.skip_votes (db w))
  /\ State.currentParticipant (store w') = State.currentParticipant (store w).
Proof.
  cbv zeta.
  refine (proj1 (loadSession_mirrors
                   (mkWorld State.initial
                      (Db.mk [Example.session waiting None false]
                         [Example.bob; Example.alice]
                         [Example.song2; Example.song1] [] [] [] 0)
                      [] [] 5000 0 (fun _ => false) (fun _ d => d) (fun k => k) 0)
                   "party")
            (Example.session waiting None false) _ _ _ _).
  - intros k; reflexivity.
  - intros k d; reflexivity.
  - reflexivity.
  - reflexivity.
Defined.

(** A load whose third request, for the queue, is lost: it rejects with the
    transport error and the client keeps what it had. *)
Example loadSession_lost_songs :
  let row := Example.session waiting None false in
  let w := mkWorld
             (State.mk None [] [Example.song3] [] [] (Some Example.alice) false)
             (Db.mk [row] [Example.alice] [Example.song2; Example.song1] [] [] [] 0)
             [] [] 5000 0 (fun k => bool_decide (k = 2%nat)) (fun _ d => d) (fun k => k) 0 in
  let '(r, w') := SessionStore.loadSession "party" w in
  r = Throw (StoreError transport_failure) /\ store w' = store w.
Proof. vm_compute. split; reflexivity. Qed.

(** ** Karma *)

(** What [awardKarma] does in a quiet world, in full. *)
Lemma awardKarma_run participantId amount reason w s :
  State.session (store w) = Some s ->
  reliable w -> undisturbed w ->
  let entry := KarmaHistory.mk participantId (Session.id s) amount reason in
  exists w',
    SessionStore.awardKarma participantId amount reason w = (Ok tt, w')
    /\ Db.karma_history (db w') = Db.karma_history (db w) ++ [entry]
    /\ match list_find (fun p => Participant.id p = participantId)
               (State.participants (store w)) with
       | None =>
           Db.participants (db w') = Db.participants (db w)
           /\ State.participants (store w') = State.participants (store w)
       | Some (_, participant) =>
           let newKarma := default 0 (Participant.karma participant) + amount in
           Db.participants (db w')
           = map (fun p => if decide (Participant.id p = participantId)
                           then Db.set_karma newKarma p else p)
               (Db.participants (db w))
           /\ State.participants (store w')
              = map (fun p => if decide (Participant.id p = participantId)
                              then Db.set_karma newKarma p else p)
                  (State.participants (store w))
       end
    /\ State.session (store w') = State.session (store w)
    /\ State.songs (store w') = State.songs (store w)
    /\ State.scores (store w') = State.scores (store w)
    /\ State.skipVotes (store w') = State.skipVotes (store w)
    /\ State.currentParticipant (store w') = State.currentParticipant (store w)
    /\ State.realtime (store w') = State.realtime (store w)
    /\ Db.sessions (db w') = Db.sessions (db w)
    /\ Db.songs (db w') = Db.songs (db w)
    /\ Db.scores (db w') = Db.scores (db w)
    /\ Db.skip_votes (db w') = Db.skip_votes (db w)
    /\ Db.next_uuid (db w') = Db.next_uuid (db w)
    /\ sent w' = sent w /\ alerts w' = alerts w /\ clock w' = clock w
    /\ faults w' = faults w /\ others w' = others w.
Proof.
  intros Hs Hr Hu entry. subst entry.
  destruct w as [st d sn al ck c fl ot rn dr].
  unfold reliable, undisturbed in *. cbn in Hs, Hr, Hu.
  unfold SessionStore.awardKarma; unfold_M; cbn. rewrite Hs.
  rewrite request_quiet by assumption. cbn.
  destruct (list_find _ (State.participants st)) as [[k participant] |]; cbn.
  - rewrite request_quiet by assumption. cbn.
    eexists. split; [reflexivity |]. cbn. rewrite Hs. repeat split.
  - eexists. split; [reflexivity |]. cbn. rewrite Hs. repeat split.
Qed.

(** X15: Karma for a stored participant the client does not hold (one who
    joined after its last reload, say) is written to the ledger, and no
    total is touched, in the store or locally. *)
Theorem awardKarma_unknown_participant participantId amount reason w s :
  State.session (store w) = Some s ->
  reliable w -> undisturbed w ->
  karma_row_ok (db w) participantId (Session.id s) ->
  (forall p, p ∈ State.participants (store w) -> Participant.id p <> participantId) ->
  let '(r, w') := SessionStore.awardKarma participantId amount reason w in
  r = Ok tt
  /\ Db.karma_history (db w')
     = Db.karma_history (db w)
       ++ [KarmaHistory.mk participantId (Session.id s) amount reason]
  /\ Db.participants (db w') = Db.participants (db w)
  /\ State.participants (store w') = State.participants (store w).
Proof.
  intros Hs Hr Hu _ Hunknown.
  destruct (awardKarma_run participantId amount reason w s Hs Hr Hu)
    as (w' & Hrun & Hledger & Htotals & _).
  rewrite Hrun. split; [reflexivity |]. split; [exact Hledger |].
  destruct (list_find _ (State.participants (store w))) as [[k p] |] eqn:Hfind.
  - apply list_find_Some in Hfind as (Hk & Hid & _).
    destruct (Hunknown p); [apply list_elem_of_lookup; eauto | exact Hid].
  - exact Htotals.
Qed.

Lemma awardKarma_unknown_participant_witness :
  let s := Example.session playing (Some 0) false in
  let w := mkWorld
             (State.mk (Some s) [Example.alice; Example.bob] [Example.song1] [] []
                (Some Example.alice) true)
             (Db.mk [s] [Example.alice; Example.bob; Example.carol] [Example.song1]
                [] [] [] 0)
             [] [] 5000 0 (fun _ => false) (fun _ d => d) (fun k => k) 0 in
  let '(r, w') := SessionStore.awardKarma "carol" 2 "bonus" w in
  r = Ok tt
  /\ Db.karma_history (db w')
     = Db.karma_history (db w) ++ [KarmaHistory.mk "carol" (Session.id s) 2 "bonus"]
  /\ Db.participants (db w') = Db.participants (db w)
  /\ State.participants (store w') = State.participants (store w).
Proof.
  cbv zeta.
  refine (awardKarma_unknown_participant "carol" 2 "bonus"
            (mkWorld
               (State.mk (Some (Example.session playing (Some 0) false))
                  [Example.alice; Example.bob] [Example.song1] [] []
                  (Some Example.alice) true)
               (Db.mk [Example.session playing (Some 0) false]
                  [Example.alice; Example.bob; Example.carol] [Example.song1] [] [] [] 0)
               [] [] 5000 0 (fun _ => false) (fun _ d => d) (fun k => k) 0)
            (Example.session playing (Some 0) false) _ _ _ _ _).
  - reflexivity.
  - intros k; reflexivity.
  - intros k d; reflexivity.
  - rows_stored.
  - intros p Hp. apply elem_of_cons in Hp as [-> | Hp]; [discriminate |].
    apply list_elem_of_singleton in Hp. subst p. discriminate.
Defined.

(** X16: Karma for a participant the client holds: the new total is computed from the total
    the client holds (null counting as 0), not from the stored one, and is
    written to every stored and every local row with the participant's
    id. *)
Theorem awardKarma_total participantId amount reason w s k participant :
  State.session (store w) = Some s ->
  reliable w -> undisturbed w ->
  karma_row_ok (db w) participantId (Session.id s) ->
  list_find (fun p => Participant.id p = participantId) (State.participants (store w))
  = Some (k, participant) ->
  let '(r, w') := SessionStore.awardKarma participantId amount reason w in
  let newKarma := default 0 (Participant.karma participant) + amount in
  r = Ok tt
  /\ (forall p, p ∈ Db.participants (db w') -> Participant.id p = participantId ->
        Participant.karma p = Some newKarma)
  /\ (forall p, p ∈ State.participants (store w') -> Participant.id p = participantId ->
        Participant.karma p = Some newKarma)
  /\ (forall p, Participant.id p <> participantId ->
        (p ∈ Db.participants (db w') <-> p ∈ Db.participants (db w))
        /\ (p ∈ State.participants (store w') <-> p ∈ State.participants (store w))).
Proof.
  intros Hs Hr Hu _ Hfind.
  destruct (awardKarma_run participantId amount reason w s Hs Hr Hu)
    as (w' & Hrun & _ & Htotals & _).
  rewrite Hrun. rewrite Hfind in Htotals. cbv zeta in *.
  destruct Htotals as (Hdb & Hlocal).
  set (newKarma := default 0 (Participant.karma participant) + amount) in *.
  assert (Hmap : forall (l : list Participant.t) p,
            p ∈ map (fun p => if decide (Participant.id p = participantId)
                              then Db.set_karma newKarma p else p) l <->
            exists q, q ∈ l /\ p = (if decide (Participant.id q = participantId)
                                    then Db.set_karma newKarma q else q)).
  { intros l p. rewrite !list_elem_of_In, in_map_iff.
    split; intros (q & H1 & H2); exists q.
    - rewrite list_elem_of_In. split; [assumption | symmetry; assumption].
    - rewrite list_elem_of_In in H1. split; [symmetry; assumption | assumption]. }
  assert (Hhit : forall (l : list Participant.t) p,
            p ∈ map (fun p => if decide (Participant.id p = participantId)
                              then Db.set_karma newKarma p else p) l ->
            Participant.id p = participantId -> Participant.karma p = Some newKarma).
  { intros l p Hp Hid. apply Hmap in Hp as (q & _ & ->).
    destruct (decide (Participant.id q = participantId)); [reflexivity | contradiction]. }
  assert (Hmiss : forall (l : list Participant.t) p,
            Participant.id p <> participantId ->
            (p ∈ map (fun p => if decide (Participant.id p = participantId)
                               then Db.set_karma newKarma p else p) l <-> p ∈ l)).
  { intros l p Hid. rewrite Hmap. split.
    - intros (q & Hq & ->).
      destruct (decide (Participant.id q = participantId)) as [Hq' | Hq'];
        [destruct Hid; exact Hq' | exact Hq].
    - intros Hp. exists p. split; [exact Hp |]. rewrite decide_False by exact Hid.
      reflexivity. }
  split; [reflexivity |]. rewrite Hdb, Hlocal.
  split; [apply Hhit |]. split; [apply Hhit |].
  intros p Hid. split; apply Hmiss, Hid.
Qed.

Lemma awardKarma_total_witness :
  let s := Example.session playing (Some 0) false in
  let w := Example.world s [Example.song1] [] [] (Some Example.alice) in
  let '(r, w') := SessionStore.awardKarma "bob" 2 "bonus" w in
  let newKarma := default 0 (Participant.karma Example.bob) + 2 in
  r = Ok tt
  /\ (forall p, p ∈ Db.participants (db w') -> Participant.id p = "bob" ->
        Participant.karma p = Some newKarma)
  /\ (forall p, p ∈ State.participants (store w') -> Participant.id p = "bob" ->
        Participant.karma p = Some newKarma)
  /\ (forall p, Participant.id p <> "bob" ->
        (p ∈ Db.participants (db w') <-> p ∈ Db.participants (db w))
        /\ (p ∈ State.participants (store w') <-> p ∈ State.participants (store w))).
Proof.
  cbv zeta.
  refine (awardKarma_total "bob" 2 "bonus"
            (Example.world (Example.session playing (Some 0) false) [Example.song1] [] []
               (Some Example.alice))
            (Example.session playing (Some 0) false) 1%nat Example.bob _ _ _ _ _).
  - reflexivity.
  - intros k; reflexivity.
  - intros k d; reflexivity.
  - rows_stored.
  - reflexivity.
Defined.

(** ** Scores *)

(** What [addScore] does with a first score in a quiet world. *)
Lemma addScore_run score w s :
  State.session (store w) = Some s ->
  reliable w -> undisturbed w ->
  (forall x, x ∈ Db.scores (db w) ->
     ~ Db.score_key (ScoreInsert.song_id score) (ScoreInsert.participant_id score) x) ->
  let row := ScoreInsert.row (Db.uuid (Db.next_uuid (db w))) score in
  exists w',
    SessionStore.addScore score w = (Ok tt, w')
    /\ Db.scores (db w') = Db.scores (db w) ++ [row]
    /\ State.scores (store w') = State.scores (store w) ++ [row]
    /\ Db.karma_history (db w')
       = Db.karma_history (db w)
         ++ KarmaHistory.mk (ScoreInsert.participant_id score) (Session.id s) 1
              "Voted on a song"
            :: bonus_entries (Session.id s) (State.songs (store w)) score
    /\ sent w'
       = sent w ++
         match State.realtime (store w), State.currentParticipant (store w) with
         | true, Some p =>
             [score_added (Score.id row) (ScoreInsert.song_id score)
                (ScoreInsert.participant_id score)
                (or_string (Participant.user_name p) "Unknown")
                (ScoreInsert.rating score) (clock w)]
         | _, _ => []
         end
    /\ State.session (store w') = State.session (store w)
    /\ State.songs (store w') = State.songs (store w)
    /\ State.currentParticipant (store w') = State.currentParticipant (store w)
    /\ Db.songs (db w') = Db.songs (db w)
    /\ Db.sessions (db w') = Db.sessions (db w)
    /\ faults w' = faults w /\ others w' = others w.
Proof.
  intros Hs Hr Hu Hnone row. subst row.
  destruct w as [st d sn al ck c fl ot rn dr].
  unfold reliable, undisturbed in *. cbn in Hs, Hr, Hu, Hnone. cbn [store db sent clock faults others].
  unfold SessionStore.addScore. unfold mbind at 1, M_bind at 1, get.
  unfold mbind at 1, M_bind at 1. rewrite request_quiet by assumption.
  cbn [db]. unfold Db.insert_score. rewrite (filter_none _ _ Hnone).
  cbn [fst snd store]. unfold mbind at 1, M_bind at 1, set. cbn [store db sent alerts clock calls faults others randoms draws].
  unfold mbind at 1, M_bind at 1.
  match goal with
  | |- context [SessionStore.awardKarma ?a ?b ?c ?w1] =>
      destruct (awardKarma_run a b c w1 s) as (w2 & Hrun & Hledger & _ & Hs2 & Hsongs2 & Hscores2
        & _ & Hme2 & Hrt2 & Hsess2 & Hdsongs2 & Hdscores2 & _ & _ & Hsent2 & _ & Hck2 & Hf2 & Ho2);
        [exact Hs | exact Hr | exact Hu |]
  end.
  rewrite Hrun. cbn [store db sent clock faults others State.with_scores State.session State.songs
    State.scores State.currentParticipant State.realtime Db.bump_uuid Db.with_scores
    Db.karma_history Db.songs Db.scores Db.sessions] in *.
  cbn [Score.rating Score.song_id Score.participant_id Score.id ScoreInsert.row] in *.
  unfold mbind at 1, M_bind at 1.
  match goal with
  | |- context [(if decide (4 <= _) then ?k else mret tt) w2] =>
      assert (Hbonus : exists w3,
                 (if decide (4 <= ScoreInsert.rating score) then k else mret tt) w2
                 = (Ok tt, w3)
                 /\ Db.karma_history (db w3)
                    = Db.karma_history (db w2)
                      ++ bonus_entries (Session.id s) (State.songs st) score
                 /\ State.session (store w3) = State.session (store w2)
                 /\ State.songs (store w3) = State.songs (store w2)
                 /\ State.scores (store w3) = State.scores (store w2)
                 /\ State.currentParticipant (store w3) = State.currentParticipant (store w2)
                 /\ Db.sessions (db w3) = Db.sessions (db w2)
                 /\ Db.songs (db w3) = Db.songs (db w2)
                 /\ Db.scores (db w3) = Db.scores (db w2)
                 /\ sent w3 = sent w2 /\ clock w3 = clock w2
                 /\ faults w3 = faults w2 /\ others w3 = others w2)
  end.
  { unfold bonus_entries.
    destruct (decide (4 <= ScoreInsert.rating score));
      [| exists w2; rewrite app_nil_r; repeat split].
    destruct (list_find _ (State.songs st)) as [[k song] |];
      [| exists w2; rewrite app_nil_r; repeat split].
    destruct (decide (Song.added_by song = ScoreInsert.participant_id score));
      [exists w2; rewrite app_nil_r; repeat split |].
    match goal with
    | |- context [SessionStore.awardKarma ?a ?b ?c w2] =>
        destruct (awardKarma_run a b c w2 s)
          as (w3 & Hrun3 & Hledger3 & _ & Hs3 & Hsongs3 & Hscores3
              & _ & Hme3 & _ & Hsess3 & Hdsongs3 & Hdscores3 & _ & _ & Hsent3 & _ & Hck3
              & Hf3 & Ho3);
          [rewrite Hs2; exact Hs
          | intros k'; rewrite Hf2; apply Hr
          | intros k' d'; rewrite Ho2; apply Hu |]
    end.
    exists w3. rewrite Hrun3. repeat split; assumption. }
  destruct Hbonus as (w3 & Hrun3 & Hledger3 & Hs3 & Hsongs3 & Hscores3 & Hme3 & Hsess3
                      & Hdsongs3 & Hdscores3 & Hsent3 & Hck3 & Hf3 & Ho3).
  rewrite Hrun3.
  assert (Hall : Db.karma_history (db w3)
                 = Db.karma_history d ++
                   KarmaHistory.mk (ScoreInsert.participant_id score) (Session.id s) 1
                     "Voted on a song"
                   :: bonus_entries (Session.id s) (State.songs st) score).
  { rewrite Hledger3, Hledger, <- app_assoc. reflexivity. }
  destruct (State.realtime st); [destruct (State.currentParticipant st) as [p |] |];
    unfold_M; cbn [store db sent clock faults others];
    (eexists; split; [reflexivity |]; cbn [store db sent clock faults others];
     rewrite ?app_nil_r; repeat split; congruence).
Qed.


Lemma list_find_snoc {A} (P : A -> Prop) `{!forall x, Decision (P x)} (l : list A) x :
  (forall y, y ∈ l -> ~ P y) -> P x ->
  list_find P (l ++ [x]) = Some (length l, x).
Proof.
  intros Hnone Hx.
  rewrite list_find_app_r by (apply list_find_None, Forall_forall, Hnone).
  cbn. rewrite decide_True by exact Hx. reflexivity.
Qed.



(** X18: A score of four or five stars for a song another participant added
    writes two ledger entries: 1 for the voter, then a bonus for the adder,
    3 for five stars and 2 for four. *)
Theorem addScore_high_rating_bonus score w s k song :
  State.session (store w) = Some s ->
  reliable w -> undisturbed w ->
  score_row_ok (db w) score ->
  stored_session (db w) (Session.id s) ->
  stored_participant (db w) (Song.added_by song) ->
  (forall x, x ∈ Db.scores (db w) ->
     ~ Db.score_key (ScoreInsert.song_id score) (ScoreInsert.participant_id score) x) ->
  4 <= ScoreInsert.rating score ->
  list_find (fun x => Song.id x = ScoreInsert.song_id score) (State.songs (store w))
  = Some (k, song) ->
  Song.added_by song <> ScoreInsert.participant_id score ->
  let '(r, w') := SessionStore.addScore score w in
  r = Ok tt
  /\ Db.karma_history (db w')
     = Db.karma_history (db w)
       ++ [KarmaHistory.mk (ScoreInsert.participant_id score) (Session.id s) 1
             "Voted on a song";
           KarmaHistory.mk (Song.added_by song) (Session.id s)
             (if decide (ScoreInsert.rating score = 5) then 3 else 2)
             ("Song " +:+ dquote +:+ Song.title song +:+ dquote +:+ " received "
              +:+ pretty (ScoreInsert.rating score) +:+ " stars")].
Proof.
  intros Hs Hr Hu _ _ _ Hnone Hrating Hfind Hother.
  destruct (addScore_run score w s Hs Hr Hu Hnone) as (w' & Hrun & _ & _ & Hledger & _).
  rewrite Hrun. split; [reflexivity |]. rewrite Hledger.
  unfold bonus_entries. rewrite decide_True by exact Hrating. rewrite Hfind.
  rewrite decide_False by exact Hother. reflexivity.
Qed.

Lemma addScore_high_rating_bonus_witness :
  let s := Example.session playing (Some 0) false in
  let w := Example.world s [Example.song1; Example.song2]
               [Score.mk "score-0" "party" "song-1" "alice" 3] [] (Some Example.bob) in
  let score := ScoreInsert.mk "party" "song-1" "bob" 4 in
  let '(r, w') := SessionStore.addScore score w in
  r = Ok tt
  /\ Db.karma_history (db w')
     = Db.karma_history (db w)
       ++ [KarmaHistory.mk "bob" (Session.id s) 1 "Voted on a song";
           KarmaHistory.mk (Song.added_by Example.song1) (Session.id s)
             (if decide (ScoreInsert.rating score = 5) then 3 else 2)
             ("Song " +:+ dquote +:+ Song.title Example.song1 +:+ dquote +:+ " received "
              +:+ pretty (ScoreInsert.rating score) +:+ " stars")].
Proof.
  cbv zeta.
  refine (addScore_high_rating_bonus (ScoreInsert.mk "party" "song-1" "bob" 4)
            (Example.world (Example.session playing (Some 0) false)
               [Example.song1; Example.song2]
               [Score.mk "score-0" "party" "song-1" "alice" 3] [] (Some Example.bob))
            (Example.session playing (Some 0) false) 0%nat Example.song1
            _ _ _ _ _ _ _ _ _ _).
  - reflexivity.
  - intros k; reflexivity.
  - intros k d; reflexivity.
  - rows_stored.
  - rows_stored.
  - rows_stored.
  - intros x Hx. apply list_elem_of_singleton in Hx. subst x. intros [_ H]. discriminate.
  - cbn. lia.
  - reflexivity.
  - discriminate.
Defined.

(** X19: A score below four stars, a score for a song the client does not hold,
    and a score for one's own song write one ledger entry only: 1 for the
    voter. *)
Theorem addScore_no_bonus score w s :
  State.session (store w) = Some s ->
  reliable w -> undisturbed w ->
  score_row_ok (db w) score ->
  stored_session (db w) (Session.id s) ->
  (forall x, x ∈ Db.scores (db w) ->
     ~ Db.score_key (ScoreInsert.song_id score) (ScoreInsert.participant_id score) x) ->
  ScoreInsert.rating score < 4
  \/ (forall x, x ∈ State.songs (store w) -> Song.id x <> ScoreInsert.song_id score)
  \/ (forall x, x ∈ State.songs (store w) -> Song.id x = ScoreInsert.song_id score ->
        Song.added_by x = ScoreInsert.participant_id score) ->
  let '(r, w') := SessionStore.addScore score w in
  r = Ok tt
  /\ Db.karma_history (db w')
     = Db.karma_history (db w)
       ++ [KarmaHistory.mk (ScoreInsert.participant_id score) (Session.id s) 1
             "Voted on a song"].
Proof.
  intros Hs Hr Hu _ _ Hnone Hcase.
  destruct (addScore_run score w s Hs Hr Hu Hnone) as (w' & Hrun & _ & _ & Hledger & _).
  rewrite Hrun. split; [reflexivity |]. rewrite Hledger.
  replace (bonus_entries (Session.id s) (State.songs (store w)) score) with (@nil KarmaHistory.t);
    [reflexivity |].
  unfold bonus_entries.
  destruct (decide (4 <= ScoreInsert.rating score)) as [Hhigh |]; [| reflexivity].
  destruct (list_find _ (State.songs (store w))) as [[k song] |] eqn:Hfind; [| reflexivity].
  apply list_find_Some in Hfind as (Hk & Hid & _).
  assert (Hin : song ∈ State.songs (store w)) by (apply list_elem_of_lookup; eauto).
  destruct Hcase as [Hlow | [Habsent | Hown]].
  - lia.
  - destruct (Habsent song Hin Hid).
  - rewrite decide_True by (apply Hown; assumption). reflexivity.
Qed.

Lemma addScore_no_bonus_witness :
  let s := Example.session playing (Some 0) false in
  let w := Example.world s [Example.song1; Example.song2]
               [Score.mk "score-0" "party" "song-1" "bob" 3] [] (Some Example.alice) in
  let score := ScoreInsert.mk "party" "song-1" "alice" 5 in
  let '(r, w') := SessionStore.addScore score w in
  r = Ok tt
  /\ Db.karma_history (db w')
     = Db.karma_history (db w)
       ++ [KarmaHistory.mk (ScoreInsert.participant_id score) (Session.id s) 1
             "Voted on a song"].
Proof.
  cbv zeta.
  refine (addScore_no_bonus (ScoreInsert.mk "party" "song-1" "alice" 5)
            (Example.world (Example.session playing (Some 0) false)
               [Example.song1; Example.song2]
               [Score.mk "score-0" "party" "song-1" "bob" 3] [] (Some Example.alice))
            (Example.session playing (Some 0) false) _ _ _ _ _ _ _).
  - reflexivity.
  - intros k; reflexivity.
  - intros k d; reflexivity.
  - rows_stored.
  - rows_stored.
  - intros x Hx. apply list_elem_of_singleton in Hx. subst x. intros [_ H]. discriminate.
  - right; right. intros x Hx Hid.
    apply elem_of_cons in Hx as [-> | Hx]; [reflexivity |].
    apply list_elem_of_singleton in Hx. subst x. discriminate.
Defined.

(** X20: A vote of one to five stars on the current song by a participant
    without a score for it, in the client or in the store: [handleVote]
    answers with the rating and the
    voted flag; the effect that recomputes the flag from the local scores
    then finds the new score and gives the same component state; and a
    second [handleVote] changes nothing. *)
Theorem handleVote_then_voted v rating w s index song p :
  State.session (store w) = Some s ->
  Session.current_song_index s = Some index ->
  js_index (State.songs (store w)) index = Some song ->
  State.currentParticipant (store w) = Some p ->
  SessionPage.hasVoted v = false ->
  score_row_ok (db w)
    (ScoreInsert.mk (Session.id s) (Song.id song) (Participant.id p) rating) ->
  (forall x, x ∈ State.scores (store w) ->
     ~ Db.score_key (Song.id song) (Participant.id p) x) ->
  (forall x, x ∈ Db.scores (db w) ->
     ~ Db.score_key (Song.id song) (Participant.id p) x) ->
  reliable w -> undisturbed w ->
  let '(r, w') := SessionPage.handleVote v rating w in
  let voted := SessionPage.mkVoting rating true in
  r = Ok voted
  /\ (forall v0, SessionPage.votedEffect (store w') v0 = voted)
  /\ (forall rating', SessionPage.handleVote voted rating' w' = (Ok voted, w')).
Proof.
  intros Hs Hidx Hsong Hp Hv _ Hlocal Hstored Hr Hu.
  unfold SessionPage.handleVote. unfold mbind at 1, M_bind at 1, get.
  rewrite Hs, Hp, Hidx, Hv, Hsong. unfold mbind, M_bind.
  destruct (addScore_run
              (ScoreInsert.mk (Session.id s) (Song.id song) (Participant.id p) rating)
              w s Hs Hr Hu Hstored)
    as (w' & Hrun & _ & Hscores & _ & _ & Hs' & Hsongs' & Hp' & _).
  rewrite Hrun. unfold mret, M_ret. cbv zeta. split; [reflexivity |]. split.
  - intros v0. unfold SessionPage.votedEffect.
    rewrite Hs', Hs, Hp', Hp, Hidx, Hsongs', Hsong, Hscores.
    assert (Hlen : (0 < length (State.songs (store w)))%nat).
    { unfold js_index in Hsong. destruct (decide (0 <= index)); [| discriminate].
      apply lookup_lt_Some in Hsong. lia. }
    rewrite decide_True by exact Hlen.
    rewrite (list_find_snoc _ _ _ Hlocal) by (split; reflexivity).
    reflexivity.
  - intros rating'. unfold SessionPage.handleVote, mbind, M_bind, get.
    rewrite Hs', Hs, Hp', Hp, Hidx. reflexivity.
Qed.

Lemma handleVote_then_voted_witness :
  let w := Example.world (Example.session playing (Some 0) false)
             [Example.song1; Example.song2]
               [Score.mk "score-0" "party" "song-1" "alice" 3] [] (Some Example.bob) in
  let '(r, w') := SessionPage.handleVote (SessionPage.mkVoting 0 false) 4 w in
  let voted := SessionPage.mkVoting 4 true in
  r = Ok voted
  /\ (forall v0, SessionPage.votedEffect (store w') v0 = voted)
  /\ (forall rating', SessionPage.handleVote voted rating' w' = (Ok voted, w')).
Proof.
  cbv zeta.
  refine (handleVote_then_voted (SessionPage.mkVoting 0 false) 4
            (Example.world (Example.session playing (Some 0) false)
               [Example.song1; Example.song2]
               [Score.mk "score-0" "party" "song-1" "alice" 3] [] (Some Example.bob))
            (Example.session playing (Some 0) false) 0 Example.song1 Example.bob
            _ _ _ _ _ _ _ _ _ _).
  - reflexivity.
  - reflexivity.
  - reflexivity.
  - reflexivity.
  - reflexivity.
  - rows_stored.
  - intros x Hx. apply list_elem_of_singleton in Hx. subst x. intros [_ H]. discriminate.
  - intros x Hx. apply list_elem_of_singleton in Hx. subst x. intros [_ H]. discriminate.
  - intros k; reflexivity.
  - intros k d; reflexivity.
Defined.

(** ** Listeners *)

(** X22: The [score_added] listener keeps one local score for each pair of song
    and participant: once it has run for an event, every later event for the
    same song and participant, whatever its id and rating, changes
    nothing. *)
Theorem onScoreAdded_once sessionId data data' w :
  ScoreAdded.song_id data' = ScoreAdded.song_id data ->
  ScoreAdded.participant_id data' = ScoreAdded.participant_id data ->
  let w1 := (SessionStore.onScoreAdded sessionId data w).2 in
  SessionStore.onScoreAdded sessionId data' w1 = (Ok tt, w1).
Proof.
  intros Hsong Hp. cbv zeta.
  assert (Hheld : is_Some (list_find
            (fun s => Score.song_id s = ScoreAdded.song_id data'
                      /\ Score.participant_id s = ScoreAdded.participant_id data')
            (State.scores (store (SessionStore.onScoreAdded sessionId data w).2)))).
  { unfold SessionStore.onScoreAdded at 1. unfold mbind, M_bind, get, mret, M_ret, set.
    rewrite Hsong, Hp.
    destruct (list_find _ (State.scores (store w))) as [[k x] |] eqn:Hfind.
    - cbn [snd]. rewrite Hfind. eauto.
    - cbn [snd store State.with_scores State.scores].
      eapply list_find_elem_of.
      + apply elem_of_app. right. apply list_elem_of_singleton. reflexivity.
      + split; reflexivity. }
  destruct Hheld as [[k x] Hheld].
  unfold SessionStore.onScoreAdded at 1. unfold mbind, M_bind, get, mret, M_ret.
  rewrite Hheld. reflexivity.
Qed.

Lemma onScoreAdded_once_witness :
  let w := Example.world (Example.session playing (Some 0) false)
             [Example.song1] [] [] (Some Example.alice) in
  let data := ScoreAdded.mk "score-1" "song-1" "bob" "Bob" 4 7000 in
  let data' := ScoreAdded.mk "score-2" "song-1" "bob" "Bob" 2 8000 in
  let w1 := (SessionStore.onScoreAdded "party" data w).2 in
  SessionStore.onScoreAdded "party" data' w1 = (Ok tt, w1).
Proof.
  cbv zeta.
  refine (onScoreAdded_once "party" (ScoreAdded.mk "score-1" "song-1" "bob" "Bob" 4 7000)
            (ScoreAdded.mk "score-2" "song-1" "bob" "Bob" 2 8000)
            (Example.world (Example.session playing (Some 0) false)
               [Example.song1] [] [] (Some Example.alice)) _ _).
  - reflexivity.
  - reflexivity.
Defined.

(** X21: The voter's own score comes back twice, as the [score_added] event and
    as the change-feed notification of the insert: after a successful
    [addScore] both listeners leave the world as it is, so the optimistic
    local score is not doubled. *)
Theorem addScore_echo_ignored score w s :
  State.session (store w) = Some s ->
  reliable w -> undisturbed w ->
  score_row_ok (db w) score ->
  (forall x, x ∈ Db.scores (db w) ->
     ~ Db.score_key (ScoreInsert.song_id score) (ScoreInsert.participant_id score) x) ->
  let '(r, w') := SessionStore.addScore score w in
  let row := ScoreInsert.row (Db.uuid (Db.next_uuid (db w))) score in
  r = Ok tt
  /\ SessionStore.onScoresChange (Change.mk INSERT (Some row)) w' = (Ok tt, w')
  /\ (forall sessionId name stamp,
        SessionStore.onScoreAdded sessionId
          (ScoreAdded.mk (Score.id row) (Score.song_id row) (Score.participant_id row)
             name (Score.rating row) stamp) w'
        = (Ok tt, w')).
Proof.
  intros Hs Hr Hu _ Hnone.
  destruct (addScore_run score w s Hs Hr Hu Hnone) as (w' & Hrun & _ & Hlocal & _).
  rewrite Hrun. cbv zeta. split; [reflexivity |].
  set (row := ScoreInsert.row (Db.uuid (Db.next_uuid (db w))) score) in *.
  assert (Hin : row ∈ State.scores (store w')).
  { rewrite Hlocal. apply elem_of_app. right. apply list_elem_of_singleton. reflexivity. }
  split.
  - unfold SessionStore.onScoresChange, mbind, M_bind, get, mret, M_ret.
    cbn [Change.eventType Change.new].
    destruct (list_find_elem_of (fun x => Score.id x = Score.id row) _ row Hin eq_refl)
      as [[k x] Hfind].
    rewrite Hfind. reflexivity.
  - intros sessionId name stamp.
    unfold SessionStore.onScoreAdded, mbind, M_bind, get, mret, M_ret.
    cbn [ScoreAdded.song_id ScoreAdded.participant_id].
    destruct (list_find_elem_of
                (fun x => Score.song_id x = Score.song_id row
                          /\ Score.participant_id x = Score.participant_id row)
                _ row Hin (conj eq_refl eq_refl))
      as [[k x] Hfind].
    rewrite Hfind. reflexivity.
Qed.

Lemma addScore_echo_ignored_witness :
  let w := Example.world (Example.session playing (Some 0) false)
             [Example.song1; Example.song2]
               [Score.mk "score-0" "party" "song-1" "alice" 3] [] (Some Example.bob) in
  let score := ScoreInsert.mk "party" "song-1" "bob" 5 in
  let '(r, w') := SessionStore.addScore score w in
  let row := ScoreInsert.row (Db.uuid (Db.next_uuid (db w))) score in
  r = Ok tt
  /\ SessionStore.onScoresChange (Change.mk INSERT (Some row)) w' = (Ok tt, w')
  /\ (forall sessionId name stamp,
        SessionStore.onScoreAdded sessionId
          (ScoreAdded.mk (Score.id row) (Score.song_id row) (Score.participant_id row)
             name (Score.rating row) stamp) w'
        = (Ok tt, w')).
Proof.
  cbv zeta.
  refine (addScore_echo_ignored (ScoreInsert.mk "party" "song-1" "bob" 5)
            (Example.world (Example.session playing (Some 0) false)
               [Example.song1; Example.song2]
               [Score.mk "score-0" "party" "song-1" "alice" 3] [] (Some Example.bob))
            (Example.session playing (Some 0) false) _ _ _ _ _).
  - reflexivity.
  - intros k; reflexivity.
  - intros k d; reflexivity.
  - rows_stored.
  - intros x Hx. apply list_elem_of_singleton in Hx. subst x. intros [_ H]. discriminate.
Defined.

(** X23: Another client learns of a score twice, by the [score_added] event and
    by the change feed.  When it holds no score with the row's id or with
    its song and participant, the two listeners in either order append
    exactly one score to the local ones, and it carries the row's id,
    session, song, participant and rating.  (Which of the two notifications
    comes first decides the [created_at] of the appended object, the
    event's timestamp or the stored one; the model has no such column.) *)
Theorem score_listeners_once row name stamp w :
  (forall x, x ∈ State.scores (store w) -> Score.id x <> Score.id row) ->
  (forall x, x ∈ State.scores (store w) ->
     ~ Db.score_key (Score.song_id row) (Score.participant_id row) x) ->
  let data := ScoreAdded.mk (Score.id row) (Score.song_id row) (Score.participant_id row)
                name (Score.rating row) stamp in
  let change := Change.mk INSERT (Some row) in
  let appended_once (run : Result unit * World) :=
    run.1 = Ok tt
    /\ exists x,
         State.scores (store run.2) = State.scores (store w) ++ [x]
         /\ Score.id x = Score.id row
         /\ Score.session_id x = Score.session_id row
         /\ Score.song_id x = Score.song_id row
         /\ Score.participant_id x = Score.participant_id row
         /\ Score.rating x = Score.rating row in
  appended_once
    ((SessionStore.onScoreAdded (Score.session_id row) data ;;
      SessionStore.onScoresChange change) w)
  /\ appended_once
       ((SessionStore.onScoresChange change ;;
         SessionStore.onScoreAdded (Score.session_id row) data) w).
Proof.
  intros Hid Hkey. cbv zeta.
  assert (Hfind_id : list_find (fun x => Score.id x = Score.id row) (State.scores (store w))
                     = None).
  { apply list_find_None, Forall_forall. exact Hid. }
  assert (Hfind_key : list_find (fun x => Score.song_id x = Score.song_id row
                                          /\ Score.participant_id x = Score.participant_id row)
                        (State.scores (store w)) = None).
  { apply list_find_None, Forall_forall. exact Hkey. }
  split.
  - unfold SessionStore.onScoreAdded, SessionStore.onScoresChange.
    unfold mbind, M_bind, get, mret, M_ret, set.
    cbn [ScoreAdded.song_id ScoreAdded.participant_id ScoreAdded.score_id ScoreAdded.rating
         Change.eventType Change.new store State.with_scores State.scores snd].
    rewrite Hfind_key.
    cbn [store State.with_scores State.scores].
    rewrite (list_find_snoc (fun x => Score.id x = Score.id row) _
               (Score.mk (Score.id row) (Score.session_id row) (Score.song_id row)
                  (Score.participant_id row) (Score.rating row)) Hid eq_refl).
    cbn [fst snd store State.with_scores State.scores]. split; [reflexivity |].
    eexists. split; [reflexivity |]. repeat split.
  - unfold SessionStore.onScoreAdded, SessionStore.onScoresChange.
    unfold mbind, M_bind, get, mret, M_ret, set.
    cbn [ScoreAdded.song_id ScoreAdded.participant_id ScoreAdded.score_id ScoreAdded.rating
         Change.eventType Change.new store State.with_scores State.scores snd].
    rewrite Hfind_id.
    cbn [store State.with_scores State.scores].
    rewrite (list_find_snoc
               (fun x => Score.song_id x = Score.song_id row
                         /\ Score.participant_id x = Score.participant_id row)
               _ _ Hkey (conj eq_refl eq_refl)).
    cbn [fst snd store State.with_scores State.scores]. split; [reflexivity |].
    eexists. split; [reflexivity |]. repeat split.
Qed.

Lemma score_listeners_once_witness :
  let row := Score.mk "score-1" "party" "song-1" "bob" 4 in
  let w := Example.world (Example.session playing (Some 0) false)
             [Example.song1] [Score.mk "score-0" "party" "song-1" "alice" 3] []
             (Some Example.alice) in
  let data := ScoreAdded.mk (Score.id row) (Score.song_id row) (Score.participant_id row)
                "Bob" (Score.rating row) 7000 in
  let change := Change.mk INSERT (Some row) in
  let appended_once (run : Result unit * World) :=
    run.1 = Ok tt
    /\ exists x,
         State.scores (store run.2) = State.scores (store w) ++ [x]
         /\ Score.id x = Score.id row
         /\ Score.session_id x = Score.session_id row
         /\ Score.song_id x = Score.song_id row
         /\ Score.participant_id x = Score.participant_id row
         /\ Score.rating x = Score.rating row in
  appended_once
    ((SessionStore.onScoreAdded (Score.session_id row) data ;;
      SessionStore.onScoresChange change) w)
  /\ appended_once
       ((SessionStore.onScoresChange change ;;
         SessionStore.onScoreAdded (Score.session_id row) data) w).
Proof.
  cbv zeta.
  refine (score_listeners_once (Score.mk "score-1" "party" "song-1" "bob" 4) "Bob" 7000
            (Example.world (Example.session playing (Some 0) false)
               [Example.song1] [Score.mk "score-0" "party" "song-1" "alice" 3] []
               (Some Example.alice)) _ _).
  - intros x Hx. apply list_elem_of_singleton in Hx. subst x. discriminate.
  - intros x Hx. apply list_elem_of_singleton in Hx. subst x. intros [_ H]. discriminate.
Defined.

(** X24: The listeners for [session_started] and [session_ended] ask the store
    for the session row only when the local status differs from the one the
    event announces.  With the row stored and the request answered, the
    local session is then the stored row; otherwise nothing changes, also
    when the stored row differs from the local one in other fields. *)
Theorem onSessionStatus_syncs target sessionId row w :
  reliable w -> undisturbed w ->
  Session.id row = sessionId ->
  session_stored (db w) row ->
  let '(r, w') := SessionStore.onSessionStatus target sessionId w in
  r = Ok tt
  /\ db w' = db w
  /\ if decide (Session.status <$> State.session (store w) = Some target)
     then w' = w
     else store w' = State.with_session (Some row) (store w).
Proof.
  intros Hr Hu Hid Hrow.
  destruct w as [st d sn al ck c fl ot rn dr].
  unfold reliable, undisturbed, session_stored in *. cbn in Hr, Hu, Hrow.
  unfold SessionStore.onSessionStatus; unfold_M. cbn [store].
  destruct (decide (Session.status <$> State.session st = Some target)).
  - repeat split.
  - rewrite request_quiet by assumption. cbn [db fst snd store].
    unfold Db.select_session. rewrite <- Hid, Hrow. cbn. repeat split.
Qed.

Lemma onSessionStatus_syncs_witness :
  let row := Example.session playing (Some 0) false in
  let w := mkWorld
             (State.mk (Some (Example.session waiting None false)) [Example.alice]
                [Example.song1] [] [] (Some Example.bob) true)
             (Db.mk [row] [Example.alice] [Example.song1] [] [] [] 0)
             [] [] 5000 0 (fun _ => false) (fun _ d => d) (fun k => k) 0 in
  let '(r, w') := SessionStore.onSessionStatus playing "party" w in
  r = Ok tt
  /\ db w' = db w
  /\ if decide (Session.status <$> State.session (store w) = Some playing)
     then w' = w
     else store w' = State.with_session (Some row) (store w).
Proof.
  cbv zeta.
  refine (onSessionStatus_syncs playing "party" (Example.session playing (Some 0) false)
            (mkWorld
               (State.mk (Some (Example.session waiting None false)) [Example.alice]
                  [Example.song1] [] [] (Some Example.bob) true)
               (Db.mk [Example.session playing (Some 0) false] [Example.alice]
                  [Example.song1] [] [] [] 0)
               [] [] 5000 0 (fun _ => false) (fun _ d => d) (fun k => k) 0)
            _ _ _ _).
  - intros k; reflexivity.
  - intros k d; reflexivity.
  - reflexivity.
  - reflexivity.
Defined.

(** X25: No listener that reloads from the store rejects, and when its request
    is lost the local state stays as it was: this holds for the listeners of
    [song_added], [session_started], [session_ended], of the skip-vote
    events and of the change feeds of songs, participants and skip votes. *)
Theorem reload_listeners_lost_request sessionId songId w :
  faults w (calls w) = true ->
  Forall (fun listener : M unit =>
            let '(r, w') := listener w in r = Ok tt /\ store w' = store w)
    [SessionStore.onSongAdded sessionId songId;
     SessionStore.onSessionStarted sessionId;
     SessionStore.onSessionEnded sessionId;
     SessionStore.reloadSkipVotes sessionId;
     SessionStore.onSongsChange sessionId;
     SessionStore.onParticipantsChange sessionId].
Proof.
  intros Hlost.
  assert (Hreq : forall A (op : Db.op A), exists w1,
             request op w = (Ok (RespError transport_failure), w1) /\ store w1 = store w).
  { intros A op. unfold request. rewrite Hlost. eexists. split; reflexivity. }
  repeat apply Forall_cons_2; [.. | apply Forall_nil_2].
  - unfold SessionStore.onSongAdded, mbind, M_bind, get, mret, M_ret.
    destruct (existsb _ _); [split; reflexivity |].
    destruct (Hreq _ (Db.select_songs sessionId)) as (w1 & -> & Hst). split; [reflexivity | exact Hst].
  - unfold SessionStore.onSessionStarted, SessionStore.onSessionStatus, mbind, M_bind, get, mret, M_ret.
    destruct (decide _); [split; reflexivity |].
    destruct (Hreq _ (Db.select_session sessionId)) as (w1 & -> & Hst). split; [reflexivity | exact Hst].
  - unfold SessionStore.onSessionEnded, SessionStore.onSessionStatus, mbind, M_bind, get, mret, M_ret.
    destruct (decide _); [split; reflexivity |].
    destruct (Hreq _ (Db.select_session sessionId)) as (w1 & -> & Hst). split; [reflexivity | exact Hst].
  - unfold SessionStore.reloadSkipVotes, mbind, M_bind, mret, M_ret.
    destruct (Hreq _ (Db.select_skip_votes sessionId)) as (w1 & -> & Hst). split; [reflexivity | exact Hst].
  - unfold SessionStore.onSongsChange, mbind, M_bind, mret, M_ret.
    destruct (Hreq _ (Db.select_songs sessionId)) as (w1 & -> & Hst). split; [reflexivity | exact Hst].
  - unfold SessionStore.onParticipantsChange, mbind, M_bind, mret, M_ret.
    destruct (Hreq _ (Db.select_participants sessionId)) as (w1 & -> & Hst). split; [reflexivity | exact Hst].
Qed.

Lemma reload_listeners_lost_request_witness :
  let w := mkWorld
             (State.mk (Some (Example.session waiting None false)) [Example.alice]
                [Example.song1] [] [] (Some Example.bob) true)
             (Db.mk [Example.session playing (Some 0) false] [Example.alice; Example.bob]
                [Example.song1; Example.song2] [] [Example.vote Example.bob Example.song1] [] 0)
             [] [] 5000 0 (fun _ => true) (fun _ d => d) (fun k => k) 0 in
  Forall (fun listener : M unit =>
            let '(r, w') := listener w in r = Ok tt /\ store w' = store w)
    [SessionStore.onSongAdded "party" "song-2";
     SessionStore.onSessionStarted "party";
     SessionStore.onSessionEnded "party";
     SessionStore.reloadSkipVotes "party";
     SessionStore.onSongsChange "party";
     SessionStore.onParticipantsChange "party"].
Proof.
  cbv zeta.
  refine (reload_listeners_lost_request "party" "song-2"
            (mkWorld
               (State.mk (Some (Example.session waiting None false)) [Example.alice]
                  [Example.song1] [] [] (Some Example.bob) true)
               (Db.mk [Example.session playing (Some 0) false] [Example.alice; Example.bob]
                  [Example.song1; Example.song2] [] [Example.vote Example.bob Example.song1]
                  [] 0)
               [] [] 5000 0 (fun _ => true) (fun _ d => d) (fun k => k) 0) _).
  reflexivity.
Defined.

(** X26: In a quiet world the reloading listeners make the local lists mirror
    the store: the skip votes of the session, its participants in the order
    of joining and its queue in the order of the positions.  The
    [song_added] listener does so only for a song the client does not hold
    yet. *)
Theorem reload_listeners_mirror sessionId songId w :
  reliable w -> undisturbed w ->
  State.skipVotes (store (SessionStore.reloadSkipVotes sessionId w).2)
  = filter (fun v => SkipVote.session_id v = sessionId) (Db.skip_votes (db w))
  /\ (let participants :=
        State.participants (store (SessionStore.onParticipantsChange sessionId w).2) in
      Sorted Db.joined_before participants
      /\ participants
         ≡ₚ filter (fun p => Participant.session_id p = sessionId) (Db.participants (db w)))
  /\ (let songs := State.songs (store (SessionStore.onSongsChange sessionId w).2) in
      Sorted Db.positioned_before songs
      /\ songs ≡ₚ filter (fun q => Song.session_id q = sessionId) (Db.songs (db w)))
  /\ (let songs := State.songs (store (SessionStore.onSongAdded sessionId songId w).2) in
      if existsb (fun s => bool_decide (Song.id s = songId)) (State.songs (store w))
      then songs = State.songs (store w)
      else Sorted Db.positioned_before songs
           /\ songs ≡ₚ filter (fun q => Song.session_id q = sessionId) (Db.songs (db w))).
Proof.
  intros Hr Hu. cbv zeta.
  unfold SessionStore.reloadSkipVotes, SessionStore.onParticipantsChange,
    SessionStore.onSongsChange, SessionStore.onSongAdded.
  unfold mbind, M_bind, get, mret, M_ret, set.
  rewrite !request_quiet by assumption.
  cbn [Db.select_skip_votes Db.select_participants Db.select_songs fst snd store
       State.with_skipVotes State.with_participants State.with_songs
       State.skipVotes State.participants State.songs].
  split; [reflexivity |]. split; [| split].
  - split; [apply Sorted_merge_sort; apply _ | apply merge_sort_Permutation].
  - split; [apply Sorted_merge_sort; apply _ | apply merge_sort_Permutation].
  - destruct (existsb _ _); [reflexivity |].
    rewrite request_quiet by assumption.
    cbn [Db.select_songs fst snd store State.with_songs State.songs].
    split; [apply Sorted_merge_sort; apply _ | apply merge_sort_Permutation].
Qed.

Lemma reload_listeners_mirror_witness :
  let w := mkWorld
             (State.mk (Some (Example.session waiting None false)) [Example.alice]
                [Example.song1] [] [] (Some Example.bob) true)
             (Db.mk [Example.session playing (Some 0) false] [Example.bob; Example.alice]
                [Example.song2; Example.song1] [] [Example.vote Example.bob Example.song1] [] 0)
             [] [] 5000 0 (fun _ => false) (fun _ d => d) (fun k => k) 0 in
  State.skipVotes (store (SessionStore.reloadSkipVotes "party" w).2)
  = filter (fun v => SkipVote.session_id v = "party") (Db.skip_votes (db w))
  /\ (let participants :=
        State.participants (store (SessionStore.onParticipantsChange "party" w).2) in
      Sorted Db.joined_before participants
      /\ participants
         ≡ₚ filter (fun p => Participant.session_id p = "party") (Db.participants (db w)))
  /\ (let songs := State.songs (store (SessionStore.onSongsChange "party" w).2) in
      Sorted Db.positioned_before songs
      /\ songs ≡ₚ filter (fun q => Song.session_id q = "party") (Db.songs (db w)))
  /\ (let songs := State.songs (store (SessionStore.onSongAdded "party" "song-2" w).2) in
      if existsb (fun s => bool_decide (Song.id s = "song-2")) (State.songs (store w))
      then songs = State.songs (store w)
      else Sorted Db.positioned_before songs
           /\ songs ≡ₚ filter (fun q => Song.session_id q = "party") (Db.songs (db w))).
Proof.
  cbv zeta.
  refine (reload_listeners_mirror "party" "song-2"
            (mkWorld
               (State.mk (Some (Example.session waiting None false)) [Example.alice]
                  [Example.song1] [] [] (Some Example.bob) true)
               (Db.mk [Example.session playing (Some 0) false] [Example.bob; Example.alice]
                  [Example.song2; Example.song1] [] [Example.vote Example.bob Example.song1]
                  [] 0)
               [] [] 5000 0 (fun _ => false) (fun _ d => d) (fun k => k) 0) _ _).
  - intros k; reflexivity.
  - intros k d; reflexivity.
Defined.

(** ** Removing a song *)

(** X27: [removeSong] deletes the stored song and, with it, its scores and skip
    votes; the other songs keep their rows and positions and the session
    row its index.  The local queue is reloaded and no longer holds the
    song; the local scores and skip votes are left as they were. *)
Theorem removeSong_removes songId w s :
  State.session (store w) = Some s ->
  reliable w -> undisturbed w ->
  let '(r, w') := SessionStore.removeSong songId w in
  r = Ok tt
  /\ Db.songs (db w') = filter (fun q => Song.id q <> songId) (Db.songs (db w))
  /\ Db.scores (db w') = filter (fun x => Score.song_id x <> songId) (Db.scores (db w))
  /\ Db.skip_votes (db w')
     = filter (fun v => SkipVote.song_id v <> songId) (Db.skip_votes (db w))
  /\ Db.sessions (db w') = Db.sessions (db w)
  /\ Sorted Db.positioned_before (State.songs (store w'))
  /\ State.songs (store w')
     ≡ₚ filter (fun q => Song.session_id q = Session.id s) (Db.songs (db w'))
  /\ (forall q, q ∈ State.songs (store w') -> Song.id q <> songId)
  /\ State.session (store w') = State.session (store w)
  /\ State.scores (store w') = State.scores (store w)
  /\ State.skipVotes (store w') = State.skipVotes (store w).
Proof.
  intros Hs Hr Hu.
  destruct w as [st d sn al ck c fl ot rn dr].
  unfold reliable, undisturbed in *. cbn in Hs, Hr, Hu.
  unfold SessionStore.removeSong; unfold_M.
  rewrite request_quiet by assumption. cbn [Db.delete_song fst snd store db].
  rewrite Hs.
  rewrite request_quiet by assumption.
  cbn [Db.select_songs fst snd store db State.with_songs State.songs State.session
       State.scores State.skipVotes Db.songs Db.scores Db.skip_votes Db.sessions
       Db.with_songs Db.with_scores Db.with_skip_votes].
  split; [reflexivity |]. split; [reflexivity |]. split; [reflexivity |].
  split; [reflexivity |]. split; [reflexivity |].
  split; [apply Sorted_merge_sort; apply _ |].
  split; [apply merge_sort_Permutation |].
  split; [| repeat split; congruence].
  intros q Hq. rewrite merge_sort_Permutation in Hq.
  apply list_elem_of_filter in Hq as [_ Hq].
  apply list_elem_of_filter in Hq as [Hq _]. exact Hq.
Qed.

Lemma removeSong_removes_witness :
  let s := Example.session waiting None false in
  let w := Example.world s [Example.song1; Example.song2; Example.song3]
             [Score.mk "score-0" "party" "song-2" "alice" 3]
             [Example.vote Example.alice Example.song2] (Some Example.alice) in
  let '(r, w') := SessionStore.removeSong "song-2" w in
  r = Ok tt
  /\ Db.songs (db w') = filter (fun q => Song.id q <> "song-2") (Db.songs (db w))
  /\ Db.scores (db w') = filter (fun x => Score.song_id x <> "song-2") (Db.scores (db w))
  /\ Db.skip_votes (db w')
     = filter (fun v => SkipVote.song_id v <> "song-2") (Db.skip_votes (db w))
  /\ Db.sessions (db w') = Db.sessions (db w)
  /\ Sorted Db.positioned_before (State.songs (store w'))
  /\ State.songs (store w')
     ≡ₚ filter (fun q => Song.session_id q = Session.id s) (Db.songs (db w'))
  /\ (forall q, q ∈ State.songs (store w') -> Song.id q <> "song-2")
  /\ State.session (store w') = State.session (store w)
  /\ State.scores (store w') = State.scores (store w)
  /\ State.skipVotes (store w') = State.skipVotes (store w).
Proof.
  cbv zeta.
  refine (removeSong_removes "song-2"
            (Example.world (Example.session waiting None false)
               [Example.song1; Example.song2; Example.song3]
               [Score.mk "score-0" "party" "song-2" "alice" 3]
               [Example.vote Example.alice Example.song2] (Some Example.alice))
            (Example.session waiting None false) _ _ _).
  - reflexivity.
  - intros k; reflexivity.
  - intros k d; reflexivity.
Defined.

(** ** The skip button and the sync tick *)

(** X6: The skip button follows the ticks of the one-second interval, not
    the clock.  It starts unavailable.  After a run of the effect and any
    number of ticks, the last of them at [now], it is available exactly
    when the session is playing, the current song has a start timestamp and
    at least 30 000 ms lie between it and [now].  Before the first tick
    after a run of the effect it is unavailable if the session is not
    playing or has no start timestamp, and otherwise shows what it showed
    before: a change of song while playing does not reset it. *)
Theorem skip_available_after_tick session h ticks now :
  let available (h : UseSkipVoting.Elapsed) :=
    PlayingView.canSkip (UseSkipVoting.elapsedTime h) SKIP_AVAILABLE_AFTER_SECONDS in
  let started :=
    exists s startTime,
      session = Some s
      /\ Session.status s = playing
      /\ Session.current_song_started_at s = Some startTime in
  let h0 := UseSkipVoting.elapsedEffect session h in
  let h1 := foldl (fun h t => UseSkipVoting.elapsedTick t h) h0 (ticks ++ [now]) in
  available UseSkipVoting.initialElapsed = false
  /\ (available h1 = true
      <-> exists s startTime,
            session = Some s
            /\ Session.status s = playing
            /\ Session.current_song_started_at s = Some startTime
            /\ startTime + 30000 <= now)
  /\ (started -> available h0 = available h)
  /\ (~ started -> available h0 = false).
Proof.
  cbv zeta.
  assert (Hticks : forall ts h', UseSkipVoting.interval
                      (foldl (fun h t => UseSkipVoting.elapsedTick t h) h' ts)
                    = UseSkipVoting.interval h').
  { induction ts as [| t ts IH]; intros h'; [reflexivity |].
    cbn [foldl]. rewrite IH. unfold UseSkipVoting.elapsedTick.
    destruct (UseSkipVoting.interval h') eqn:Hi; [reflexivity | exact Hi]. }
  assert (Hidle : forall ts x,
            foldl (fun h t => UseSkipVoting.elapsedTick t h) (UseSkipVoting.mkElapsed x None) ts
            = UseSkipVoting.mkElapsed x None).
  { induction ts as [| t ts IH]; intros x; [reflexivity | exact (IH x)]. }
  split; [reflexivity |].
  rewrite foldl_app. cbn [foldl].
  unfold PlayingView.canSkip, SKIP_AVAILABLE_AFTER_SECONDS.
  unfold UseSkipVoting.elapsedEffect.
  destruct session as [s |].
  2:{ rewrite Hidle. cbn. split; [| split].
      - rewrite bool_decide_eq_true.
        split; [lia | intros (s & t & H & _); discriminate].
      - intros (s & t & H & _); discriminate.
      - reflexivity. }
  destruct (Session.current_song_started_at s) as [startTime |] eqn:Hstart.
  2:{ rewrite Hidle. cbn. split; [| split].
      - rewrite bool_decide_eq_true.
        split; [lia | intros (s' & t & H & _ & H' & _); congruence].
      - intros (s' & t & H & _ & H'). congruence.
      - reflexivity. }
  destruct (decide (Session.status s = playing)) as [Hplaying | Hother].
  2:{ rewrite Hidle. cbn. split; [| split].
      - rewrite bool_decide_eq_true.
        split; [lia | intros (s' & t & H & H' & _); congruence].
      - intros (s' & t & H & H' & _). congruence.
      - reflexivity. }
  pose proof (Hticks ticks
                (UseSkipVoting.mkElapsed (UseSkipVoting.elapsedTime h) (Some startTime)))
    as Hi.
  destruct (foldl _ _ ticks) as [e i]. cbn in Hi. subst i.
  unfold UseSkipVoting.elapsedTick.
  cbn [UseSkipVoting.interval UseSkipVoting.elapsedTime].
  split; [| split].
  - rewrite bool_decide_eq_true, elapsedSeconds_div.
    assert (Hq := Z.div_mod (now - startTime) 1000 ltac:(lia)).
    assert (Hm := Z.mod_pos_bound (now - startTime) 1000 ltac:(lia)).
    split.
    + intros Hle. exists s, startTime. repeat split; try assumption. lia.
    + intros (s' & t & H & _ & H' & Hle).
      assert (s' = s) by congruence. subst s'.
      assert (t = startTime) by congruence. subst t. lia.
  - reflexivity.
  - intros Hnot. exfalso. apply Hnot. exists s, startTime. repeat split; assumption.
Qed.

(** X7: The host's effect advances exactly when the host's session is playing,
    no advance is under way, the current song has a skip vote, and the votes
    for the current song are at least half the participants; votes for
    other songs do not count. *)
Theorem autoSkip_iff isHost song s isCheckingThreshold skipVotes participants :
  SkipVoting.autoSkip isHost (Some song) (Some s) isCheckingThreshold skipVotes participants
  = true
  <-> isHost = true
      /\ Session.status s = playing
      /\ isCheckingThreshold = false
      /\ let votes := filter (fun v => SkipVote.song_id v = Song.id song) skipVotes in
         (length participants <= 2 * length votes)%nat /\ (0 < length votes)%nat.
Proof.
  unfold SkipVoting.autoSkip, SkipVoting.quorumReached, SkipVoting.songSkipVotes. cbv zeta.
  rewrite skipThreshold_half.
  set (votes := filter _ skipVotes).
  assert (Hq := Z.div_mod (Z.of_nat (length participants) + 1) 2 ltac:(lia)).
  assert (Hm := Z.mod_pos_bound (Z.of_nat (length participants) + 1) 2 ltac:(lia)).
  destruct isHost; cbn [negb orb]; [| split; [discriminate | intros [H _]; discriminate]].
  destruct (bool_decide (Session.status s = playing)) eqn:Hplaying; cbn [negb orb].
  2:{ apply bool_decide_eq_false in Hplaying.
      split; [discriminate | intros (_ & H & _); contradiction]. }
  apply bool_decide_eq_true in Hplaying.
  destruct isCheckingThreshold; cbn [negb orb];
    [split; [discriminate | intros (_ & _ & H & _); discriminate] |].
  rewrite andb_true_iff, !bool_decide_eq_true.
  split.
  - intros [H1 H2]. repeat split; try assumption; lia.
  - intros (_ & _ & _ & H1 & H2). split; lia.
Qed.

(** X5: The skip button shows a cast vote exactly when [handleSkipVote] would
    take it back: the view's test on the votes of the current song is the
    hook's test on all votes, so a press retracts when the button shows a
    vote and casts one when it does not. *)
Theorem handleSkipVote_follows_button song w s p :
  State.session (store w) = Some s ->
  State.currentParticipant (store w) = Some p ->
  UseSkipVoting.handleSkipVote (Some song) w
  = if PlayingView.hasSkipVoted (State.skipVotes (store w)) song (Some p)
    then SessionStore.removeSkipVote (Song.id song) w
    else SessionStore.addSkipVote (Song.id song) w.
Proof.
  intros Hs Hp.
  unfold UseSkipVoting.handleSkipVote, PlayingView.hasSkipVoted, SkipVoting.songSkipVotes.
  unfold mbind, M_bind, get. rewrite Hs, Hp. cbv zeta.
  assert (Hsame : forall l : list SkipVote.t,
            existsb (fun v => bool_decide (SkipVote.song_id v = Song.id song
                                           /\ SkipVote.participant_id v = Participant.id p)) l
            = existsb (fun v => bool_decide (SkipVote.participant_id v = Participant.id p))
                (filter (fun v => SkipVote.song_id v = Song.id song) l)).
  { induction l as [| v l IH]; [reflexivity |].
    cbn [existsb]. destruct (decide (SkipVote.song_id v = Song.id song)) as [Hv | Hv].
    - rewrite filter_cons_True by exact Hv. cbn [existsb]. rewrite IH. f_equal.
      apply bool_decide_ext. tauto.
    - rewrite filter_cons_False by exact Hv. rewrite IH.
      rewrite bool_decide_eq_false_2 by tauto. reflexivity. }
  rewrite Hsame. destruct (existsb _ _); reflexivity.
Qed.

Lemma handleSkipVote_follows_button_witness :
  let w := Example.world (Example.session playing (Some 0) false) [Example.song1] []
             [Example.vote Example.alice Example.song1] (Some Example.alice) in
  UseSkipVoting.handleSkipVote (Some Example.song1) w
  = if PlayingView.hasSkipVoted (State.skipVotes (store w)) Example.song1 (Some Example.alice)
    then SessionStore.removeSkipVote (Song.id Example.song1) w
    else SessionStore.addSkipVote (Song.id Example.song1) w.
Proof.
  cbv zeta.
  refine (handleSkipVote_follows_button Example.song1
            (Example.world (Example.session playing (Some 0) false) [Example.song1] []
               [Example.vote Example.alice Example.song1] (Some Example.alice))
            (Example.session playing (Some 0) false) Example.alice _ _).
  - reflexivity.
  - reflexivity.
Defined.

(** X30: What one sync tick asks of the player: it presses play only for a
    paused player with autoplay on after a user interaction; it seeks only
    for a playing player that is more than three seconds away from the
    expected offset, and then to that offset; in every state other than
    playing and paused it asks nothing. *)
Theorem syncTick_commands startedAt startTime now autoplay interacted state currentTime :
  let tick := YouTubePlayer.syncTick startedAt startTime now autoplay interacted state
                currentTime in
  let expectedTime := YouTubePlayer.getExpectedPlaybackTime startedAt startTime now in
  (YouTubePlayer.PlayVideo ∈ tick
   <-> state = 2 /\ autoplay = true /\ interacted = true)
  /\ (forall t, YouTubePlayer.SeekTo t ∈ tick
                <-> state = 1 /\ t = expectedTime
                    /\ (3 < Qabs (currentTime - inject_Z expectedTime))%Q)
  /\ (state <> 1 -> state <> 2 -> tick = []).
Proof.
  cbv zeta. unfold YouTubePlayer.syncTick. cbv zeta.
  destruct (decide (state = 2)) as [-> | H2].
  - rewrite bool_decide_eq_true_2 by reflexivity. cbn [andb].
    destruct autoplay, interacted; cbn [andb];
      rewrite ?(bool_decide_eq_false_2 (2 = 1)) by discriminate;
      (split; [| split; [intros t |]]);
      try (split; [intros Hin | intros H; intuition (discriminate || lia)]);
      try (repeat (apply elem_of_cons in Hin as [Hin | Hin]; [discriminate |]);
           apply elem_of_nil in Hin; destruct Hin);
      try (intros; contradiction);
      try (repeat split; left).
  - rewrite (bool_decide_eq_false_2 (state = 2)) by exact H2. cbn [andb].
    destruct (decide (state = 1)) as [-> | H1].
    + rewrite bool_decide_eq_true_2 by reflexivity.
      destruct (Qlt_le_dec 3 _) as [Hdrift | Hdrift]; cbn [app].
      * split; [| split; [intros t |]].
        -- split; [intros Hin | intros (H & _); discriminate].
           repeat (apply elem_of_cons in Hin as [Hin | Hin]; [discriminate |]).
           apply elem_of_nil in Hin; destruct Hin.
        -- split.
           ++ intros Hin.
              repeat (apply elem_of_cons in Hin as [Hin | Hin];
                      [first [discriminate | injection Hin as ->; repeat split; assumption] |]).
              apply elem_of_nil in Hin; destruct Hin.
           ++ intros (_ & -> & _). do 2 right. left.
        -- intros H; contradiction.
      * split; [| split; [intros t |]].
        -- split; [intros Hin | intros (H & _); discriminate].
           repeat (apply elem_of_cons in Hin as [Hin | Hin]; [discriminate |]).
           apply elem_of_nil in Hin; destruct Hin.
        -- split.
           ++ intros Hin.
              repeat (apply elem_of_cons in Hin as [Hin | Hin]; [discriminate |]).
              apply elem_of_nil in Hin; destruct Hin.
           ++ intros (_ & _ & Hlt). exfalso. apply (Qlt_irrefl 3).
              eapply Qlt_le_trans; eassumption.
        -- intros H; contradiction.
    + rewrite (bool_decide_eq_false_2 (state = 1)) by exact H1.
      split; [| split; [intros t |]].
      * split; [intros Hin; apply elem_of_nil in Hin; destruct Hin | intros (H & _); contradiction].
      * split; [intros Hin; apply elem_of_nil in Hin; destruct Hin | intros (H & _); contradiction].
      * reflexivity.
Qed.

(** ** Reordering the queue *)

#[local] Instance positioned_before_trans : Transitive Db.positioned_before.
Proof. intros a b c. unfold Db.positioned_before. lia. Qed.

(** A list whose [i]-th row has position [i] is in the order of the
    positions. *)
Lemma positions_sorted (l : list Song.t) : forall k : nat,
  (forall i q, l !! i = Some q -> Song.position q = Z.of_nat (k + i)) ->
  Sorted Db.positioned_before l.
Proof.
  induction l as [| a l IH]; intros k Hpos; [constructor |].
  constructor.
  - apply (IH (S k)). intros i q Hq. rewrite (Hpos (S i) q Hq). f_equal. lia.
  - destruct l as [| b l]; constructor.
    unfold Db.positioned_before.
    rewrite (Hpos 0%nat a eq_refl), (Hpos 1%nat b eq_refl). lia.
Qed.

Lemma reorderSongs_reload_ok songs sessionId w :
  reliable w -> undisturbed w ->
  NoDup (map Song.id songs) ->
  songs ≡ₚ filter (fun q => Song.session_id q = sessionId) (Db.songs (db w)) ->
  exists w1 w2,
    SessionStore.reorderSongs songs w = (Ok tt, w1)
    /\ SessionStore.onSongsChange sessionId w1 = (Ok tt, w2)
    /\ State.songs (store w1) = songs
    /\ State.songs (store w2)
       = imap (fun index song => repositioned (Song.id song) (Z.of_nat index) song) songs.
Proof.
  intros Hr Hu Hnodup Hperm.
  set (us := imap (fun index song => (Song.id song, Z.of_nat index)) songs).
  set (G := fun q => foldl (fun q u => repositioned u.1 u.2 q) q us).
  set (T := imap (fun index song => repositioned (Song.id song) (Z.of_nat index) song) songs).
  assert (Hus : us.*1 = map Song.id songs).
  { subst us. apply list_eq. intros i.
    change (map Song.id songs) with (Song.id <$> songs).
    rewrite !list_lookup_fmap, list_lookup_imap.
    destruct (songs !! i); reflexivity. }
  assert (HG : map G songs = T).
  { subst T. apply list_eq. intros i.
    change (map G songs) with (G <$> songs).
    rewrite list_lookup_fmap, list_lookup_imap.
    destruct (songs !! i) as [song |] eqn:Hi; [| reflexivity].
    cbn. f_equal. subst G. cbv beta.
    apply repositioned_all_hit; [rewrite Hus; exact Hnodup |].
    subst us. apply list_elem_of_lookup. exists i.
    rewrite list_lookup_imap, Hi. reflexivity. }
  assert (HT : forall i q, T !! i = Some q -> Song.position q = Z.of_nat i).
  { intros i q Hq. subst T. rewrite list_lookup_imap in Hq.
    destruct (songs !! i) as [song |]; [| discriminate].
    cbn in Hq. injection Hq as <-. unfold repositioned.
    rewrite decide_True by reflexivity. reflexivity. }
  (* the run *)
  unfold SessionStore.reorderSongs. cbv zeta. unfold mbind at 1, M_bind at 1.
  destruct (position_updates_songs us w Hr Hu)
    as (rs & w1 & Hrun & Hrs & Hsongs & Hst & Hf & Ho & _).
  fold us. rewrite Hrun.
  assert (Hnone : filter (fun r : Resp unit => is_error r = true) rs = []).
  { clear Hrun. induction Hrs as [| r rs Hr0 _ IH]; [reflexivity |].
    rewrite filter_cons_False by congruence. exact IH. }
  rewrite Hnone. cbn [length]. rewrite decide_False by lia.
  unfold set. eexists. eexists. split; [reflexivity |].
  unfold SessionStore.onSongsChange. unfold mbind, M_bind.
  rewrite request_quiet
    by (cbn [faults others]; first [intros k; rewrite Hf; apply Hr
                                   | intros k d; rewrite Ho; apply Hu]).
  cbn [Db.select_songs fst snd store db State.with_songs State.songs set].
  split; [reflexivity |]. split; [reflexivity |].
  cbn [store State.with_songs State.songs].
  rewrite Hsongs, repositioned_all_map. fold G.
  (* the reloaded rows are the rows of [T] *)
  assert (Hfilter : forall l : list Song.t,
            filter (fun q => Song.session_id q = sessionId) (map G l)
            = map G (filter (fun q => Song.session_id q = sessionId) l)).
  { induction l as [| q l IH]; [reflexivity |]. cbn [map].
    assert (HGq : Song.session_id (G q) = Song.session_id q)
      by apply repositioned_all_id.
    destruct (decide (Song.session_id q = sessionId)) as [Hq | Hq].
    - rewrite !filter_cons_True by congruence. cbn [map]. rewrite IH. reflexivity.
    - rewrite !filter_cons_False by congruence. exact IH. }
  rewrite Hfilter.
  assert (Hreload : merge_sort Db.positioned_before
                      (map G (filter (fun q => Song.session_id q = sessionId)
                                (Db.songs (db w))))
                    ≡ₚ T).
  { rewrite merge_sort_Permutation, <- HG.
    change (G <$> filter (fun q => Song.session_id q = sessionId) (Db.songs (db w))
            ≡ₚ G <$> songs).
    rewrite Hperm. reflexivity. }
  apply (Sorted_unique_strong Db.positioned_before).
  - intros x1 x2 Hx1 Hx2 H12 H21. rewrite Hreload in Hx1.
    apply list_elem_of_lookup in Hx1 as (i1 & Hi1).
    apply list_elem_of_lookup in Hx2 as (i2 & Hi2).
    unfold Db.positioned_before in H12, H21.
    rewrite (HT _ _ Hi1), (HT _ _ Hi2) in *.
    assert (i1 = i2) by lia. subst i2. congruence.
  - apply Sorted_merge_sort. apply _.
  - apply (positions_sorted T 0). intros i q Hq. rewrite (HT i q Hq). reflexivity.
  - exact Hreload.
Qed.


(** X28: After [reorderSongs] the store holds the given order: a client that
    reloads the queue gets the given list, each row with its index as
    position.  The list must be the stored queue of the session in some
    order (as after a load and a shuffle), without a repeated id.  The
    caller's own local rows keep the positions they had. *)
Theorem reorderSongs_reload songs sessionId w :
  reliable w -> undisturbed w ->
  NoDup (map Song.id songs) ->
  songs ≡ₚ filter (fun q => Song.session_id q = sessionId) (Db.songs (db w)) ->
  let '(r, w1) := SessionStore.reorderSongs songs w in
  let '(r', w2) := SessionStore.onSongsChange sessionId w1 in
  r = Ok tt /\ r' = Ok tt
  /\ State.songs (store w1) = songs
  /\ State.songs (store w2)
     = imap (fun index song => repositioned (Song.id song) (Z.of_nat index) song) songs.
Proof.
  intros Hr Hu Hnodup Hperm.
  destruct (reorderSongs_reload_ok songs sessionId w Hr Hu Hnodup Hperm)
    as (w1 & w2 & Hrun1 & Hrun2 & Hlocal & Hreload).
  rewrite Hrun1, Hrun2. repeat split; assumption.
Qed.

Lemma reorderSongs_reload_witness :
  let songs := [Example.song3; Example.song1; Example.song2] in
  let w := Example.world (Example.session waiting None false)
             [Example.song1; Example.song2; Example.song3] [] [] (Some Example.alice) in
  let '(r, w1) := SessionStore.reorderSongs songs w in
  let '(r', w2) := SessionStore.onSongsChange "party" w1 in
  r = Ok tt /\ r' = Ok tt
  /\ State.songs (store w1) = songs
  /\ State.songs (store w2)
     = imap (fun index song => repositioned (Song.id song) (Z.of_nat index) song) songs.
Proof.
  cbv zeta.
  refine (reorderSongs_reload [Example.song3; Example.song1; Example.song2] "party"
            (Example.world (Example.session waiting None false)
               [Example.song1; Example.song2; Example.song3] [] [] (Some Example.alice))
            _ _ _ _).
  - intros k; reflexivity.
  - intros k d; reflexivity.
  - cbn. repeat (apply NoDup_cons; split;
      [intros Hin; repeat (apply elem_of_cons in Hin as [Hin | Hin]; [discriminate |]);
       apply elem_of_nil in Hin; exact Hin |]).
    apply NoDup_nil_2.
  - vm_compute.
    etrans; [apply Permutation_swap |]. apply perm_skip, Permutation_swap.
Defined.

(** X29: After the host has shuffled the queue, a client that reloads it sees the
    host's order: the reloaded ids are the ids of the host's local list, in
    the same order, with positions 0, 1, 2, ...  The host's list must mirror
    the stored queue of the session, without a repeated id. *)
Theorem shuffleQueue_reload w s :
  State.session (store w) = Some s ->
  Session.status s <> playing ->
  reliable w -> undisturbed w ->
  NoDup (map Song.id (State.songs (store w))) ->
  State.songs (store w)
  ≡ₚ filter (fun q => Song.session_id q = Session.id s) (Db.songs (db w)) ->
  let '(r, w1) := SessionStore.shuffleQueue w in
  let '(r', w2) := SessionStore.onSongsChange (Session.id s) w1 in
  r = Ok tt /\ r' = Ok tt
  /\ State.songs (store w1) ≡ₚ State.songs (store w)
  /\ map Song.id (State.songs (store w2)) = map Song.id (State.songs (store w1))
  /\ map Song.position (State.songs (store w2))
     = imap (fun index _ => Z.of_nat index) (State.songs (store w1)).
Proof.
  intros Hs Hstatus Hr Hu Hnodup Hperm.
  unfold SessionStore.shuffleQueue. unfold mbind at 1, M_bind at 1, get.
  rewrite Hs. rewrite decide_False by exact Hstatus.
  unfold mbind, M_bind.
  destruct (shuffle_loop_ok (length (State.songs (store w)) - 1) (State.songs (store w)) w)
    as (ys & Hrun & Hys).
  rewrite Hrun.
  match goal with
  | |- context [SessionStore.reorderSongs ys ?w0] =>
      destruct (reorderSongs_reload_ok ys (Session.id s) w0)
        as (w1 & w2 & Hrun1 & Hrun2 & Hlocal & Hreload);
        [exact Hr | exact Hu | | |]
  end.
  - change (NoDup (Song.id <$> ys)). rewrite Hys. exact Hnodup.
  - cbn [db]. rewrite Hys. exact Hperm.
  - rewrite Hrun1, Hrun2. split; [reflexivity |]. split; [reflexivity |].
    rewrite Hreload, Hlocal. split; [exact Hys |]. split.
    + apply list_eq. intros i.
      change (map Song.id ys) with (Song.id <$> ys).
      change (map Song.id ?l) with (Song.id <$> l).
      rewrite !list_lookup_fmap, list_lookup_imap.
      destruct (ys !! i) as [song |]; [| reflexivity].
      cbn. f_equal. apply repositioned_id.
    + apply list_eq. intros i.
      change (map Song.position ?l) with (Song.position <$> l).
      rewrite list_lookup_fmap, !list_lookup_imap.
      destruct (ys !! i) as [song |]; [| reflexivity].
      cbn. f_equal. unfold repositioned. rewrite decide_True by reflexivity. reflexivity.
Qed.

Lemma shuffleQueue_reload_witness :
  let s := Example.session waiting None false in
  let w := Example.world s [Example.song1; Example.song2; Example.song3] [] []
             (Some Example.alice) in
  let '(r, w1) := SessionStore.shuffleQueue w in
  let '(r', w2) := SessionStore.onSongsChange (Session.id s) w1 in
  r = Ok tt /\ r' = Ok tt
  /\ State.songs (store w1) ≡ₚ State.songs (store w)
  /\ map Song.id (State.songs (store w2)) = map Song.id (State.songs (store w1))
  /\ map Song.position (State.songs (store w2))
     = imap (fun index _ => Z.of_nat index) (State.songs (store w1)).
Proof.
  cbv zeta.
  refine (shuffleQueue_reload
            (Example.world (Example.session waiting None false)
               [Example.song1; Example.song2; Example.song3] [] [] (Some Example.alice))
            (Example.session waiting None false) _ _ _ _ _ _).
  - reflexivity.
  - discriminate.
  - intros k; reflexivity.
  - intros k d; reflexivity.
  - cbn. repeat (apply NoDup_cons; split;
      [intros Hin; repeat (apply elem_of_cons in Hin as [Hin | Hin]; [discriminate |]);
       apply elem_of_nil in Hin; exact Hin |]).
    apply NoDup_nil_2.
  - vm_compute. reflexivity.
Defined.
